(** * usable-kanban: the content codec, the board and the chat-tool bridge

    A shallow embedding of [js/api.js] (UsableAPI), of the OAuth helper
    (UsableAuth) and of [js/kanban.js] (KanbanBoard), with the properties
    the specification states about them and further properties of the
    same code.

    Conventions of the embedding.
    - A JavaScript string is the list of its UTF-16 code units ([jsstring]).
    - [undefined] and [null] are [None]; a property that is read with
      [x || d] goes through [or_default].  Where the code tells the two
      apart, in a template literal or with [x !== undefined], the value
      is a [field]: [Missing], [Null] or a text.
    - Sort keys and clock readings are integers ([Z]); every number the
      board computes with is far below 2^53, where the floating point
      operations of the source are exact.
    - A function that can throw returns an [outcome]; code that reads or
      writes the application state lives in the monad [M].
    - A handler runs to its end before the next event is taken, but for
      [handleDrop]: after its [await] it reads [this.draggedCardData]
      again, which [dragend] has reset by then, so it is given what the
      other handlers do in the meantime.  What the servers answer and
      what the clock reads are inputs.
    - The delay of a timer is what [setTimeout] makes of it, a signed
      32-bit integer.
    - Of the document only what the handlers read back is kept: the
      children of the drop zones, the counters, the total, the toast and
      the loading flag.  Style classes other than [card--dragging] are
      not. *)

From Stdlib Require Import List NArith ZArith String Ascii Bool Lia DecimalString
  Permutation Sorted.
Import ListNotations.

Set Implicit Arguments.
Set Warnings "-register-all".

(* ================================================================== *)
(** * Platform: strings, whitespace, regular expressions            *)
(* ================================================================== *)

Module JS.

(** UTF-16 code units. *)
Definition jsstring := list N.

Definition lit (s : string) : jsstring :=
  map N_of_ascii (list_ascii_of_string s).

(** The line feed, U+000A. *)
Definition LF : N := 10%N.

Fixpoint str_eqb (a b : jsstring) : bool :=
  match a, b with
  | [], [] => true
  | x :: a', y :: b' => N.eqb x y && str_eqb a' b'
  | _, _ => false
  end.

(** [x || d] on a value that is a string, [undefined] or [null]: the
    empty string is falsy as well. *)
Definition or_default (x : option jsstring) (d : jsstring) : jsstring :=
  match x with
  | Some (c :: s) => c :: s
  | _ => d
  end.

(** Truthiness of a string-or-undefined value. *)
Definition truthy (x : option jsstring) : bool :=
  match x with
  | Some (_ :: _) => true
  | _ => false
  end.

(** ECMAScript WhiteSpace and LineTerminator code units: what
    [String.prototype.trim] strips and what [\s] matches. *)
Definition is_space (c : N) : bool :=
  ((9 <=? c) && (c <=? 13) || (c =? 32) || (c =? 160) || (c =? 5760)
   || (8192 <=? c) && (c <=? 8202) || (c =? 8232) || (c =? 8233)
   || (c =? 8239) || (c =? 8287) || (c =? 12288) || (c =? 65279))%N.

(** LineTerminator code units: what [.] does not match. *)
Definition is_line_terminator (c : N) : bool :=
  ((c =? 10) || (c =? 13) || (c =? 8232) || (c =? 8233))%N.

Definition is_dot (c : N) : bool := negb (is_line_terminator c).

(** [[\s\S]]: every code unit. *)
Definition is_any (c : N) : bool := is_space c || negb (is_space c).

Fixpoint drop_while (p : N -> bool) (s : jsstring) : jsstring :=
  match s with
  | c :: s' => if p c then drop_while p s' else s
  | [] => []
  end.

Definition trimStart (s : jsstring) : jsstring := drop_while is_space s.
Definition trimEnd (s : jsstring) : jsstring := rev (drop_while is_space (rev s)).
Definition trim (s : jsstring) : jsstring := trimEnd (trimStart s).

(** [s.split(sep)] for a one-unit separator. *)
Fixpoint split_on (sep : N) (s : jsstring) : list jsstring :=
  match s with
  | [] => [[]]
  | c :: s' =>
      if N.eqb c sep then [] :: split_on sep s'
      else match split_on sep s' with
           | p :: ps => (c :: p) :: ps
           | [] => [[c]]
           end
  end.

(** [l.join(sep)]. *)
Fixpoint join (sep : jsstring) (l : list jsstring) : jsstring :=
  match l with
  | [] => []
  | [a] => a
  | a :: l' => a ++ sep ++ join sep l'
  end.

(** [s.replace(/a/g, b)] for single code units [a] and [b]. *)
Definition replace_all (a b : N) (s : jsstring) : jsstring :=
  map (fun c => if N.eqb c a then b else c) s.

(** Decimal rendering of a non-negative integer, as in a template
    literal. *)
Definition decimal (n : nat) : jsstring :=
  lit (NilEmpty.string_of_uint (Nat.to_uint n)).

(** What a [throw] carries.  The message of an error raised by the engine
    itself (a TypeError, a network failure, a JSON syntax error) is
    engine-defined, so those are kept symbolic. *)
Inductive exn : Type :=
| Error (message : jsstring)
| TypeError
| SyntaxError
| NetworkError
| InvalidCharacterError.

Inductive outcome (A : Type) : Type :=
| Returns (a : A)
| Throws (e : exn).
Arguments Throws {A} e.

Definition obind {A B} (x : outcome A) (f : A -> outcome B) : outcome B :=
  match x with
  | Returns a => f a
  | Throws e => Throws e
  end.

(** Calling a method on a value that may be [undefined]. *)
Definition deref {A} (x : option A) : outcome A :=
  match x with
  | Some a => Returns a
  | None => Throws TypeError
  end.

(** ** Backtracking regular expressions

    The fragment of the ECMAScript pattern language the sources use:
    literal text, quantified character classes (greedy and lazy), an
    optional code unit, capture groups and the two anchors.  Matching is
    the backtracking search of the language definition, written with a
    success continuation; a quantifier tries its alternatives in the
    order the language prescribes. *)
Inductive regex : Type :=
| Lit (l : jsstring)                      (* literal text *)
| Star (greedy : bool) (p : N -> bool)    (* [c]* and [c]*? *)
| Plus (p : N -> bool)                    (* [c]+ *)
| Opt (c : N)                             (* c? *)
| Group (i : nat) (r : regex)             (* ( r ), the i-th group *)
| Cat (a b : regex)
| Bos                                     (* ^ *)
| Eos.                                    (* $ *)

Definition captures := list (nat * jsstring).

Fixpoint capture (i : nat) (c : captures) : option jsstring :=
  match c with
  | [] => None
  | (j, s) :: c' => if Nat.eqb i j then Some s else capture i c'
  end.

(** A continuation receives the position, the rest of the input and the
    captures so far. *)
Definition kont := nat -> jsstring -> captures -> option captures.

Definition orelse {A} (x y : option A) : option A :=
  match x with
  | Some a => Some a
  | None => y
  end.

Fixpoint strip_prefix (l s : jsstring) : option jsstring :=
  match l, s with
  | [], _ => Some s
  | x :: l', y :: s' => if N.eqb x y then strip_prefix l' s' else None
  | _ :: _, [] => None
  end.

Fixpoint star (greedy : bool) (p : N -> bool) (k : kont)
         (pos : nat) (s : jsstring) (c : captures) : option captures :=
  match s with
  | x :: s' =>
      if p x then
        if greedy then orelse (star greedy p k (S pos) s' c) (k pos s c)
        else orelse (k pos s c) (star greedy p k (S pos) s' c)
      else k pos s c
  | [] => k pos s c
  end.

Fixpoint run (r : regex) (k : kont)
         (pos : nat) (s : jsstring) (c : captures) : option captures :=
  match r with
  | Lit l =>
      match strip_prefix l s with
      | Some s' => k (pos + List.length l) s' c
      | None => None
      end
  | Star g p => star g p k pos s c
  | Plus p =>
      match s with
      | x :: s' => if p x then star true p k (S pos) s' c else None
      | [] => None
      end
  | Opt x =>
      match s with
      | y :: s' =>
          if N.eqb x y then orelse (k (S pos) s' c) (k pos s c) else k pos s c
      | [] => k pos s c
      end
  | Group i r' =>
      run r' (fun pos' s' c' => k pos' s' ((i, firstn (pos' - pos) s) :: c'))
          pos s c
  | Cat a b => run a (run b k) pos s c
  | Bos => if Nat.eqb pos 0 then k pos s c else None
  | Eos => match s with [] => k pos s c | _ :: _ => None end
  end.

Definition accept : kont := fun _ _ c => Some c.

(** The leftmost match: try every start position in turn. *)
Fixpoint search (r : regex) (pos : nat) (s : jsstring) : option captures :=
  match run r accept pos s [] with
  | Some c => Some c
  | None =>
      match s with
      | [] => None
      | _ :: s' => search r (S pos) s'
      end
  end.

(** [s.match(r)] for a pattern without the [g] flag: [None] is [null];
    the captures of a match are read with [capture]. *)
Definition str_match (r : regex) (s : jsstring) : option captures :=
  search r 0 s.

(** ** Timers *)

(** The conversion of a number to a 32-bit signed integer. *)
Definition ToInt32 (z : Z) : Z :=
  ((z + 2147483648) mod 4294967296 - 2147483648)%Z.

(** The delay [setTimeout(f, delay)] goes by: [delay] as a 32-bit signed
    integer, and 0 when that is negative. *)
Definition timer_delay (delay : Z) : Z := Z.max (ToInt32 delay) 0.

End JS.

Import JS.

(* ================================================================== *)
(** * js/config.js                                                  *)
(* ================================================================== *)

Module CONFIG.

Module STATUSES.
Definition TODO : jsstring := lit "todo".
Definition IN_PROGRESS : jsstring := lit "in-progress".
Definition DONE : jsstring := lit "done".
End STATUSES.

Definition PRIORITIES : list jsstring := [lit "low"; lit "medium"; lit "high"].

Definition DEFAULT_TAGS : list jsstring := [lit "kloddin"; lit "todo"].

(** The connection settings, filled in by [CONFIG.init]. *)
Record settings : Type := {
  API_TOKEN : jsstring;
  WORKSPACE_ID : jsstring;
  FRAGMENT_TYPE_ID : jsstring
}.

Definition API_BASE_URL : jsstring := lit "/api".

End CONFIG.

(* ================================================================== *)
(** * The data that crosses the wire                                *)
(* ================================================================== *)

(** A property that the code also prints, or tests against [undefined]:
    there [undefined], [null] and a string are three things. *)
Inductive field : Type :=
| Missing                      (* undefined: the key is not there *)
| Null
| Text (s : jsstring).

(** What [x || d], [!x] and [x === s] make of it: [undefined] and [null]
    are alike to them. *)
Definition text_of (x : field) : option jsstring :=
  match x with
  | Text s => Some s
  | Missing | Null => None
  end.

(** A memory fragment as the remote store delivers it. *)
Module Fragment.
Record t : Type := make {
  id : jsstring;
  title : field;
  summary : option jsstring;
  content : option jsstring;
  tags : option (list jsstring)
}.
End Fragment.

(** The [tags] argument of [buildTags]: a comma separated string, an
    array, or anything else. *)
Inductive tags_arg : Type :=
| TagString (s : jsstring)
| TagArray (l : list jsstring)
| TagOther.

(** The object the board hands to [createTodo], [updateTodo] and
    [deleteTodo]. *)
Module TodoData.
Record t : Type := make {
  title : field;
  summary : option jsstring;
  status : option jsstring;
  priority : option jsstring;
  sort : option Z;
  content : option jsstring;
  tags : tags_arg
}.
End TodoData.

Module Http.

Inductive method : Type := GET | POST | PATCH | DELETE.

(** The JSON body of a create or update call; [JSON.stringify] leaves out
    the properties that are [undefined]. *)
Record fragment_body : Type := {
  workspaceId : option jsstring;
  fragmentTypeId : option jsstring;
  title : field;
  summary : jsstring;
  content : jsstring;
  tags : list jsstring
}.

Inductive body : Type :=
| Json (b : fragment_body)
| Form (fields : list (jsstring * jsstring)).

Record request : Type := {
  url : jsstring;
  verb : method;
  bearer : option jsstring;      (* the Authorization header, when sent *)
  payload : option body
}.

(** The properties the client reads off a JSON reply.  A reply that is
    not an object has none of them. *)
Record reply_object : Type := {
  fragments : option (list Fragment.t);
  message : option jsstring;
  access_token : option jsstring;
  refresh_token : option jsstring;
  expires_in : option Z
}.

Inductive json : Type :=
| JNull
| JObject (o : reply_object).

Definition empty_object : reply_object :=
  {| fragments := None; message := None; access_token := None;
     refresh_token := None; expires_in := None |}.

(** What [fetch] resolves to, or [Unreachable] when it rejects.  [parsed]
    is the reply text read as JSON, [None] when it is not JSON. *)
Inductive response : Type :=
| Unreachable
| Reply (ok : bool) (status : nat) (text : jsstring) (parsed : option json).

End Http.

(** Values of the language, for the one place where the client reads
    untyped JSON (the claims of the access token). *)
Inductive jsvalue : Type :=
| VUndefined
| VNull
| VBool (b : bool)
| VNumber (z : Z)
| VString (s : jsstring)
| VArray (l : list jsvalue)
| VObject (props : list (jsstring * jsvalue))
| VBuiltin (name : jsstring).

(** What the environment supplies: built-ins of the language with tables
    too large to embed, and the servers behind [fetch].  [server] answers
    the last entry of the request log and may depend on the whole log. *)
Class Platform : Type := {
  toLowerCase : jsstring -> jsstring;
  atob : jsstring -> outcome jsstring;
  JSON_parse : jsstring -> outcome jsvalue;
  location_origin : jsstring;               (* window.location.origin *)
  server : list Http.request -> Http.response
}.

(* ================================================================== *)
(** * The state of the page and the monad of its handlers           *)
(* ================================================================== *)

(** The result of [parseContent].  The parser writes [status],
    [priority] and [body]; [sort] is [None] (the property is absent)
    until [handleDrop] assigns it. *)
Module Parsed.
Record t : Type := make {
  status : jsstring;
  priority : jsstring;
  body : jsstring;
  sort : option Z
}.
End Parsed.

(** The object [{ ...todo, parsed }] behind a card. *)
Record card_data : Type := {
  todo : Fragment.t;
  parsed : Parsed.t
}.

(** Children of a drop zone.  A card is named by the reference of the
    [card_data] object its listeners close over. *)
Inductive child : Type :=
| Card (ref : nat) (dragging : bool)
| DropIndicator.

Record zone : Type := {
  dropzone : jsstring;           (* data-dropzone *)
  children : list child
}.

Inductive embed_message : Type :=
| AUTH (token : jsstring)
| REGISTER_TOOLS (tools : list jsstring)
| ADD_CONTEXT (workspace : option jsstring) (text : jsstring)
| TOOL_RESPONSE (requestId : option jsstring) (result : tool_result)
with tool_result : Type :=
| TaskList (tasks : list task_view)
| Task (t : task_view)
| Success (message : jsstring)
| Failure (error : exn)
with task_view : Type :=
| TaskView (id : jsstring) (title : field) (summary : option jsstring)
           (status priority : jsstring) (content : option jsstring)
           (tags : list jsstring).

Record world : Type := {
  (* CONFIG *)
  config : CONFIG.settings;
  (* UsableAuth *)
  _accessToken : option jsstring;
  _refreshToken : option jsstring;
  _refreshTimer : option Z;                  (* delay the armed timer goes by *)
  (* localStorage, sessionStorage, location *)
  usable_refresh_token : option jsstring;
  usable_pkce_verifier : option jsstring;
  location_code : option jsstring;           (* ?code=... *)
  (* KanbanBoard *)
  todos : list Fragment.t;
  draggedCard : option nat;
  draggedCardData : option nat;
  (* the document *)
  objects : list card_data;                  (* card data objects, by reference *)
  zones : list zone;
  counts : list (jsstring * jsstring);       (* data-count elements and their text *)
  taskCount : jsstring;
  toast : option (jsstring * jsstring);
  loading : bool;
  embed : bool;                              (* the chat iframe has a window *)
  (* what left the page *)
  http_log : list Http.request;
  outbox : list embed_message
}.

Definition M (A : Type) : Type := world -> outcome A * world.

Definition ret {A} (a : A) : M A := fun w => (Returns a, w).
Definition throw {A} (e : exn) : M A := fun w => (Throws e, w).
Definition bind {A B} (m : M A) (f : A -> M B) : M B :=
  fun w => match m w with
           | (Returns a, w') => f a w'
           | (Throws e, w') => (Throws e, w')
           end.
Definition get : M world := fun w => (Returns w, w).
Definition modify (f : world -> world) : M unit := fun w => (Returns tt, f w).
Definition lift {A} (x : outcome A) : M A := fun w => (x, w).

(** [try { m } catch (e) { h e }]: the effects of [m] up to the throw
    stay. *)
Definition try_catch {A} (m : M A) (h : exn -> M A) : M A :=
  fun w => match m w with
           | (Returns a, w') => (Returns a, w')
           | (Throws e, w') => h e w'
           end.

(** [try { m } finally { f }]. *)
Definition finally {A} (m : M A) (f : M unit) : M A :=
  fun w => match m w with
           | (r, w') =>
               match f w' with
               | (Returns _, w'') => (r, w'')
               | (Throws e, w'') => (Throws e, w'')
               end
           end.

Definition when (b : bool) (m : M unit) : M unit := if b then m else ret tt.

(** [await m] where [m] has sent its request: until the answer is there
    the page takes other events, and [meanwhile] is what their handlers
    do; what they throw does not reach the one that waits. *)
Definition await {A} (m : M A) (meanwhile : M unit) : M A :=
  fun w => match m w with
           | (r, w') => (r, snd (meanwhile w'))
           end.

(** The state a handler leaves behind. *)
Definition exec {A} (m : M A) (w : world) : world := snd (m w).

Declare Scope js_scope.
Delimit Scope js_scope with js.
Notation "x <- m ;; k" := (bind m (fun x => k))
  (at level 61, m at next level, right associativity) : js_scope.
Notation "m ;; k" := (bind m (fun _ => k))
  (at level 61, right associativity) : js_scope.
Open Scope js_scope.

(** Assignments to one field of the state. *)
Definition set__accessToken (v : option jsstring) (w : world) : world :=
  {| config := config w; _accessToken := v; _refreshToken := _refreshToken w;
     _refreshTimer := _refreshTimer w; usable_refresh_token := usable_refresh_token w;
     usable_pkce_verifier := usable_pkce_verifier w; location_code := location_code w;
     todos := todos w; draggedCard := draggedCard w;
     draggedCardData := draggedCardData w; objects := objects w; zones := zones w;
     counts := counts w; taskCount := taskCount w; toast := toast w;
     loading := loading w; embed := embed w; http_log := http_log w;
     outbox := outbox w |}.
Definition set__refreshToken (v : option jsstring) (w : world) : world :=
  {| config := config w; _accessToken := _accessToken w; _refreshToken := v;
     _refreshTimer := _refreshTimer w; usable_refresh_token := usable_refresh_token w;
     usable_pkce_verifier := usable_pkce_verifier w; location_code := location_code w;
     todos := todos w; draggedCard := draggedCard w;
     draggedCardData := draggedCardData w; objects := objects w; zones := zones w;
     counts := counts w; taskCount := taskCount w; toast := toast w;
     loading := loading w; embed := embed w; http_log := http_log w;
     outbox := outbox w |}.
Definition set__refreshTimer (v : option Z) (w : world) : world :=
  {| config := config w; _accessToken := _accessToken w;
     _refreshToken := _refreshToken w; _refreshTimer := v;
     usable_refresh_token := usable_refresh_token w;
     usable_pkce_verifier := usable_pkce_verifier w; location_code := location_code w;
     todos := todos w; draggedCard := draggedCard w;
     draggedCardData := draggedCardData w; objects := objects w; zones := zones w;
     counts := counts w; taskCount := taskCount w; toast := toast w;
     loading := loading w; embed := embed w; http_log := http_log w;
     outbox := outbox w |}.
Definition set_usable_refresh_token (v : option jsstring) (w : world) : world :=
  {| config := config w; _accessToken := _accessToken w;
     _refreshToken := _refreshToken w; _refreshTimer := _refreshTimer w;
     usable_refresh_token := v; usable_pkce_verifier := usable_pkce_verifier w;
     location_code := location_code w; todos := todos w; draggedCard := draggedCard w;
     draggedCardData := draggedCardData w; objects := objects w; zones := zones w;
     counts := counts w; taskCount := taskCount w; toast := toast w;
     loading := loading w; embed := embed w; http_log := http_log w;
     outbox := outbox w |}.
Definition set_usable_pkce_verifier (v : option jsstring) (w : world) : world :=
  {| config := config w; _accessToken := _accessToken w;
     _refreshToken := _refreshToken w; _refreshTimer := _refreshTimer w;
     usable_refresh_token := usable_refresh_token w; usable_pkce_verifier := v;
     location_code := location_code w; todos := todos w; draggedCard := draggedCard w;
     draggedCardData := draggedCardData w; objects := objects w; zones := zones w;
     counts := counts w; taskCount := taskCount w; toast := toast w;
     loading := loading w; embed := embed w; http_log := http_log w;
     outbox := outbox w |}.
Definition set_location_code (v : option jsstring) (w : world) : world :=
  {| config := config w; _accessToken := _accessToken w;
     _refreshToken := _refreshToken w; _refreshTimer := _refreshTimer w;
     usable_refresh_token := usable_refresh_token w;
     usable_pkce_verifier := usable_pkce_verifier w; location_code := v;
     todos := todos w; draggedCard := draggedCard w;
     draggedCardData := draggedCardData w; objects := objects w; zones := zones w;
     counts := counts w; taskCount := taskCount w; toast := toast w;
     loading := loading w; embed := embed w; http_log := http_log w;
     outbox := outbox w |}.
Definition set_todos (v : list Fragment.t) (w : world) : world :=
  {| config := config w; _accessToken := _accessToken w;
     _refreshToken := _refreshToken w; _refreshTimer := _refreshTimer w;
     usable_refresh_token := usable_refresh_token w;
     usable_pkce_verifier := usable_pkce_verifier w; location_code := location_code w;
     todos := v; draggedCard := draggedCard w; draggedCardData := draggedCardData w;
     objects := objects w; zones := zones w; counts := counts w;
     taskCount := taskCount w; toast := toast w; loading := loading w;
     embed := embed w; http_log := http_log w; outbox := outbox w |}.
Definition set_draggedCard (v : option nat) (w : world) : world :=
  {| config := config w; _accessToken := _accessToken w;
     _refreshToken := _refreshToken w; _refreshTimer := _refreshTimer w;
     usable_refresh_token := usable_refresh_token w;
     usable_pkce_verifier := usable_pkce_verifier w; location_code := location_code w;
     todos := todos w; draggedCard := v; draggedCardData := draggedCardData w;
     objects := objects w; zones := zones w; counts := counts w;
     taskCount := taskCount w; toast := toast w; loading := loading w;
     embed := embed w; http_log := http_log w; outbox := outbox w |}.
Definition set_draggedCardData (v : option nat) (w : world) : world :=
  {| config := config w; _accessToken := _accessToken w;
     _refreshToken := _refreshToken w; _refreshTimer := _refreshTimer w;
     usable_refresh_token := usable_refresh_token w;
     usable_pkce_verifier := usable_pkce_verifier w; location_code := location_code w;
     todos := todos w; draggedCard := draggedCard w; draggedCardData := v;
     objects := objects w; zones := zones w; counts := counts w;
     taskCount := taskCount w; toast := toast w; loading := loading w;
     embed := embed w; http_log := http_log w; outbox := outbox w |}.
Definition set_objects (v : list card_data) (w : world) : world :=
  {| config := config w; _accessToken := _accessToken w;
     _refreshToken := _refreshToken w; _refreshTimer := _refreshTimer w;
     usable_refresh_token := usable_refresh_token w;
     usable_pkce_verifier := usable_pkce_verifier w; location_code := location_code w;
     todos := todos w; draggedCard := draggedCard w;
     draggedCardData := draggedCardData w; objects := v; zones := zones w;
     counts := counts w; taskCount := taskCount w; toast := toast w;
     loading := loading w; embed := embed w; http_log := http_log w;
     outbox := outbox w |}.
Definition set_zones (v : list zone) (w : world) : world :=
  {| config := config w; _accessToken := _accessToken w;
     _refreshToken := _refreshToken w; _refreshTimer := _refreshTimer w;
     usable_refresh_token := usable_refresh_token w;
     usable_pkce_verifier := usable_pkce_verifier w; location_code := location_code w;
     todos := todos w; draggedCard := draggedCard w;
     draggedCardData := draggedCardData w; objects := objects w; zones := v;
     counts := counts w; taskCount := taskCount w; toast := toast w;
     loading := loading w; embed := embed w; http_log := http_log w;
     outbox := outbox w |}.
Definition set_counts (v : list (jsstring * jsstring)) (w : world) : world :=
  {| config := config w; _accessToken := _accessToken w;
     _refreshToken := _refreshToken w; _refreshTimer := _refreshTimer w;
     usable_refresh_token := usable_refresh_token w;
     usable_pkce_verifier := usable_pkce_verifier w; location_code := location_code w;
     todos := todos w; draggedCard := draggedCard w;
     draggedCardData := draggedCardData w; objects := objects w; zones := zones w;
     counts := v; taskCount := taskCount w; toast := toast w; loading := loading w;
     embed := embed w; http_log := http_log w; outbox := outbox w |}.
Definition set_taskCount (v : jsstring) (w : world) : world :=
  {| config := config w; _accessToken := _accessToken w;
     _refreshToken := _refreshToken w; _refreshTimer := _refreshTimer w;
     usable_refresh_token := usable_refresh_token w;
     usable_pkce_verifier := usable_pkce_verifier w; location_code := location_code w;
     todos := todos w; draggedCard := draggedCard w;
     draggedCardData := draggedCardData w; objects := objects w; zones := zones w;
     counts := counts w; taskCount := v; toast := toast w; loading := loading w;
     embed := embed w; http_log := http_log w; outbox := outbox w |}.
Definition set_toast (v : option (jsstring * jsstring)) (w : world) : world :=
  {| config := config w; _accessToken := _accessToken w;
     _refreshToken := _refreshToken w; _refreshTimer := _refreshTimer w;
     usable_refresh_token := usable_refresh_token w;
     usable_pkce_verifier := usable_pkce_verifier w; location_code := location_code w;
     todos := todos w; draggedCard := draggedCard w;
     draggedCardData := draggedCardData w; objects := objects w; zones := zones w;
     counts := counts w; taskCount := taskCount w; toast := v; loading := loading w;
     embed := embed w; http_log := http_log w; outbox := outbox w |}.
Definition set_loading (v : bool) (w : world) : world :=
  {| config := config w; _accessToken := _accessToken w;
     _refreshToken := _refreshToken w; _refreshTimer := _refreshTimer w;
     usable_refresh_token := usable_refresh_token w;
     usable_pkce_verifier := usable_pkce_verifier w; location_code := location_code w;
     todos := todos w; draggedCard := draggedCard w;
     draggedCardData := draggedCardData w; objects := objects w; zones := zones w;
     counts := counts w; taskCount := taskCount w; toast := toast w; loading := v;
     embed := embed w; http_log := http_log w; outbox := outbox w |}.
Definition set_http_log (v : list Http.request) (w : world) : world :=
  {| config := config w; _accessToken := _accessToken w;
     _refreshToken := _refreshToken w; _refreshTimer := _refreshTimer w;
     usable_refresh_token := usable_refresh_token w;
     usable_pkce_verifier := usable_pkce_verifier w; location_code := location_code w;
     todos := todos w; draggedCard := draggedCard w;
     draggedCardData := draggedCardData w; objects := objects w; zones := zones w;
     counts := counts w; taskCount := taskCount w; toast := toast w;
     loading := loading w; embed := embed w; http_log := v; outbox := outbox w |}.
Definition set_outbox (v : list embed_message) (w : world) : world :=
  {| config := config w; _accessToken := _accessToken w;
     _refreshToken := _refreshToken w; _refreshTimer := _refreshTimer w;
     usable_refresh_token := usable_refresh_token w;
     usable_pkce_verifier := usable_pkce_verifier w; location_code := location_code w;
     todos := todos w; draggedCard := draggedCard w;
     draggedCardData := draggedCardData w; objects := objects w; zones := zones w;
     counts := counts w; taskCount := taskCount w; toast := toast w;
     loading := loading w; embed := embed w; http_log := http_log w; outbox := v |}.

(* ================================================================== *)
(** * js/api.js: UsableAPI                                          *)
(* ================================================================== *)

Module UsableAPI.

Local Infix ">>" := Cat (at level 60, right associativity).

(** The pattern [/^---\n([\s\S]*?)\n---\n?([\s\S]{0,})$/]; the last
    quantifier is the source's greedy star. *)
Definition frontmatter_pattern : regex :=
  Bos >> Lit (lit "---" ++ [LF]) >> Group 1 (Star false is_any)
      >> Lit (LF :: lit "---") >> Opt LF >> Group 2 (Star true is_any) >> Eos.

(** [/status:\s*(.+)/] *)
Definition status_pattern : regex :=
  Lit (lit "status:") >> Star true is_space >> Group 1 (Plus is_dot).

(** [/priority:\s*(.+)/] *)
Definition priority_pattern : regex :=
  Lit (lit "priority:") >> Star true is_space >> Group 1 (Plus is_dot).

(** Build YAML frontmatter content. *)
Definition buildContent (todo : TodoData.t) : jsstring :=
  let frontmatter :=
    join [LF]
      [ lit "---";
        lit "status: " ++ or_default (TodoData.status todo) CONFIG.STATUSES.TODO;
        lit "priority: " ++ or_default (TodoData.priority todo) (lit "medium");
        lit "---" ] in
  let body := or_default (TodoData.content todo) [] in
  frontmatter ++ [LF; LF] ++ body.

(** Parse fragment content to extract frontmatter and body. *)
Definition parseContent (content : option jsstring) : outcome Parsed.t :=
  let result := Parsed.make CONFIG.STATUSES.TODO (lit "medium") [] None in
  match content with
  | None | Some [] => Returns result
  | Some content =>
      match str_match frontmatter_pattern content with
      | Some frontmatterMatch =>
          let frontmatter := capture 1 frontmatterMatch in
          obind (deref (capture 2 frontmatterMatch)) (fun rest =>
          let body := trim rest in
          obind (deref frontmatter) (fun frontmatter =>
          obind
            (match str_match status_pattern frontmatter with
             | Some statusMatch =>
                 obind (deref (capture 1 statusMatch)) (fun s => Returns (trim s))
             | None => Returns (Parsed.status result)
             end) (fun status =>
          obind
            (match str_match priority_pattern frontmatter with
             | Some priorityMatch =>
                 obind (deref (capture 1 priorityMatch)) (fun s => Returns (trim s))
             | None => Returns (Parsed.priority result)
             end) (fun priority =>
          Returns (Parsed.make status priority body None)))))
      | None =>
          Returns (Parsed.make (Parsed.status result) (Parsed.priority result)
                               content None)
      end
  end.

Section WithPlatform.
Context {P : Platform}.

Definition nonempty (s : jsstring) : bool :=
  match s with [] => false | _ :: _ => true end.

(** [Array.from(new Set(l))]: first occurrences, in order. *)
Definition distinct (l : list jsstring) : list jsstring :=
  fold_left (fun acc x => if existsb (str_eqb x) acc then acc else acc ++ [x]) l [].

(** Build tags array with defaults. *)
Definition buildTags (tags : tags_arg) : list jsstring :=
  let tagArray :=
    match tags with
    | TagString s =>
        filter nonempty (map (fun t => toLowerCase (trim t)) (split_on 44 s))
    | TagArray l =>
        filter nonempty (map (fun t => toLowerCase (trim t)) l)
    | TagOther => []
    end in
  distinct (CONFIG.DEFAULT_TAGS ++ tagArray).

(** [fetch]: the request joins the log and the server answers it. *)
Definition fetch (r : Http.request) : M Http.response :=
  w <- get ;;
  let log := http_log w ++ [r] in
  modify (set_http_log log) ;;
  ret (server log).

(** [res.json()]. *)
Definition json_of (parsed : option Http.json) : M Http.json :=
  match parsed with
  | Some j => ret j
  | None => throw SyntaxError
  end.

(** Make an authenticated API request. *)
Definition request (endpoint : jsstring) (verb : Http.method)
           (payload : option Http.fragment_body) : M Http.json :=
  w <- get ;;
  let url := CONFIG.API_BASE_URL ++ endpoint in
  response <- fetch {| Http.url := url; Http.verb := verb;
                       Http.bearer := Some (CONFIG.API_TOKEN (config w));
                       Http.payload := option_map Http.Json payload |} ;;
  match response with
  | Http.Unreachable => throw NetworkError
  | Http.Reply ok status _ parsed =>
      if negb ok then
        (* response.json().catch(() => ({})) *)
        let error := match parsed with Some j => j
                                     | None => Http.JObject Http.empty_object end in
        match error with
        | Http.JNull => throw TypeError
        | Http.JObject o =>
            throw (Error (or_default (Http.message o)
                                     (lit "API Error: " ++ decimal status)))
        end
      else json_of parsed
  end.

(** Fetch all Todo fragments from the workspace. *)
Definition getTodos : M (list Fragment.t) :=
  w <- get ;;
  data <- request (lit "/memory-fragments?workspaceId="
                     ++ CONFIG.WORKSPACE_ID (config w)
                     ++ lit "&fragmentTypeId="
                     ++ CONFIG.FRAGMENT_TYPE_ID (config w)
                     ++ lit "&limit=100") Http.GET None ;;
  match data with
  | Http.JNull => throw TypeError
  | Http.JObject o =>
      ret (match Http.fragments o with Some l => l | None => [] end)
  end.

(** Create a new Todo fragment. *)
Definition createTodo (todo : TodoData.t) : M Http.json :=
  w <- get ;;
  let content := buildContent todo in
  request (lit "/memory-fragments") Http.POST
    (Some {| Http.workspaceId := Some (CONFIG.WORKSPACE_ID (config w));
             Http.fragmentTypeId := Some (CONFIG.FRAGMENT_TYPE_ID (config w));
             Http.title := TodoData.title todo;
             Http.summary := or_default (TodoData.summary todo) [];
             Http.content := content;
             Http.tags := buildTags (TodoData.tags todo) |}).

(** Update an existing Todo fragment. *)
Definition updateTodo (id : jsstring) (todo : TodoData.t) : M Http.json :=
  let content := buildContent todo in
  request (lit "/memory-fragments/" ++ id) Http.PATCH
    (Some {| Http.workspaceId := None;
             Http.fragmentTypeId := None;
             Http.title := TodoData.title todo;
             Http.summary := or_default (TodoData.summary todo) [];
             Http.content := content;
             Http.tags := buildTags (TodoData.tags todo) |}).

(** Delete a Todo fragment.  The function declares the one parameter
    [id]; the board calls it with a second argument, which the language
    drops. *)
Definition deleteTodo (id : jsstring) (dropped : TodoData.t) : M unit :=
  _ <- request (lit "/memory-fragments/" ++ id) Http.DELETE None ;;
  ret tt.

End WithPlatform.

End UsableAPI.

(* ================================================================== *)
(** * UsableAuth: OAuth login with PKCE                             *)
(* ================================================================== *)

Module UsableAuth.

Definition CLIENT_ID : jsstring := lit "mcp_oauth_client".

(** The object [getUserInfo] returns. *)
Record user_info : Type := {
  name : jsvalue;
  email : jsvalue;
  sub : jsvalue
}.

(** Truthiness of a value. *)
Definition truthy_value (v : jsvalue) : bool :=
  match v with
  | VUndefined | VNull => false
  | VBool b => b
  | VNumber z => negb (Z.eqb z 0)
  | VString s => UsableAPI.nonempty s
  | VArray _ | VObject _ | VBuiltin _ => true
  end.

(** [a || b]. *)
Definition or_else (a b : jsvalue) : jsvalue :=
  if truthy_value a then a else b.

Fixpoint own_property (key : jsstring) (props : list (jsstring * jsvalue)) : jsvalue :=
  match props with
  | [] => VUndefined
  | (k, v) :: props' => if str_eqb key k then v else own_property key props'
  end.

(** [v.key] for the keys [getUserInfo] reads ([name],
    [preferred_username], [email], [sub]).  Reading a property of [null]
    or [undefined] throws; of those keys only [sub] is inherited, by
    strings, from [String.prototype]. *)
Definition get_property (v : jsvalue) (key : jsstring) : outcome jsvalue :=
  match v with
  | VUndefined | VNull => Throws TypeError
  | VObject props => Returns (own_property key props)
  | VString _ =>
      Returns (if str_eqb key (lit "sub") then VBuiltin (lit "String.prototype.sub")
               else VUndefined)
  | VBool _ | VNumber _ | VArray _ | VBuiltin _ => Returns VUndefined
  end.

(** [try { x } catch { h }] without state. *)
Definition ocatch {A} (x : outcome A) (h : A) : outcome A :=
  match x with
  | Returns a => Returns a
  | Throws _ => Returns h
  end.

Section WithPlatform.
Context {P : Platform}.

Definition REDIRECT_URI : jsstring := location_origin ++ lit "/callback".

(** Schedule a token refresh ~30s before expiry. *)
Definition scheduleRefresh (expiresIn : Z) : M unit :=
  (* clearTimeout on the armed timer, then arm the new one *)
  let delay := Z.max ((expiresIn - 30) * 1000) 10000 in
  modify (set__refreshTimer (Some (timer_delay delay))).

(** Store tokens and schedule refresh. *)
Definition _setTokens (tokens : Http.json) : M unit :=
  match tokens with
  | Http.JNull => throw TypeError
  | Http.JObject t =>
      modify (set__accessToken (Http.access_token t)) ;;
      modify (set__refreshToken (Http.refresh_token t)) ;;
      when (truthy (Http.refresh_token t))
           (modify (set_usable_refresh_token (Http.refresh_token t))) ;;
      scheduleRefresh (match Http.expires_in t with
                       | Some z => if Z.eqb z 0 then 300 else z
                       | None => 300
                       end)
  end.

Definition token_request (fields : list (jsstring * jsstring)) : Http.request :=
  {| Http.url := lit "/auth/token"; Http.verb := Http.POST;
     Http.bearer := None; Http.payload := Some (Http.Form fields) |}.

(** Handle the OAuth callback: exchange code for tokens. *)
Definition handleCallback : M bool :=
  w <- get ;;
  let code := location_code w in
  if negb (truthy code) then ret false else
  let verifier := usable_pkce_verifier w in
  if negb (truthy verifier) then ret false else
  try_catch
    (let body := [ (lit "grant_type", lit "authorization_code");
                   (lit "client_id", CLIENT_ID);
                   (lit "code", or_default code []);
                   (lit "redirect_uri", REDIRECT_URI);
                   (lit "code_verifier", or_default verifier []) ] in
     res <- UsableAPI.fetch (token_request body) ;;
     match res with
     | Http.Unreachable => throw NetworkError
     | Http.Reply ok _ text parsed =>
         if negb ok then throw (Error (lit "Token exchange failed: " ++ text))
         else
           tokens <- UsableAPI.json_of parsed ;;
           _setTokens tokens ;;
           (* Clean up *)
           modify (set_usable_pkce_verifier None) ;;
           modify (set_location_code None) ;;
           ret true
     end)
    (fun err => ret false).

(** Get the current access token. *)
Definition getAccessToken : M (option jsstring) :=
  w <- get ;; ret (_accessToken w).

(** Refresh the access token using the refresh token. *)
Definition refreshToken : M (option jsstring) :=
  w <- get ;;
  let rt := if truthy (_refreshToken w) then _refreshToken w
            else usable_refresh_token w in
  if negb (truthy rt) then ret None else
  try_catch
    (let body := [ (lit "grant_type", lit "refresh_token");
                   (lit "client_id", CLIENT_ID);
                   (lit "refresh_token", or_default rt []) ] in
     res <- UsableAPI.fetch (token_request body) ;;
     match res with
     | Http.Unreachable => throw NetworkError
     | Http.Reply ok _ _ parsed =>
         if negb ok then
           (* Refresh token expired: clear state *)
           modify (set__accessToken None) ;;
           modify (set__refreshToken None) ;;
           modify (set_usable_refresh_token None) ;;
           ret None
         else
           tokens <- UsableAPI.json_of parsed ;;
           _setTokens tokens ;;
           ret (match tokens with
                | Http.JObject t => Http.access_token t
                | Http.JNull => None
                end)
     end)
    (fun err => ret None).

(** Check if user is authenticated. *)
Definition isAuthenticated : M bool :=
  w <- get ;; ret (truthy (_accessToken w)).

(** The body of the [try] block of [getUserInfo]. *)
Definition decode_claims (token : jsstring) : outcome (option user_info) :=
  let parts := split_on 46 token in
  if negb (Nat.eqb (List.length parts) 3) then Returns None else
  obind (deref (nth_error parts 1)) (fun segment =>
  obind (atob (replace_all 95 47 (replace_all 45 43 segment))) (fun decoded =>
  obind (JSON_parse decoded) (fun payload =>
  obind (get_property payload (lit "name")) (fun name =>
  obind (get_property payload (lit "preferred_username")) (fun username =>
  obind (get_property payload (lit "email")) (fun email =>
  obind (get_property payload (lit "sub")) (fun sub =>
  Returns (Some {| name := or_else (or_else name username) (VString (lit "User"));
                   email := or_else email (VString []);
                   sub := sub |})))))))).

(** Decode JWT payload to get user info; [None] is [null]. *)
Definition getUserInfo (w : world) : outcome (option user_info) :=
  match _accessToken w with
  | Some (c :: token) => ocatch (decode_claims (c :: token)) None
  | _ => Returns None
  end.

End WithPlatform.

End UsableAuth.

(* ================================================================== *)
(** * js/kanban.js: KanbanBoard                                     *)
(* ================================================================== *)

Module KanbanBoard.

(** The one origin the chat embed is served from. *)
Definition EMBED_ORIGIN : jsstring := lit "https://chat.usable.dev".

Definition DELETED : jsstring := lit "deleted".

(** ** The document *)

Definition is_card (c : child) : bool :=
  match c with Card _ _ => true | DropIndicator => false end.

(** [.card:not(.card--dragging)] *)
Definition is_still_card (c : child) : bool :=
  match c with Card _ dragging => negb dragging | DropIndicator => false end.

Definition is_indicator (c : child) : bool :=
  match c with DropIndicator => true | Card _ _ => false end.

Definition is_card_ref (r : nat) (c : child) : bool :=
  match c with Card r' _ => Nat.eqb r r' | DropIndicator => false end.

(** [Array.from(l).indexOf(x)], [None] for -1. *)
Fixpoint index_where {A} (p : A -> bool) (l : list A) : option nat :=
  match l with
  | [] => None
  | x :: l' => if p x then Some 0 else option_map S (index_where p l')
  end.

(** [document.querySelector('[data-dropzone=status]')]: the position of
    the first such zone. *)
Definition find_zone (status : jsstring) (zs : list zone) : option nat :=
  index_where (fun z => str_eqb (dropzone z) status) zs.

(** Apply [f] to the [i]-th zone. *)
Fixpoint update_zone (i : nat) (f : list child -> list child) (zs : list zone)
  : list zone :=
  match zs, i with
  | [], _ => []
  | z :: zs', O => {| dropzone := dropzone z; children := f (children z) |} :: zs'
  | z :: zs', S i' => z :: update_zone i' f zs'
  end.

Definition map_children (f : list child -> list child) (zs : list zone) : list zone :=
  map (fun z => {| dropzone := dropzone z; children := f (children z) |}) zs.

(** [referenceNode.parentNode.insertBefore(x, referenceNode)] *)
Fixpoint insert_before (r : nat) (x : child) (l : list child) : list child :=
  match l with
  | [] => []
  | c :: l' => if is_card_ref r c then x :: c :: l' else c :: insert_before r x l'
  end.

(** Set the text of the first [data-count=status] element, if any. *)
Fixpoint set_count (status text : jsstring) (cs : list (jsstring * jsstring))
  : list (jsstring * jsstring) :=
  match cs with
  | [] => []
  | (k, t) :: cs' =>
      if str_eqb k status then (k, text) :: cs' else (k, t) :: set_count status text cs'
  end.

(** [counts[key] = n] on an object: an existing key keeps its place. *)
Fixpoint assign (key : jsstring) (n : nat) (o : list (jsstring * nat))
  : list (jsstring * nat) :=
  match o with
  | [] => [(key, n)]
  | (k, m) :: o' => if str_eqb k key then (k, n) :: o' else (k, m) :: assign key n o'
  end.

(** ** Grouping by status *)

(** The names every object inherits from [Object.prototype]. *)
Definition Object_prototype_names : list jsstring :=
  [ lit "constructor"; lit "__defineGetter__"; lit "__defineSetter__";
    lit "hasOwnProperty"; lit "__lookupGetter__"; lit "__lookupSetter__";
    lit "isPrototypeOf"; lit "propertyIsEnumerable"; lit "toString";
    lit "valueOf"; lit "__proto__"; lit "toLocaleString" ].

Inductive column : Type := ColTodo | ColInProgress | ColDone.

(** What [grouped[status]] evaluates to. *)
Inductive slot : Type :=
| Own (c : column)      (* one of the three arrays *)
| Inherited             (* a truthy member of Object.prototype, not an array *)
| Absent.               (* undefined *)

Definition grouped_get (status : jsstring) : slot :=
  if str_eqb status CONFIG.STATUSES.TODO then Own ColTodo
  else if str_eqb status CONFIG.STATUSES.IN_PROGRESS then Own ColInProgress
  else if str_eqb status CONFIG.STATUSES.DONE then Own ColDone
  else if existsb (str_eqb status) Object_prototype_names then Inherited
  else Absent.

(** The object [{ todo: [], 'in-progress': [], done: [] }]. *)
Record grouped (A : Type) : Type := {
  g_todo : list A;
  g_in_progress : list A;
  g_done : list A
}.

Definition no_groups {A} : grouped A :=
  {| g_todo := []; g_in_progress := []; g_done := [] |}.

Definition push {A} (c : column) (x : A) (g : grouped A) : grouped A :=
  match c with
  | ColTodo => {| g_todo := g_todo g ++ [x]; g_in_progress := g_in_progress g;
                  g_done := g_done g |}
  | ColInProgress => {| g_todo := g_todo g; g_in_progress := g_in_progress g ++ [x];
                        g_done := g_done g |}
  | ColDone => {| g_todo := g_todo g; g_in_progress := g_in_progress g;
                  g_done := g_done g ++ [x] |}
  end.

(** [Object.entries(grouped)] *)
Definition entries {A} (g : grouped A) : list (jsstring * list A) :=
  [ (CONFIG.STATUSES.TODO, g_todo g);
    (CONFIG.STATUSES.IN_PROGRESS, g_in_progress g);
    (CONFIG.STATUSES.DONE, g_done g) ].

(** [todo.parsed.sort || 0] *)
Definition sort_key (p : Parsed.t) : Z :=
  match Parsed.sort p with Some z => z | None => 0%Z end.

(** [Array.prototype.sort] is stable: equal keys keep their order. *)
Fixpoint insert_sorted (x : card_data) (l : list card_data) : list card_data :=
  match l with
  | [] => [x]
  | y :: l' =>
      if (sort_key (parsed x) <=? sort_key (parsed y))%Z then x :: l
      else y :: insert_sorted x l'
  end.

Definition sort_cards (l : list card_data) : list card_data :=
  fold_right insert_sorted [] l.

(** The [forEach] of [renderBoard] that fills [grouped]. *)
Fixpoint group_for_board (ts : list Fragment.t) (g : grouped card_data)
  : outcome (grouped card_data) :=
  match ts with
  | [] => Returns g
  | t :: ts' =>
      obind (UsableAPI.parseContent (Fragment.content t)) (fun parsed =>
      let status := or_default (Some (Parsed.status parsed)) CONFIG.STATUSES.TODO in
      (* Skip deleted items *)
      if str_eqb status DELETED then group_for_board ts' g
      else
        let card := {| todo := t; parsed := parsed |} in
        match grouped_get status with
        | Own c => group_for_board ts' (push c card g)
        | Inherited => Throws TypeError        (* .push is not a function *)
        | Absent => group_for_board ts' (push ColTodo card g)
        end)
  end.

(** [todos.map(t => ({ ...t, parsed: parseContent(t.content) }))
         .filter(t => t.parsed.status !== 'deleted')] *)
Fixpoint live_tasks (ts : list Fragment.t) : outcome (list card_data) :=
  match ts with
  | [] => Returns []
  | t :: ts' =>
      obind (UsableAPI.parseContent (Fragment.content t)) (fun parsed =>
      obind (live_tasks ts') (fun rest =>
      Returns (if str_eqb (Parsed.status parsed) DELETED then rest
               else {| todo := t; parsed := parsed |} :: rest)))
  end.

(** [(t.tags || []).filter(tg => !CONFIG.DEFAULT_TAGS.includes(tg))] *)
Definition user_tags (tags : option (list jsstring)) : list jsstring :=
  filter (fun tg => negb (existsb (str_eqb tg) CONFIG.DEFAULT_TAGS))
         (match tags with Some l => l | None => [] end).

(** A value inside a template literal. *)
Definition interpolate (x : field) : jsstring :=
  match x with
  | Text s => s
  | Null => lit "null"
  | Missing => lit "undefined"
  end.

(** ** The chat tool protocol *)

Record tool_input : Type := {
  in_id : field;
  in_title : field;
  in_summary : field;
  in_status : field;
  in_priority : field;
  in_content : field;
  in_tags : option (list jsstring)
}.

(** The payload of a TOOL_CALL message. *)
Record tool_call : Type := {
  requestId : option jsstring;
  tool : field;
  input : option tool_input
}.

(** A [message] event of the window. *)
Record message_event : Type := {
  origin : jsstring;
  data_type : option jsstring;          (* e.data?.type *)
  data_payload : option tool_call       (* e.data.payload *)
}.

(** The names in [getChatToolDefinitions]; the parameter schemas are
    constant data and are not kept. *)
Definition getChatToolDefinitions : list jsstring :=
  [ lit "list_tasks"; lit "get_task"; lit "create_task";
    lit "update_task"; lit "move_task"; lit "delete_task" ].

(** [tool === name] *)
Definition is_tool (tool : field) (name : string) : bool :=
  match tool with
  | Text t => str_eqb t (lit name)
  | Missing | Null => false
  end.

Definition tags_of (tags : option (list jsstring)) : tags_arg :=
  match tags with Some l => TagArray l | None => TagOther end.

(** [this.todos.find(t => t.id === id)] *)
Definition find_todo (id : field) (ts : list Fragment.t)
  : option Fragment.t :=
  match id with
  | Text i => find (fun t => str_eqb (Fragment.id t) i) ts
  | Missing | Null => None
  end.

(** ** The board context *)

Definition EM_DASH : N := 8212%N.
Definition QUOTE : N := 34%N.

(** The [forEach] of [getBoardContext] that fills [grouped]. *)
Fixpoint group_for_context (ts : list card_data) (g : grouped card_data)
  : outcome (grouped card_data) :=
  match ts with
  | [] => Returns g
  | t :: ts' =>
      match grouped_get (Parsed.status (parsed t)) with
      | Own c => group_for_context ts' (push c t g)
      | Inherited => Throws TypeError
      | Absent => group_for_context ts' g
      end
  end.

Definition context_line (t : card_data) : jsstring :=
  let priority := or_default (Some (Parsed.priority (parsed t))) (lit "medium") in
  let tags := user_tags (Fragment.tags (todo t)) in
  lit "- [" ++ priority ++ lit "] " ++ [QUOTE] ++ interpolate (Fragment.title (todo t))
    ++ [QUOTE] ++ lit " (id: " ++ Fragment.id (todo t) ++ lit ")"
    ++ (match tags with
        | [] => []
        | _ :: _ => lit " tags: " ++ join (lit ", ") tags
        end).

Definition context_section (entry : jsstring * list card_data) : list jsstring :=
  let (status, items) := entry in
  match items with
  | [] => []
  | _ :: _ =>
      [ lit "## " ++ status ++ lit " (" ++ decimal (List.length items) ++ lit ")" ]
        ++ map context_line items ++ [ [] ]
  end.

(** Build a text summary of the current board state for the chat AI. *)
Definition getBoardContext (w : world) : outcome jsstring :=
  obind (live_tasks (todos w)) (fun tasks =>
  obind (group_for_context tasks no_groups) (fun grouped =>
  let lines :=
    [ lit "You are embedded in a Kanban board app. The board has 3 columns: To Do, In Progress, and Done.";
      lit "IMPORTANT: Always use the registered parent tools (list_tasks, get_task, create_task, update_task, move_task, delete_task) for ALL kanban operations. Do NOT use MCP fragment tools "
        ++ [EM_DASH]
        ++ lit " the kanban status (todo/in-progress/done) is stored in YAML frontmatter inside the fragment content, not in the fragment API status field.";
      [];
      lit "Current board: " ++ decimal (List.length tasks) ++ lit " tasks total "
        ++ [EM_DASH] ++ lit " To Do: " ++ decimal (List.length (g_todo grouped))
        ++ lit ", In Progress: " ++ decimal (List.length (g_in_progress grouped))
        ++ lit ", Done: " ++ decimal (List.length (g_done grouped));
      [] ] in
  Returns (join [LF] (lines ++ flat_map context_section (entries grouped))))).

Section WithPlatform.
Context {P : Platform}.

(** ** Small effects *)

Definition showToast (message : jsstring) (type : string) : M unit :=
  modify (set_toast (Some (message, lit type))).

Definition showLoading : M unit := modify (set_loading true).
Definition hideLoading : M unit := modify (set_loading false).

(** Post a message to the chat embed iframe. *)
Definition postToEmbed (message : embed_message) : M unit :=
  w <- get ;;
  when (embed w) (modify (set_outbox (outbox w ++ [message]))).

(** Send the current JWT to the chat embed iframe. *)
Definition sendAuthToEmbed : M unit :=
  token <- UsableAuth.getAccessToken ;;
  match token with
  | Some (c :: t) => postToEmbed (AUTH (c :: t))
  | _ => ret tt
  end.

(** Register tools and context with the chat embed. *)
Definition registerChatTools : M unit :=
  postToEmbed (REGISTER_TOOLS getChatToolDefinitions) ;;
  w <- get ;;
  text <- lift (getBoardContext w) ;;
  postToEmbed (ADD_CONTEXT (Some (CONFIG.WORKSPACE_ID (config w))) text).

(** Send updated board context to the chat embed. *)
Definition sendBoardContext : M unit :=
  w <- get ;;
  text <- lift (getBoardContext w) ;;
  postToEmbed (ADD_CONTEXT None text).

(** ** Rendering *)

(** [createCard] and [zone.appendChild] for the cards of one group. *)
Fixpoint append_cards (zi : nat) (cards : list card_data) : M unit :=
  match cards with
  | [] => ret tt
  | c :: cards' =>
      w <- get ;;
      let ref := List.length (objects w) in
      modify (set_objects (objects w ++ [c])) ;;
      w <- get ;;
      modify (set_zones (update_zone zi (fun l => l ++ [Card ref false]) (zones w))) ;;
      append_cards zi cards'
  end.

Definition render_group (entry : jsstring * list card_data) : M unit :=
  let (status, group) := entry in
  w <- get ;;
  (* Sort by sort field (ascending) *)
  let sorted := sort_cards group in
  match find_zone status (zones w) with
  | Some zi => append_cards zi sorted
  | None => ret tt
  end ;;
  w <- get ;;
  modify (set_counts (set_count status (decimal (List.length sorted)) (counts w))).

Fixpoint for_each {A} (f : A -> M unit) (l : list A) : M unit :=
  match l with
  | [] => ret tt
  | x :: l' => f x ;; for_each f l'
  end.

(** Render the entire board. *)
Definition renderBoard : M unit :=
  (* Clear all columns *)
  w <- get ;;
  modify (set_zones (map_children (fun _ => []) (zones w))) ;;
  (* Group todos by status *)
  grouped <- lift (group_for_board (todos w) no_groups) ;;
  (* Render each group (sorted by sort field) *)
  for_each render_group (entries grouped) ;;
  (* Update total count *)
  let n := List.length (todos w) in
  modify (set_taskCount (decimal n ++ lit " task"
                           ++ (if Nat.eqb n 1 then [] else lit "s"))).

(** Load todos from API and render. *)
Definition loadTodos : M unit :=
  showLoading ;;
  finally
    (try_catch
       (ts <- UsableAPI.getTodos ;;
        modify (set_todos ts) ;;
        renderBoard ;;
        showToast (lit "Tasks loaded") "success")
       (fun error => showToast (lit "Failed to load tasks") "error"))
    hideLoading.

(** ** Drag and drop *)

(** Hide the drop indicator: it leaves its parent. *)
Definition hideDropIndicator : M unit :=
  w <- get ;;
  modify (set_zones (map_children (filter (fun c => negb (is_indicator c))) (zones w))).

Definition set_dragging (r : nat) (flag : bool) (l : list child) : list child :=
  map (fun c => if is_card_ref r c then Card r flag else c) l.

(** Handle drag start on the card [r]; its listener closes over the data
    object [r]. *)
Definition handleDragStart (r : nat) : M unit :=
  modify (set_draggedCard (Some r)) ;;
  modify (set_draggedCardData (Some r)) ;;
  w <- get ;;
  modify (set_zones (map_children (set_dragging r true) (zones w))).

(** Handle drag end on the card [r]. *)
Definition handleDragEnd (r : nat) : M unit :=
  w <- get ;;
  modify (set_zones (map_children (set_dragging r false) (zones w))) ;;
  hideDropIndicator ;;
  modify (set_draggedCard None) ;;
  modify (set_draggedCardData None).

(** [zone.querySelectorAll('.card:not(.card--dragging)')], by reference. *)
Definition still_cards (z : zone) : list nat :=
  flat_map (fun c => match c with Card r false => [r] | _ => [] end) (children z).

(** The drop position [handleDrop] reads off the indicator: the number
    of still cards before it, or the end of the zone when the indicator
    is elsewhere. *)
Definition drop_index (z : zone) : nat :=
  match index_where is_indicator (children z) with
  | Some indicatorIndex =>
      List.length (filter is_still_card (firstn indicatorIndex (children z)))
  | None => List.length (still_cards z)        (* Default to end *)
  end.

(** Position the drop indicator.  [hit] is the index, among the still
    cards of the zone, of the first card whose middle lies below the
    pointer; the layout decides it. *)
Definition positionDropIndicator (zi : nat) (hit : option nat) : M unit :=
  w <- get ;;
  match nth_error (zones w) zi with
  | None => ret tt
  | Some z =>
      let cards := still_cards z in
      let insertBeforeCard :=
        match hit with Some i => nth_error cards i | None => None end in
      hideDropIndicator ;;
      w <- get ;;
      match insertBeforeCard with
      | Some r =>
          modify (set_zones (update_zone zi (insert_before r DropIndicator) (zones w)))
      | None =>
          modify (set_zones (update_zone zi (fun l => l ++ [DropIndicator]) (zones w)))
      end
  end.

(** Handle drag over the zone [target]. *)
Definition handleDragOver (target : option nat) (hit : option nat) : M unit :=
  w <- get ;;
  match target, draggedCard w with
  | Some zi, Some _ => positionDropIndicator zi hit
  | _, _ => ret tt
  end.

(** Get sort value for a card by ID. *)
Definition getCardSort (id : jsstring) : M Z :=
  w <- get ;;
  match find (fun t => str_eqb (Fragment.id t) id) (todos w) with
  | Some t =>
      parsed <- lift (UsableAPI.parseContent (Fragment.content t)) ;;
      ret (sort_key parsed)
  | None => ret 0%Z
  end.

(** [card.dataset.id] *)
Definition dataset_id (r : nat) : M jsstring :=
  w <- get ;;
  o <- lift (deref (nth_error (objects w) r)) ;;
  ret (Fragment.id (todo o)).

(** Calculate sort value for a drop position; [now] is what [Date.now()]
    reads. *)
Definition calculateSortValue (zi : nat) (index : nat) (now : Z) : M Z :=
  w <- get ;;
  zone <- lift (deref (nth_error (zones w) zi)) ;;
  let cards := still_cards zone in
  (* Get sort values of surrounding cards *)
  let prevCard := match index with O => None | S i => nth_error cards i end in
  let nextCard := nth_error cards index in
  prevSort <- match prevCard with
              | Some r => id <- dataset_id r ;; getCardSort id
              | None => ret 0%Z
              end ;;
  nextSort <- match nextCard with
              | Some r => id <- dataset_id r ;; getCardSort id
              | None => ret now
              end ;;
  (* Calculate midpoint *)
  ret ((prevSort + nextSort) / 2)%Z.

(** Update column counts. *)
Definition updateCounts : M unit :=
  w <- get ;;
  let start := [ (CONFIG.STATUSES.TODO, 0); (CONFIG.STATUSES.IN_PROGRESS, 0);
                 (CONFIG.STATUSES.DONE, 0) ] in
  let tally :=
    fold_left (fun o z => assign (dropzone z)
                                 (List.length (filter is_card (children z))) o)
              (zones w) start in
  modify (set_counts (fold_left (fun cs e => set_count (fst e) (decimal (snd e)) cs)
                                tally (counts w))).

(** [this.draggedCardData.parsed.status = ...; ....parsed.sort = ...] on
    the object [r]. *)
Fixpoint assign_parsed (r : nat) (status : jsstring) (sort : Z)
         (os : list card_data) : list card_data :=
  match os, r with
  | [], _ => []
  | o :: os', O =>
      {| todo := todo o;
         parsed := Parsed.make status (Parsed.priority (parsed o))
                               (Parsed.body (parsed o)) (Some sort) |} :: os'
  | o :: os', S r' => o :: assign_parsed r' status sort os'
  end.

(** Handle drop.  [target] is the zone [e.target.closest] finds, [now]
    what the clock reads, [meanwhile] what the handlers do that the page
    runs while the update is awaited: the browser dispatches [dragend]
    right after [drop], so [handleDragEnd] is the first of them.  What
    follows the [await] reads [this.draggedCardData] again and so sees
    what they left there. *)
Definition handleDrop (target : option nat) (now : Z) (meanwhile : M unit)
  : M unit :=
  w <- get ;;
  match target, draggedCardData w with
  | Some zi, Some dref =>
      match nth_error (zones w) zi with
      | None => ret tt
      | Some zone =>
          data <- lift (deref (nth_error (objects w) dref)) ;;
          let newStatus := dropzone zone in
          let oldStatus := Parsed.status (parsed data) in
          (* Find drop position based on indicator position *)
          let cards := still_cards zone in
          let dropIndex := drop_index zone in
          (* Hide the indicator *)
          hideDropIndicator ;;
          (* Calculate new sort value *)
          newSort <- calculateSortValue zi dropIndex now ;;
          (* Check if anything changed *)
          let statusChanged := negb (str_eqb newStatus oldStatus) in
          let sortChanged :=
            match Parsed.sort (parsed data) with
            | Some s => negb (Z.eqb newSort s)
            | None => true
            end in
          if negb statusChanged && negb sortChanged then ret tt else
          (* Optimistic UI update *)
          w <- get ;;
          match draggedCard w with
          | Some r =>
              let removed :=
                map_children (filter (fun c => negb (is_card_ref r c))) (zones w) in
              modify (set_zones
                match nth_error cards dropIndex with
                | Some r' => update_zone zi (insert_before r' (Card r true)) removed
                | None => update_zone zi (fun l => l ++ [Card r true]) removed
                end)
          | None => ret tt
          end ;;
          (* Update in API *)
          try_catch
            (_ <- await
                    (UsableAPI.updateTodo (Fragment.id (todo data))
                       (TodoData.make (Fragment.title (todo data))
                                      (Fragment.summary (todo data))
                                      (Some newStatus)
                                      (Some (Parsed.priority (parsed data)))
                                      (Some newSort)
                                      (Some (Parsed.body (parsed data)))
                                      (tags_of (Fragment.tags (todo data)))))
                    meanwhile ;;
             (* Update local data *)
             w <- get ;;
             dragged <- lift (deref (draggedCardData w)) ;;
             modify (set_objects
                       (assign_parsed dragged newStatus newSort (objects w))) ;;
             (* Update counts *)
             updateCounts ;;
             showToast (lit "Task moved") "success")
            (fun error =>
               showToast (lit "Failed to move task") "error" ;;
               (* Reload to restore correct state *)
               loadTodos)
      end
  | _, _ => ret tt
  end.

(** Handle task deletion (soft-delete).  [id] is the value of the form's
    task-id field, [confirmed] the answer to the confirm dialog. *)
Definition handleDelete (id : jsstring) (confirmed : bool) : M unit :=
  w <- get ;;
  if negb (UsableAPI.nonempty id) then ret tt else
  match find (fun t => str_eqb (Fragment.id t) id) (todos w) with
  | None => ret tt
  | Some t =>
      if negb confirmed then ret tt else
      showLoading ;;
      finally
        (try_catch
           (UsableAPI.deleteTodo id
              (TodoData.make (Fragment.title t) (Fragment.summary t) None
                             None None None (tags_of (Fragment.tags t))) ;;
            showToast (lit "Task deleted") "success" ;;
            (* closeModal *)
            loadTodos)
           (fun error => showToast (lit "Failed to delete task") "error"))
        hideLoading
  end.

(** ** The tool bridge *)

Definition view (t : card_data) : task_view :=
  TaskView (Fragment.id (todo t)) (Fragment.title (todo t))
           (Fragment.summary (todo t)) (Parsed.status (parsed t))
           (Parsed.priority (parsed t)) None (user_tags (Fragment.tags (todo t))).

(** The [list_tasks] case.  [input?.status] filters when it is truthy. *)
Definition list_tasks (input : option tool_input) (w : world) : outcome tool_result :=
  obind (live_tasks (todos w)) (fun tasks =>
  let wanted := match input with Some i => text_of (in_status i) | None => None end in
  let filtered :=
    match wanted with
    | Some (c :: s) => filter (fun t => str_eqb (Parsed.status (parsed t)) (c :: s)) tasks
    | _ => tasks
    end in
  Returns (TaskList (map view filtered))).

Definition not_found (id : field) : exn :=
  Error (lit "Task not found: " ++ interpolate id).

(** The [switch] of [handleToolCall]. *)
Definition dispatch (tool : field) (input : option tool_input)
  : M tool_result :=
  if is_tool tool "list_tasks" then
    w <- get ;; lift (list_tasks input w)
  else if is_tool tool "get_task" then
    w <- get ;;
    input <- lift (deref input) ;;
    match find_todo (in_id input) (todos w) with
    | None => throw (not_found (in_id input))
    | Some t =>
        parsed <- lift (UsableAPI.parseContent (Fragment.content t)) ;;
        ret (Task (TaskView (Fragment.id t) (Fragment.title t) (Fragment.summary t)
                            (Parsed.status parsed) (Parsed.priority parsed)
                            (Some (Parsed.body parsed))
                            (user_tags (Fragment.tags t))))
    end
  else if is_tool tool "create_task" then
    input <- lift (deref input) ;;
    _ <- UsableAPI.createTodo
           (TodoData.make (in_title input)
              (if truthy (text_of (in_summary input)) then text_of (in_summary input)
               else text_of (in_title input))
              (Some (or_default (text_of (in_status input)) CONFIG.STATUSES.TODO))
              (Some (or_default (text_of (in_priority input)) (lit "medium")))
              None
              (Some (or_default (text_of (in_content input)) []))
              (TagArray (match in_tags input with Some l => l | None => [] end))) ;;
    loadTodos ;;
    showToast (lit "Task created by chat") "success" ;;
    ret (Success (lit "Task " ++ [QUOTE] ++ interpolate (in_title input) ++ [QUOTE]
                    ++ lit " created"))
  else if is_tool tool "update_task" then
    w <- get ;;
    input <- lift (deref input) ;;
    match find_todo (in_id input) (todos w) with
    | None => throw (not_found (in_id input))
    | Some existing =>
        existingParsed <- lift (UsableAPI.parseContent (Fragment.content existing)) ;;
        let title := if truthy (text_of (in_title input)) then in_title input
                     else Fragment.title existing in
        _ <- UsableAPI.updateTodo (interpolate (in_id input))
               (TodoData.make title
                  (if truthy (text_of (in_summary input)) then text_of (in_summary input)
                   else Fragment.summary existing)
                  (Some (Parsed.status existingParsed))
                  (Some (or_default (text_of (in_priority input))
                                    (Parsed.priority existingParsed)))
                  (Parsed.sort existingParsed)
                  (* input.content !== undefined ? input.content : body *)
                  (match in_content input with
                   | Missing => Some (Parsed.body existingParsed)
                   | Null => None
                   | Text c => Some c
                   end)
                  (match in_tags input with
                   | Some l => TagArray l
                   | None => tags_of (Fragment.tags existing)
                   end)) ;;
        loadTodos ;;
        showToast (lit "Task updated by chat") "success" ;;
        ret (Success (lit "Task " ++ [QUOTE] ++ interpolate title ++ [QUOTE]
                        ++ lit " updated"))
    end
  else if is_tool tool "move_task" then
    w <- get ;;
    input <- lift (deref input) ;;
    match find_todo (in_id input) (todos w) with
    | None => throw (not_found (in_id input))
    | Some toMove =>
        moveParsed <- lift (UsableAPI.parseContent (Fragment.content toMove)) ;;
        _ <- UsableAPI.updateTodo (interpolate (in_id input))
               (TodoData.make (Fragment.title toMove) (Fragment.summary toMove)
                  (text_of (in_status input))
                  (Some (Parsed.priority moveParsed))
                  (Parsed.sort moveParsed)
                  (Some (Parsed.body moveParsed))
                  (tags_of (Fragment.tags toMove))) ;;
        loadTodos ;;
        showToast (lit "Task moved to " ++ interpolate (in_status input)) "success" ;;
        ret (Success (lit "Task " ++ [QUOTE] ++ interpolate (Fragment.title toMove)
                        ++ [QUOTE] ++ lit " moved to " ++ interpolate (in_status input)))
    end
  else if is_tool tool "delete_task" then
    w <- get ;;
    input <- lift (deref input) ;;
    match find_todo (in_id input) (todos w) with
    | None => throw (not_found (in_id input))
    | Some toDelete =>
        deleteParsed <- lift (UsableAPI.parseContent (Fragment.content toDelete)) ;;
        UsableAPI.deleteTodo (interpolate (in_id input))
          (TodoData.make (Fragment.title toDelete) (Fragment.summary toDelete) None
             (Some (Parsed.priority deleteParsed)) None
             (Some (Parsed.body deleteParsed))
             (tags_of (Fragment.tags toDelete))) ;;
        loadTodos ;;
        showToast (lit "Task deleted by chat") "success" ;;
        ret (Success (lit "Task " ++ [QUOTE] ++ interpolate (Fragment.title toDelete)
                        ++ [QUOTE] ++ lit " deleted"))
    end
  else
    throw (Error (lit "Unknown tool: " ++ interpolate tool)).

(** Handle a tool call from the chat embed.  Destructuring a payload that
    is [undefined] throws before the [try]. *)
Definition handleToolCall (payload : option tool_call) : M unit :=
  call <- lift (deref payload) ;;
  try_catch
    (result <- dispatch (tool call) (input call) ;;
     postToEmbed (TOOL_RESPONSE (requestId call) result))
    (fun err =>
       postToEmbed (TOOL_RESPONSE (requestId call) (Failure err))).

(** A promise nobody awaits: a rejection goes nowhere. *)
Definition detached (m : M unit) : M unit :=
  try_catch m (fun _ => ret tt).

Definition is_type (e : message_event) (name : string) : bool :=
  match data_type e with
  | Some t => str_eqb t (lit name)
  | None => false
  end.

(** The [message] listener that [bindEvents] installs on the window. *)
Definition onMessage (e : message_event) : M unit :=
  if negb (str_eqb (origin e) EMBED_ORIGIN) then ret tt else
  when (is_type e "READY")
       (sendAuthToEmbed ;; registerChatTools) ;;
  when (is_type e "REQUEST_TOKEN_REFRESH")
       (_ <- UsableAuth.refreshToken ;; sendAuthToEmbed) ;;
  when (is_type e "TOOL_CALL")
       (detached (handleToolCall (data_payload e))) ;;
  (* TOOLS_REGISTERED only writes to the console *)
  ret tt.

End WithPlatform.

End KanbanBoard.

(* ================================================================== *)
(** * An environment to run the page in                             *)
(* ================================================================== *)

(** A concrete platform for the executable examples: ASCII lower-casing,
    the base64 alphabet, a JSON reader that knows the documents of the
    examples, and servers given as functions of the request log. *)
Module Demo.

Definition ascii_lower (s : jsstring) : jsstring :=
  map (fun c => if ((65 <=? c) && (c <=? 90))%N then (c + 32)%N else c) s.

Definition sextet (c : N) : option N :=
  if ((65 <=? c) && (c <=? 90))%N then Some (c - 65)%N
  else if ((97 <=? c) && (c <=? 122))%N then Some (c - 71)%N
  else if ((48 <=? c) && (c <=? 57))%N then Some (c + 4)%N
  else if (c =? 43)%N then Some 62%N
  else if (c =? 47)%N then Some 63%N
  else None.

(** Groups of four sextets give three octets; a last group of three or
    two gives two or one. *)
Fixpoint octets (l : list N) : option jsstring :=
  match l with
  | a :: b :: c :: d :: l' =>
      option_map (fun rest => (a * 4 + b / 16) :: ((b mod 16) * 16 + c / 4)
                                :: ((c mod 4) * 64 + d) :: rest)%N
                 (octets l')
  | [a; b; c] => Some [a * 4 + b / 16; (b mod 16) * 16 + c / 4]%N
  | [a; b] => Some [a * 4 + b / 16]%N
  | [] => Some []
  | [_] => None
  end.

Fixpoint sextets (s : jsstring) : option (list N) :=
  match s with
  | [] => Some []
  | c :: s' =>
      match sextet c, sextets s' with
      | Some x, Some l => Some (x :: l)
      | _, _ => None
      end
  end.

Definition strip_padding (s : jsstring) : jsstring :=
  if Nat.eqb (Nat.modulo (List.length s) 4) 0 then
    match rev s with
    | 61%N :: 61%N :: r => rev r
    | 61%N :: r => rev r
    | _ => s
    end
  else s.

Definition base64_decode (s : jsstring) : outcome jsstring :=
  match sextets (strip_padding s) with
  | Some l =>
      match octets l with
      | Some o => Returns o
      | None => Throws InvalidCharacterError
      end
  | None => Throws InvalidCharacterError
  end.

Definition LBRACE : N := 123%N.
Definition RBRACE : N := 125%N.
Definition COLON : N := 58%N.

(** The claims document [{"name":"Ada","email":"ada@example.org"}]. *)
Definition ada_claims : jsstring :=
  [LBRACE; KanbanBoard.QUOTE] ++ lit "name" ++ [KanbanBoard.QUOTE; COLON; KanbanBoard.QUOTE]
    ++ lit "Ada" ++ [KanbanBoard.QUOTE] ++ lit "," ++ [KanbanBoard.QUOTE] ++ lit "email"
    ++ [KanbanBoard.QUOTE; COLON; KanbanBoard.QUOTE] ++ lit "ada@example.org"
    ++ [KanbanBoard.QUOTE; RBRACE].

Definition known_json (s : jsstring) : outcome jsvalue :=
  if str_eqb s ada_claims then
    Returns (VObject [ (lit "name", VString (lit "Ada"));
                       (lit "email", VString (lit "ada@example.org")) ])
  else if str_eqb s (lit "null") then Returns VNull
  else Throws SyntaxError.

Definition platform (srv : list Http.request -> Http.response) : Platform :=
  {| toLowerCase := ascii_lower;
     atob := base64_decode;
     JSON_parse := known_json;
     location_origin := lit "http://localhost:8888";
     server := srv |}.

Definition ok_reply (o : Http.reply_object) : Http.response :=
  Http.Reply true 200 [] (Some (Http.JObject o)).

(** A fragment store that honours the verbs of the API: PATCH rewrites a
    fragment, DELETE removes it, GET lists what is there. *)
Definition fragment_path : jsstring := lit "/api/memory-fragments/".

Definition apply_request (store : list Fragment.t) (r : Http.request)
  : list Fragment.t :=
  match Http.verb r, strip_prefix fragment_path (Http.url r) with
  | Http.DELETE, Some id =>
      filter (fun f => negb (str_eqb (Fragment.id f) id)) store
  | Http.PATCH, Some id =>
      match Http.payload r with
      | Some (Http.Json b) =>
          map (fun f => if str_eqb (Fragment.id f) id
                        then Fragment.make id (Http.title b) (Some (Http.summary b))
                                           (Some (Http.content b)) (Some (Http.tags b))
                        else f) store
      | _ => store
      end
  | _, _ => store
  end.

Definition store_server (initial : list Fragment.t) (log : list Http.request)
  : Http.response :=
  match rev log with
  | [] => Http.Unreachable
  | r :: earlier =>
      let store := fold_left apply_request (rev earlier) initial in
      match Http.verb r with
      | Http.GET =>
          ok_reply {| Http.fragments := Some store; Http.message := None;
                      Http.access_token := None; Http.refresh_token := None;
                      Http.expires_in := None |}
      | _ => ok_reply Http.empty_object
      end
  end.

(** An identity provider that turns every exchange down. *)
Definition refusing_server (log : list Http.request) : Http.response :=
  Http.Reply false 400 (lit "invalid_grant") None.

(** An identity provider that grants a token pair. *)
Definition granting_server (log : list Http.request) : Http.response :=
  ok_reply {| Http.fragments := None; Http.message := None;
              Http.access_token := Some (lit "access");
              Http.refresh_token := Some (lit "refresh");
              Http.expires_in := Some 300%Z |}.

(** The page before anything is loaded: three empty columns with their
    counters, nobody logged in, the chat iframe in place. *)
Definition blank : world :=
  {| config := {| CONFIG.API_TOKEN := lit "token"; CONFIG.WORKSPACE_ID := lit "ws";
                  CONFIG.FRAGMENT_TYPE_ID := lit "ft" |};
     _accessToken := None; _refreshToken := None; _refreshTimer := None;
     usable_refresh_token := None; usable_pkce_verifier := None;
     location_code := None;
     todos := []; draggedCard := None; draggedCardData := None;
     objects := [];
     zones := [ {| dropzone := CONFIG.STATUSES.TODO; children := [] |};
                {| dropzone := CONFIG.STATUSES.IN_PROGRESS; children := [] |};
                {| dropzone := CONFIG.STATUSES.DONE; children := [] |} ];
     counts := [ (CONFIG.STATUSES.TODO, lit "0");
                 (CONFIG.STATUSES.IN_PROGRESS, lit "0");
                 (CONFIG.STATUSES.DONE, lit "0") ];
     taskCount := lit "0 tasks";
     toast := None; loading := false; embed := true;
     http_log := []; outbox := [] |}.

(** A fragment whose content is what [buildContent] writes. *)
Definition task (id title status : string) : Fragment.t :=
  Fragment.make (lit id) (Text (lit title)) (Some [])
    (Some (UsableAPI.buildContent
             (TodoData.make (Text (lit title)) None (Some (lit status))
                            (Some (lit "medium")) None None TagOther)))
    (Some CONFIG.DEFAULT_TAGS).

(** One task alone in the first column, picked up, held over its own
    column and dropped there when the clock reads 1000.  In
    [solo_dropped] nothing but [dragend] happens before the store has
    answered; in [solo_held_again] the card is also picked up and held
    over its column again by then, and [solo_dropped_later] drops it
    there when the clock reads 2000. *)
Definition solo : Fragment.t := task "a" "A" "todo".

Definition solo_platform : Platform := platform (store_server [solo]).

Definition solo_board : world :=
  exec KanbanBoard.renderBoard (set_todos [solo] blank).

Definition solo_held : world :=
  exec (KanbanBoard.handleDragOver (Some 0) None)
       (exec (KanbanBoard.handleDragStart 0) solo_board).

Definition solo_dropped : world :=
  exec (@KanbanBoard.handleDrop solo_platform (Some 0) 1000%Z
          (KanbanBoard.handleDragEnd 0))
       solo_held.

Definition picked_up_again : M unit :=
  KanbanBoard.handleDragEnd 0 ;;
  KanbanBoard.handleDragStart 0 ;;
  KanbanBoard.handleDragOver (Some 0) None.

Definition solo_held_again : world :=
  exec (@KanbanBoard.handleDrop solo_platform (Some 0) 1000%Z picked_up_again)
       solo_held.

Definition solo_dropped_later : world :=
  exec (@KanbanBoard.handleDrop solo_platform (Some 0) 2000%Z
          (KanbanBoard.handleDragEnd 0))
       solo_held_again.

(** A TOOL_CALL message as the embed posts it. *)
Definition tool_call_from (origin : string) (tool id : string)
  : KanbanBoard.message_event :=
  {| KanbanBoard.origin := lit origin;
     KanbanBoard.data_type := Some (lit "TOOL_CALL");
     KanbanBoard.data_payload :=
       Some {| KanbanBoard.requestId := Some (lit "r1");
               KanbanBoard.tool := Text (lit tool);
               KanbanBoard.input :=
                 Some {| KanbanBoard.in_id := Text (lit id);
                         KanbanBoard.in_title := Missing;
                         KanbanBoard.in_summary := Missing;
                         KanbanBoard.in_status := Missing;
                         KanbanBoard.in_priority := Missing;
                         KanbanBoard.in_content := Missing;
                         KanbanBoard.in_tags := None |} |} |}.

(** Two tasks in the store; the embed asks to delete the second and then
    asks for it by id. *)
Definition chosen : Fragment.t := task "c" "C" "done".

Definition pair_platform : Platform := platform (store_server [solo; chosen]).

Definition pair_loaded : world := exec (@KanbanBoard.loadTodos pair_platform) blank.

Definition pair_after_delete : world :=
  exec (@KanbanBoard.onMessage pair_platform
          (tool_call_from "https://chat.usable.dev" "delete_task" "c"))
       pair_loaded.

Definition pair_after_get : world :=
  exec (@KanbanBoard.onMessage pair_platform
          (tool_call_from "https://chat.usable.dev" "get_task" "c"))
       pair_after_delete.

(** The same task deleted with the button of the edit form instead. *)
Definition pair_after_button : world :=
  exec (@KanbanBoard.handleDelete pair_platform (lit "c") true) pair_loaded.

(** A task whose stored status is [deleted], alone in the cache. *)
Definition gone : Fragment.t := task "c" "C" "deleted".

Definition gone_board : world :=
  exec KanbanBoard.renderBoard (set_todos [gone] blank).

(** The page on return from the identity provider. *)
Definition returning : world :=
  set_location_code (Some (lit "abc")) (set_usable_pkce_verifier (Some (lit "ver")) blank).

(** A token whose middle segment is [ada_claims] in base64url. *)
Definition ada_token : jsstring :=
  lit "h.eyJuYW1lIjoiQWRhIiwiZW1haWwiOiJhZGFAZXhhbXBsZS5vcmcifQ.s".

End Demo.

(* ================================================================== *)
(** * What the statements below are phrased with                    *)
(* ================================================================== *)

Module Spec.

(** The end marker of the header, a line feed and three dashes. *)
Definition END_MARKER : jsstring := LF :: lit "---".

(** The first place where the end marker occurs: the text before it and
    the text after it. *)
Fixpoint find_marker (s : jsstring) : option (jsstring * jsstring) :=
  match strip_prefix END_MARKER s with
  | Some after => Some ([], after)
  | None =>
      match s with
      | [] => None
      | x :: s' =>
          match find_marker s' with
          | Some (h, after) => Some (x :: h, after)
          | None => None
          end
      end
  end.

(** The header and the rest of a text that opens with a dashes line and
    has an end marker further on; one line feed after the marker belongs
    to the marker. *)
Definition drop_line_feed (s : jsstring) : jsstring :=
  match s with
  | c :: s' => if N.eqb LF c then s' else s
  | [] => []
  end.

Definition split_frontmatter (s : jsstring) : option (jsstring * jsstring) :=
  match strip_prefix (lit "---" ++ [LF]) s with
  | None => None
  | Some s1 =>
      match find_marker s1 with
      | Some (h, after) => Some (h, drop_line_feed after)
      | None => None
      end
  end.

(** The two header lines [buildContent] writes. *)
Definition header (status priority : jsstring) : jsstring :=
  lit "status: " ++ status ++ [LF] ++ lit "priority: " ++ priority.

Definition has_frontmatter (s : jsstring) : bool :=
  match split_frontmatter s with Some _ => true | None => false end.

(** The spec's words, "delimited by a literal start/end marker pair on
    dedicated lines": the first line is three dashes and so is a later
    line. *)
Definition on_dedicated_lines (s : jsstring) : bool :=
  match split_on LF s with
  | first :: rest => str_eqb first (lit "---") && existsb (str_eqb (lit "---")) rest
  | [] => false
  end.

(** The value of a header key: the trimmed capture of the key's pattern,
    or the default. *)
Definition field (pattern : regex) (header dflt : jsstring) : jsstring :=
  match str_match pattern header with
  | Some m => match capture 1 m with Some v => trim v | None => dflt end
  | None => dflt
  end.

(** The statuses and priorities of the data model. *)
Definition statuses : list jsstring :=
  [ CONFIG.STATUSES.TODO; CONFIG.STATUSES.IN_PROGRESS; CONFIG.STATUSES.DONE;
    KanbanBoard.DELETED ].

(** A task counts as deleted when its parsed status is [deleted]. *)
Definition is_deleted (t : Fragment.t) : bool :=
  match UsableAPI.parseContent (Fragment.content t) with
  | Returns p => str_eqb (Parsed.status p) KanbanBoard.DELETED
  | Throws _ => false
  end.

(** The cache without its deleted tasks. *)
Definition without_deleted (ts : list Fragment.t) : list Fragment.t :=
  filter (fun t => negb (is_deleted t)) ts.

(** A computation that sends nothing over the network. *)
Definition quiet {A} (m : M A) : Prop :=
  forall w, http_log (exec m w) = http_log w.

(** The answers on which [request] returns: the status is in the 200s
    and the body reads as JSON.  On every other answer, and when the
    server cannot be reached, it throws. *)
Definition accepted (r : Http.response) : bool :=
  match r with
  | Http.Reply true _ _ (Some _) => true
  | _ => false
  end.

(** A computation that leaves the requests sent before it where they
    are, as every handler of the page does: whatever it sends comes
    after them. *)
Definition appends {A} (m : M A) : Prop :=
  forall w, exists more, http_log (exec m w) = http_log w ++ more.

(** The text of the total in the header for a cache of [n] tasks. *)
Definition total_text (n : nat) : jsstring :=
  decimal n ++ lit " task" ++ (if Nat.eqb n 1 then [] else lit "s").

Section WithPlatform.
Context {P : Platform}.

(** The request [handleCallback] exchanges the code with. *)
Definition exchange_request (w : world) : Http.request :=
  UsableAuth.token_request
    [ (lit "grant_type", lit "authorization_code");
      (lit "client_id", UsableAuth.CLIENT_ID);
      (lit "code", or_default (location_code w) []);
      (lit "redirect_uri", UsableAuth.REDIRECT_URI);
      (lit "code_verifier", or_default (usable_pkce_verifier w) []) ].

End WithPlatform.

(** The words of the specification for [getUserInfo], written without
    the helpers of the code. *)

(** Base64url to base64, character by character: [-] stands for [+] and
    [_] for [/]. *)
Definition base64_of_url (segment : jsstring) : jsstring :=
  map (fun c => if N.eqb c 45 then 43%N else if N.eqb c 95 then 47%N else c) segment.

(** The claim of a given name: its value in the decoded object,
    [undefined] when the object has none. *)
Definition claim (key : string) (props : list (jsstring * jsvalue)) : jsvalue :=
  match find (fun entry => str_eqb (fst entry) (lit key)) props with
  | Some (_, v) => v
  | None => VUndefined
  end.

(** A claim that does not count: it is not there, or it is one of the
    values the language takes for false. *)
Definition missing (v : jsvalue) : Prop :=
  v = VUndefined \/ v = VNull \/ v = VBool false \/ v = VNumber 0 \/ v = VString [].

End Spec.

(* ================================================================== *)
(** * The rest of UsableAuth: login, logout, session restore        *)
(* ================================================================== *)

(** What the login flow takes from the platform besides [Platform]:
    [btoa] (which throws on a code unit above 255), the SHA-256 digest
    and the UTF-8 encoder. *)
Class Crypto : Type := {
  btoa : jsstring -> outcome jsstring;
  sha256 : list N -> list N;
  utf8 : jsstring -> list N
}.

Module AuthFlow.

Definition KEYCLOAK_BASE : jsstring :=
  lit "https://auth.flowcore.io/realms/memory-mesh/protocol/openid-connect".


(** An assignment to [window.location.href]: the address before the
    question mark and the parameters after it. *)
Record navigation : Type := {
  address : jsstring;
  query : list (jsstring * jsstring)
}.

(** [s.replace(/c+$/, '')]: the run of [c] at the end goes. *)
Definition strip_trailing (c : N) (s : jsstring) : jsstring :=
  rev (drop_while (N.eqb c) (rev s)).

Section WithPlatform.
Context {P : Platform} {C : Crypto}.

(** Base64url encode a Uint8Array. *)
Definition _base64UrlEncode (bytes : list N) : outcome jsstring :=
  (* String.fromCharCode of a byte is the code unit of that value *)
  let str := bytes in
  obind (btoa str) (fun encoded =>
  Returns (strip_trailing 61 (replace_all 47 95 (replace_all 43 45 encoded)))).




(** Logout: clear tokens and redirect to Keycloak logout. *)
Definition logout : M navigation :=
  modify (set__accessToken None) ;;
  modify (set__refreshToken None) ;;
  modify (set_usable_refresh_token None) ;;
  w <- get ;;
  match _refreshTimer w with
  | Some _ => modify (set__refreshTimer None)      (* clearTimeout *)
  | None => ret tt
  end ;;
  ret {| address := KEYCLOAK_BASE ++ lit "/logout";
         query := [ (lit "client_id", UsableAuth.CLIENT_ID);
                    (lit "post_logout_redirect_uri", location_origin) ] |}.

(** Try to restore session from stored refresh token. *)
Definition tryRestore : M bool :=
  w <- get ;;
  let rt := usable_refresh_token w in
  if negb (truthy rt) then ret false else
  modify (set__refreshToken rt) ;;
  token <- UsableAuth.refreshToken ;;
  ret (truthy token).

End WithPlatform.

End AuthFlow.

(* ================================================================== *)
(** * The rest of KanbanBoard: the edit form and the silent refresh *)
(* ================================================================== *)

Module BoardForms.

(** The values of the inputs of the task form when it is submitted. *)
Record task_form : Type := {
  task_id : jsstring;
  task_title : jsstring;
  task_summary : jsstring;
  task_status : jsstring;
  task_priority : jsstring;
  task_content : jsstring;
  task_tags : jsstring
}.

Section WithPlatform.
Context {P : Platform}.

(** Handle form submission. *)
Definition handleSubmit (form : task_form) : M unit :=
  w <- get ;;
  let id := task_id form in
  let existing :=
    if UsableAPI.nonempty id
    then find (fun t => str_eqb (Fragment.id t) id) (todos w)
    else None in
  sort <- match existing with
          | Some t =>
              parsed <- lift (UsableAPI.parseContent (Fragment.content t)) ;;
              ret (Parsed.sort parsed)
          | None => ret None
          end ;;
  let todoData :=
    TodoData.make (Text (task_title form)) (Some (task_summary form))
                  (Some (task_status form)) (Some (task_priority form))
                  sort (Some (task_content form)) (TagString (task_tags form)) in
  KanbanBoard.showLoading ;;
  finally
    (try_catch
       ((if UsableAPI.nonempty id then
           _ <- UsableAPI.updateTodo id todoData ;;
           KanbanBoard.showToast (lit "Task updated") "success"
         else
           _ <- UsableAPI.createTodo todoData ;;
           KanbanBoard.showToast (lit "Task created") "success") ;;
        (* closeModal *)
        KanbanBoard.loadTodos)
       (fun error => KanbanBoard.showToast (lit "Failed to save task") "error"))
    KanbanBoard.hideLoading.

(** Silently refresh todos (no loading spinner or toast).  [stringify]
    is [JSON.stringify] on a list of fragments. *)
Definition refreshSilently (stringify : list Fragment.t -> jsstring) : M unit :=
  try_catch
    (ts <- UsableAPI.getTodos ;;
     w <- get ;;
     if negb (str_eqb (stringify ts) (stringify (todos w))) then
       modify (set_todos ts) ;;
       KanbanBoard.renderBoard ;;
       KanbanBoard.sendBoardContext
     else ret tt)
    (fun _ => ret tt).

End WithPlatform.

End BoardForms.

(* ================================================================== *)
(** * CONFIG.init and CONFIG.saveSettings                           *)
(* ================================================================== *)

Module Settings.

(** The three entries of localStorage the settings live in. *)
Record stored : Type := {
  kanban_api_token : option jsstring;
  kanban_workspace_id : option jsstring;
  kanban_fragment_type_id : option jsstring
}.

(** The object the server answers [/config] with. *)
Record defaults : Type := {
  API_TOKEN : option jsstring;
  WORKSPACE_ID : option jsstring;
  FRAGMENT_TYPE_ID : option jsstring
}.

Definition no_defaults : defaults :=
  {| API_TOKEN := None; WORKSPACE_ID := None; FRAGMENT_TYPE_ID := None |}.

(** [stored || serverDefaults.FIELD || '']: the server's answer is only
    looked at when nothing usable is stored, and reading a field of
    [null] throws. *)
Definition first_of (stored : option jsstring) (serverDefaults : option defaults)
           (field : defaults -> option jsstring) : outcome jsstring :=
  if truthy stored then Returns (or_default stored [])
  else obind (deref serverDefaults) (fun d => Returns (or_default (field d) [])).

(** Initialize config: localStorage takes priority, server env as
    fallback.  [reply] is what [fetch('/config')] followed by
    [res.json()] gives: a throw, JSON [null], or an object; [c] is CONFIG
    before.  The three assignments happen one after the other, so a
    throw leaves the earlier ones done. *)
Definition init (storage : stored) (reply : outcome (option defaults))
           (c : CONFIG.settings) : outcome unit * CONFIG.settings :=
  let serverDefaults :=
    match reply with
    | Returns d => d
    | Throws _ => Some no_defaults            (* the catch keeps {} *)
    end in
  match first_of (kanban_api_token storage) serverDefaults API_TOKEN with
  | Throws e => (Throws e, c)
  | Returns token =>
      let c1 := {| CONFIG.API_TOKEN := token;
                   CONFIG.WORKSPACE_ID := CONFIG.WORKSPACE_ID c;
                   CONFIG.FRAGMENT_TYPE_ID := CONFIG.FRAGMENT_TYPE_ID c |} in
      match first_of (kanban_workspace_id storage) serverDefaults WORKSPACE_ID with
      | Throws e => (Throws e, c1)
      | Returns workspaceId =>
          let c2 := {| CONFIG.API_TOKEN := token;
                       CONFIG.WORKSPACE_ID := workspaceId;
                       CONFIG.FRAGMENT_TYPE_ID := CONFIG.FRAGMENT_TYPE_ID c |} in
          match first_of (kanban_fragment_type_id storage) serverDefaults
                         FRAGMENT_TYPE_ID with
          | Throws e => (Throws e, c2)
          | Returns fragmentTypeId =>
              (Returns tt,
               {| CONFIG.API_TOKEN := token;
                  CONFIG.WORKSPACE_ID := workspaceId;
                  CONFIG.FRAGMENT_TYPE_ID := fragmentTypeId |})
          end
      end
  end.

(** Save settings to localStorage and update config. *)
Definition saveSettings (token workspaceId fragmentTypeId : jsstring)
  : stored * CONFIG.settings :=
  ({| kanban_api_token := Some token;
      kanban_workspace_id := Some workspaceId;
      kanban_fragment_type_id := Some fragmentTypeId |},
   {| CONFIG.API_TOKEN := token;
      CONFIG.WORKSPACE_ID := workspaceId;
      CONFIG.FRAGMENT_TYPE_ID := fragmentTypeId |}).

End Settings.

(* ================================================================== *)
(** * What the further statements are phrased with                  *)
(* ================================================================== *)

Module Frame.

(** A computation that leaves one aspect of the state as it found it. *)
Definition keeps {A B} (aspect : world -> B) (m : M A) : Prop :=
  forall w, aspect (exec m w) = aspect w.

(** What is posted to the embed, and whether there is an embed. *)
Definition channel (w : world) : list embed_message * bool := (outbox w, embed w).

(** The token state: memory, timer and the stored refresh token. *)
Definition tokens (w : world)
  : option jsstring * option jsstring * option Z * option jsstring :=
  (_accessToken w, _refreshToken w, _refreshTimer w, usable_refresh_token w).

(** The board as the user sees it and as the tools read it. *)
Definition board (w : world)
  : list Fragment.t * list zone * list card_data * list (jsstring * jsstring) * jsstring :=
  (todos w, zones w, objects w, counts w, taskCount w).

(** Everything but the document: what [renderBoard] must not touch. *)
Definition beyond_document (w : world) :=
  (config w, tokens w, usable_pkce_verifier w, location_code w, todos w,
   draggedCard w, draggedCardData w, toast w, loading w, embed w, http_log w,
   outbox w).

(** Everything but the zones and the card being dragged. *)
Definition apart_from_drag (w : world) :=
  (config w, tokens w, usable_pkce_verifier w, location_code w, todos w, objects w,
   counts w, taskCount w, toast w, loading w, embed w, http_log w, outbox w).

(** No drag is under way: the zones hold cards only, none of them marked
    as dragging, and the indicator is nowhere. *)
Definition at_rest (w : world) : bool :=
  forallb KanbanBoard.is_still_card (flat_map children (zones w)).

(** A computation that posts nothing when there is no embed to post to. *)
Definition mute {A} (m : M A) : Prop :=
  forall w, embed w = false -> channel (exec m w) = channel w.

(** A computation that always returns. *)
Definition returns {A} (m : M A) : Prop :=
  forall w, exists a, fst (m w) = Returns a.

(** The refresh token [refreshToken] goes by: the one in memory, else
    the stored one. *)
Definition held_refresh_token (w : world) : option jsstring :=
  if truthy (_refreshToken w) then _refreshToken w else usable_refresh_token w.

(** The request [refreshToken] sends for the refresh token [rt]. *)
Definition refresh_request (rt : jsstring) : Http.request :=
  UsableAuth.token_request
    [ (lit "grant_type", lit "refresh_token");
      (lit "client_id", UsableAuth.CLIENT_ID);
      (lit "refresh_token", rt) ].

(** The delay [scheduleRefresh] arms the timer with for a token reply. *)
Definition refresh_delay (t : Http.reply_object) : Z :=
  timer_delay
    (Z.max ((match Http.expires_in t with
             | Some z => if Z.eqb z 0 then 300 else z
             | None => 300
             end - 30) * 1000) 10000).

(** The tags a caller hands to [buildTags], before they are cleaned up:
    the pieces between commas of a string, the members of an array. *)
Definition given_tags (tags : tags_arg) : list jsstring :=
  match tags with
  | TagString s => split_on 44 s
  | TagArray l => l
  | TagOther => []
  end.

(** The number of drop indicators in the document. *)
Definition indicators (w : world) : nat :=
  List.length (filter KanbanBoard.is_indicator (flat_map children (zones w))).

(** The references of the cards of a zone, dragging or not. *)
Definition card_refs (z : zone) : list nat :=
  flat_map (fun c => match c with Card r _ => [r] | DropIndicator => [] end)
           (children z).

(** The tasks of the cache a column shows: not deleted, and with a status
    that [grouped] files under the column (an unknown status under the
    first). *)
Definition shown_in (c : KanbanBoard.column) (t : Fragment.t) : bool :=
  match UsableAPI.parseContent (Fragment.content t) with
  | Returns p =>
      let status := or_default (Some (Parsed.status p)) CONFIG.STATUSES.TODO in
      negb (str_eqb status KanbanBoard.DELETED)
      && match KanbanBoard.grouped_get status, c with
         | KanbanBoard.Own KanbanBoard.ColTodo, KanbanBoard.ColTodo => true
         | KanbanBoard.Own KanbanBoard.ColInProgress, KanbanBoard.ColInProgress => true
         | KanbanBoard.Own KanbanBoard.ColDone, KanbanBoard.ColDone => true
         | KanbanBoard.Absent, KanbanBoard.ColTodo => true
         | _, _ => false
         end
  | Throws _ => false
  end.

Definition column_of {A} (c : KanbanBoard.column) (g : KanbanBoard.grouped A) : list A :=
  match c with
  | KanbanBoard.ColTodo => KanbanBoard.g_todo g
  | KanbanBoard.ColInProgress => KanbanBoard.g_in_progress g
  | KanbanBoard.ColDone => KanbanBoard.g_done g
  end.

(** The object [{ ...todo, parsed }] that [renderBoard] makes of a task. *)
Definition card_of (t : Fragment.t) : card_data :=
  {| todo := t;
     parsed := match UsableAPI.parseContent (Fragment.content t) with
               | Returns p => p
               | Throws _ => Parsed.make CONFIG.STATUSES.TODO (lit "medium") [] None
               end |}.

(** A task whose status names a member of [Object.prototype]:
    [grouped[status]] is then truthy and has no [push]. *)
Definition breaks_render (t : Fragment.t) : bool :=
  match UsableAPI.parseContent (Fragment.content t) with
  | Returns p =>
      let status := or_default (Some (Parsed.status p)) CONFIG.STATUSES.TODO in
      negb (str_eqb status KanbanBoard.DELETED)
      && match KanbanBoard.grouped_get status with
         | KanbanBoard.Inherited => true
         | _ => false
         end
  | Throws _ => false
  end.


(** [n] cards appended to a zone, for the objects from [first] on. *)
Definition fresh_cards (first n : nat) : list child :=
  map (fun r => Card r false) (seq first n).

(** The page has the three columns of the board, each with its counter,
    in the order todo, in-progress, done. *)
Definition standard_layout (w : world) : Prop :=
  map dropzone (zones w)
    = [CONFIG.STATUSES.TODO; CONFIG.STATUSES.IN_PROGRESS; CONFIG.STATUSES.DONE]
  /\ map fst (counts w)
    = [CONFIG.STATUSES.TODO; CONFIG.STATUSES.IN_PROGRESS; CONFIG.STATUSES.DONE].

(** The request [getTodos] sends. *)
Definition list_request (c : CONFIG.settings) : Http.request :=
  {| Http.url := CONFIG.API_BASE_URL
                   ++ lit "/memory-fragments?workspaceId=" ++ CONFIG.WORKSPACE_ID c
                   ++ lit "&fragmentTypeId=" ++ CONFIG.FRAGMENT_TYPE_ID c
                   ++ lit "&limit=100";
     Http.verb := Http.GET;
     Http.bearer := Some (CONFIG.API_TOKEN c);
     Http.payload := None |}.

End Frame.

(* ================================================================== *)
(** * Further sample inputs                                         *)
(* ================================================================== *)

Module Sample.

Definition base64_char (x : N) : N :=
  if (x <? 26)%N then (x + 65)%N
  else if (x <? 52)%N then (x + 71)%N
  else if (x <? 62)%N then (x - 4)%N
  else if (x =? 62)%N then 43%N
  else 47%N.

Fixpoint base64_encode (l : list N) : jsstring :=
  match l with
  | a :: b :: c :: l' =>
      [ base64_char (a / 4); base64_char ((a mod 4) * 16 + b / 16);
        base64_char ((b mod 16) * 4 + c / 64); base64_char (c mod 64) ]%N
        ++ base64_encode l'
  | [a; b] =>
      [ base64_char (a / 4); base64_char ((a mod 4) * 16 + b / 16);
        base64_char ((b mod 16) * 4); 61 ]%N
  | [a] => [ base64_char (a / 4); base64_char ((a mod 4) * 16); 61; 61 ]%N
  | [] => []
  end.

(** [btoa] with its range check; the digest is a stand-in (the first 32
    bytes of the zero-padded input): no statement depends on which
    function the digest is. *)
Definition crypto : Crypto :=
  {| btoa := fun s => if forallb (fun c => (c <=? 255)%N) s
                      then Returns (base64_encode s)
                      else Throws InvalidCharacterError;
     sha256 := fun data => firstn 32 (data ++ repeat 0%N 32);
     utf8 := fun s => s |}.


(** An identity provider that cannot be reached. *)
Definition offline_server (log : list Http.request) : Http.response :=
  Http.Unreachable.

(** The payload of a TOOL_CALL for the tool [tool] on the task [id]. *)
Definition call (tool id : string) : KanbanBoard.tool_call :=
  {| KanbanBoard.requestId := Some (lit "r7");
     KanbanBoard.tool := Text (lit tool);
     KanbanBoard.input :=
       Some {| KanbanBoard.in_id := Text (lit id);
               KanbanBoard.in_title := Missing;
               KanbanBoard.in_summary := Missing;
               KanbanBoard.in_status := Text (lit "done");
               KanbanBoard.in_priority := Missing;
               KanbanBoard.in_content := Missing;
               KanbanBoard.in_tags := None |} |}.

(** A message of the embed without payload. *)
Definition notice (type : string) : KanbanBoard.message_event :=
  {| KanbanBoard.origin := KanbanBoard.EMBED_ORIGIN;
     KanbanBoard.data_type := Some (lit type);
     KanbanBoard.data_payload := None |}.

(** The board of [Demo.solo_board] with somebody logged in. *)
Definition signed_in : world := set__accessToken (Some (lit "jwt")) Demo.solo_board.

(** The digest of that board. *)
Definition solo_digest : jsstring :=
  match KanbanBoard.getBoardContext signed_in with
  | Returns text => text
  | Throws _ => []
  end.

(** The same page when the chat iframe has no window. *)
Definition without_embed (w : world) : world :=
  {| config := config w; _accessToken := _accessToken w;
     _refreshToken := _refreshToken w; _refreshTimer := _refreshTimer w;
     usable_refresh_token := usable_refresh_token w;
     usable_pkce_verifier := usable_pkce_verifier w; location_code := location_code w;
     todos := todos w; draggedCard := draggedCard w;
     draggedCardData := draggedCardData w; objects := objects w; zones := zones w;
     counts := counts w; taskCount := taskCount w; toast := toast w;
     loading := loading w; embed := false; http_log := http_log w;
     outbox := outbox w |}.

(** A task whose status names a member of [Object.prototype]. *)
Definition odd : Fragment.t := Demo.task "x" "X" "constructor".

Definition odd_cache : world := set_todos [Demo.solo; odd] Demo.blank.

(** The first column of a page. *)
Definition first_zone (w : world) : zone :=
  nth 0 (zones w) {| dropzone := []; children := [] |}.

(** The card [renderBoard] makes of [Demo.solo]. *)
Definition solo_card : card_data := Frame.card_of Demo.solo.

(** The chat asks for a new task and names neither status nor priority. *)
Definition creation : KanbanBoard.tool_call :=
  {| KanbanBoard.requestId := Some (lit "r8");
     KanbanBoard.tool := Text (lit "create_task");
     KanbanBoard.input :=
       Some {| KanbanBoard.in_id := Missing;
               KanbanBoard.in_title := Text (lit "Buy milk");
               KanbanBoard.in_summary := Null;
               KanbanBoard.in_status := Missing;
               KanbanBoard.in_priority := Null;
               KanbanBoard.in_content := Text (lit " two litres ");
               KanbanBoard.in_tags := Some [lit "Home"] |} |}.

(** Two more claims documents: one with the preferred_username bob and
    the sub [??>>] but without a name, and one with an empty email and
    the sub [?>] and without a name of either kind.  In base64url both
    need [-] and [_]. *)
Definition quoted (s : string) : jsstring :=
  [KanbanBoard.QUOTE] ++ lit s ++ [KanbanBoard.QUOTE].

Definition bob_claims : jsstring :=
  [Demo.LBRACE] ++ quoted "preferred_username" ++ [Demo.COLON] ++ quoted "bob"
    ++ lit "," ++ quoted "sub" ++ [Demo.COLON] ++ quoted "??>>" ++ [Demo.RBRACE].

Definition anon_claims : jsstring :=
  [Demo.LBRACE] ++ quoted "email" ++ [Demo.COLON]
    ++ [KanbanBoard.QUOTE; KanbanBoard.QUOTE]
    ++ lit "," ++ quoted "sub" ++ [Demo.COLON] ++ quoted "?>" ++ [Demo.RBRACE].

Definition bob_props : list (jsstring * jsvalue) :=
  [ (lit "preferred_username", VString (lit "bob")); (lit "sub", VString (lit "??>>")) ].

Definition anon_props : list (jsstring * jsvalue) :=
  [ (lit "email", VString []); (lit "sub", VString (lit "?>")) ].

Definition known_claims (s : jsstring) : outcome jsvalue :=
  if str_eqb s bob_claims then Returns (VObject bob_props)
  else if str_eqb s anon_claims then Returns (VObject anon_props)
  else Demo.known_json s.

Definition claims_platform : Platform :=
  {| toLowerCase := Demo.ascii_lower;
     atob := Demo.base64_decode;
     JSON_parse := known_claims;
     location_origin := lit "http://localhost:8888";
     server := offline_server |}.

Definition bob_segment : jsstring :=
  lit "eyJwcmVmZXJyZWRfdXNlcm5hbWUiOiJib2IiLCJzdWIiOiI_Pz4-In0".

Definition anon_segment : jsstring := lit "eyJlbWFpbCI6IiIsInN1YiI6Ij8-In0".

(** The page with a token whose middle segment is [segment]. *)
Definition holding (segment : jsstring) : world :=
  set__accessToken (Some (lit "h." ++ segment ++ lit ".s")) Demo.blank.

(** A page that kept a refresh token from an earlier visit. *)
Definition remembered : world :=
  set_usable_refresh_token (Some (lit "old-refresh")) Demo.blank.

(** A task with the body [notes], alone in the cache, and the
    [update_task] call of the chat that gives [content] for it. *)
Definition noted : Fragment.t :=
  Fragment.make (lit "n") (Text (lit "N")) (Some [])
    (Some (UsableAPI.buildContent
             (TodoData.make (Text (lit "N")) None (Some (lit "todo"))
                            (Some (lit "medium")) None (Some (lit "notes")) TagOther)))
    (Some CONFIG.DEFAULT_TAGS).

Definition noted_cache : world := set_todos [noted] Demo.blank.

Definition edit (content : field) : KanbanBoard.tool_call :=
  {| KanbanBoard.requestId := Some (lit "r9");
     KanbanBoard.tool := Text (lit "update_task");
     KanbanBoard.input :=
       Some {| KanbanBoard.in_id := Text (lit "n");
               KanbanBoard.in_title := Missing;
               KanbanBoard.in_summary := Missing;
               KanbanBoard.in_status := Missing;
               KanbanBoard.in_priority := Missing;
               KanbanBoard.in_content := content;
               KanbanBoard.in_tags := None |} |}.

(** The [get_task] call for the task [id]. *)
Definition asking (id : field) : KanbanBoard.tool_call :=
  {| KanbanBoard.requestId := Some (lit "r9");
     KanbanBoard.tool := Text (lit "get_task");
     KanbanBoard.input :=
       Some {| KanbanBoard.in_id := id;
               KanbanBoard.in_title := Missing;
               KanbanBoard.in_summary := Missing;
               KanbanBoard.in_status := Missing;
               KanbanBoard.in_priority := Missing;
               KanbanBoard.in_content := Missing;
               KanbanBoard.in_tags := None |} |}.

(** A call that names [tool] and has no input. *)
Definition bare_call (tool : field) : KanbanBoard.tool_call :=
  {| KanbanBoard.requestId := Some (lit "r9");
     KanbanBoard.tool := tool;
     KanbanBoard.input := None |}.

(** The content of the first request that was sent. *)
Definition first_content (w : world) : option jsstring :=
  match http_log w with
  | r :: _ =>
      match Http.payload r with
      | Some (Http.Json b) => Some (Http.content b)
      | _ => None
      end
  | [] => None
  end.

End Sample.

(* ================================================================== *)
(** * Properties                                                    *)
(* ================================================================== *)

(** ** Strings *)

Lemma str_eqb_refl (a : jsstring) : str_eqb a a = true.
Proof.
  induction a as [|x a IH]; simpl; [reflexivity|].
  now rewrite N.eqb_refl, IH.
Qed.

Lemma str_eqb_eq (a b : jsstring) : str_eqb a b = true <-> a = b.
Proof.
  split; [|intros ->; apply str_eqb_refl].
  revert b; induction a as [|x a IH]; intros [|y b]; simpl; try discriminate; auto.
  intros H. apply andb_prop in H as [Hx Hab].
  apply N.eqb_eq in Hx. apply IH in Hab. now subst.
Qed.

Lemma str_eqb_neq (a b : jsstring) : str_eqb a b = false <-> a <> b.
Proof.
  split.
  - intros H E. apply str_eqb_eq in E. congruence.
  - intros H. destruct (str_eqb a b) eqn:E; [|reflexivity].
    apply str_eqb_eq in E. contradiction.
Qed.

Lemma is_any_true (c : N) : is_any c = true.
Proof. unfold is_any. apply orb_negb_r. Qed.

(** ** The matcher *)

(** A greedy star over every code unit, followed by the end anchor,
    takes the whole rest. *)
Lemma star_greedy_to_end (k : kont) (s : jsstring) :
  (forall pos x s' c, k pos (x :: s') c = None) ->
  forall pos c, star true is_any k pos s c = k (pos + List.length s) [] c.
Proof.
  intros Hk. induction s as [|x s IH]; intros pos c; simpl.
  - now rewrite Nat.add_0_r.
  - rewrite is_any_true, IH, Hk, Nat.add_succ_r. simpl.
    now destruct (k (S (pos + List.length s)) [] c).
Qed.

(** The tail [([\s\S]{0,})$] of the frontmatter pattern never fails. *)
Lemma rest_group_matches (pos : nat) (s : jsstring) (c : captures) :
  run (Cat (Group 2 (Star true is_any)) Eos) accept pos s c = Some ((2, s) :: c).
Proof.
  simpl. rewrite star_greedy_to_end by reflexivity. simpl.
  replace (pos + List.length s - pos) with (List.length s) by lia.
  now rewrite firstn_all.
Qed.

(** Every successful run goes through its continuation. *)
Lemma star_reaches (g : bool) (p : N -> bool) (k : kont) (s : jsstring) :
  forall pos c res, star g p k pos s c = Some res ->
  exists pos' s' c', k pos' s' c' = Some res.
Proof.
  induction s as [|x s IH]; intros pos c res; simpl; [eauto|].
  destruct (p x); [|eauto].
  destruct g; unfold orelse.
  - destruct (star true p k (S pos) s c) eqn:E; [|eauto].
    intros [= <-]. eapply IH, E.
  - destruct (k pos (x :: s) c) eqn:E; [intros [= <-]; eauto|].
    apply IH.
Qed.

Lemma run_reaches (r : regex) :
  forall k pos s c res, run r k pos s c = Some res ->
  exists pos' s' c', k pos' s' c' = Some res.
Proof.
  induction r as [l|g p|p|x|i r IH|a IHa b IHb| |]; intros k pos s c res; simpl.
  - destruct (strip_prefix l s); [eauto|discriminate].
  - apply star_reaches.
  - destruct s as [|x s]; [discriminate|].
    destruct (p x); [apply star_reaches|discriminate].
  - destruct s as [|y s]; [eauto|].
    destruct (N.eqb x y); [|eauto].
    unfold orelse. destruct (k (S pos) s c) eqn:E; [intros [= <-]|]; eauto.
  - intros H. apply IH in H as (pos' & s' & c' & H). eauto.
  - intros H. apply IHa in H as (pos' & s' & c' & H). now apply IHb in H.
  - destruct (Nat.eqb pos 0); [eauto|discriminate].
  - destruct s; [eauto|discriminate].
Qed.

Lemma search_sound (r : regex) (s : jsstring) :
  forall pos m, search r pos s = Some m ->
  exists pos' s', run r accept pos' s' [] = Some m.
Proof.
  induction s as [|x s IH]; intros pos m; simpl.
  - destruct (run r accept pos [] []) eqn:E; [intros [= <-]; eauto|discriminate].
  - destruct (run r accept pos (x :: s) []) eqn:E; [intros [= <-]; eauto|].
    apply IH.
Qed.

(** A pattern that opens with [^] can only match at the start. *)
Lemma search_anchored (r : regex) (s : jsstring) :
  search (Cat Bos r) 0 s = run r accept 0 s [].
Proof.
  assert (H : forall s pos, search (Cat Bos r) (S pos) s = None).
  { clear s. induction s as [|x s IH]; intros pos; simpl; [reflexivity|apply IH]. }
  destruct s as [|x s]; simpl.
  - now destruct (run r accept 0 [] []).
  - destruct (run r accept 0 (x :: s) []); [reflexivity|apply H].
Qed.

(** The key patterns end with their capture group, so a match has it. *)
Lemma key_match_has_value (key : jsstring) (h : jsstring) (m : captures) :
  str_match (Cat (Lit key) (Cat (Star true is_space) (Group 1 (Plus is_dot)))) h
    = Some m ->
  exists v, capture 1 m = Some v.
Proof.
  intros H. apply search_sound in H as (pos & s & H).
  change (run (Lit key) (run (Star true is_space) (run (Group 1 (Plus is_dot)) accept))
              pos s [] = Some m) in H.
  apply run_reaches in H as (pos1 & s1 & c1 & H).
  apply run_reaches in H as (pos2 & s2 & c2 & H).
  simpl in H.
  destruct s2 as [|x s2]; [discriminate|].
  destruct (is_dot x); [|discriminate].
  apply star_reaches in H as (pos3 & s3 & c3 & H).
  injection H as <-. simpl. eauto.
Qed.

(** The equations of [run], for rewriting one step at a time. *)
Lemma run_Cat a b k pos s c : run (Cat a b) k pos s c = run a (run b k) pos s c.
Proof. reflexivity. Qed.

Lemma run_Lit l k pos s c :
  run (Lit l) k pos s c
    = match strip_prefix l s with
      | Some s' => k (pos + List.length l) s' c
      | None => None
      end.
Proof. reflexivity. Qed.

Lemma run_Opt x k pos s c :
  run (Opt x) k pos s c
    = match s with
      | y :: s' =>
          if N.eqb x y then orelse (k (S pos) s' c) (k pos s c) else k pos s c
      | [] => k pos s c
      end.
Proof. reflexivity. Qed.

Lemma run_Group i r k pos s c :
  run (Group i r) k pos s c
    = run r (fun pos' s' c' => k pos' s' ((i, firstn (pos' - pos) s) :: c')) pos s c.
Proof. reflexivity. Qed.

Lemma run_Bos k pos s c :
  run Bos k pos s c = if Nat.eqb pos 0 then k pos s c else None.
Proof. reflexivity. Qed.

(** ** The frontmatter pattern *)

Lemma after_optional_line_feed (pos : nat) (s : jsstring) (c : captures) :
  run (Cat (Opt LF) (Cat (Group 2 (Star true is_any)) Eos)) accept pos s c
    = Some ((2, Spec.drop_line_feed s) :: c).
Proof.
  rewrite run_Cat, run_Opt. destruct s as [|y s]; [apply rest_group_matches|].
  cbn [Spec.drop_line_feed].
  destruct (N.eqb LF y); rewrite !rest_group_matches; reflexivity.
Qed.

Lemma after_marker (pos : nat) (s : jsstring) (c : captures) :
  run (Cat (Lit Spec.END_MARKER) (Cat (Opt LF) (Cat (Group 2 (Star true is_any)) Eos)))
      accept pos s c
    = match strip_prefix Spec.END_MARKER s with
      | Some after => Some ((2, Spec.drop_line_feed after) :: c)
      | None => None
      end.
Proof.
  rewrite run_Cat, run_Lit. destruct (strip_prefix Spec.END_MARKER s); [|reflexivity].
  apply after_optional_line_feed.
Qed.

(** The lazy group stops at the first end marker. *)
Lemma lazy_header_scan (s0 : jsstring) (pos0 : nat) (c : captures) :
  forall s1 pre, s0 = pre ++ s1 ->
  star false is_any
       (fun pos' s' c' =>
          run (Cat (Lit Spec.END_MARKER)
                   (Cat (Opt LF) (Cat (Group 2 (Star true is_any)) Eos)))
              accept pos' s' ((1, firstn (pos' - pos0) s0) :: c'))
       (pos0 + List.length pre) s1 c
  = match Spec.find_marker s1 with
    | Some (h, after) => Some ((2, Spec.drop_line_feed after) :: (1, pre ++ h) :: c)
    | None => None
    end.
Proof.
  induction s1 as [|x s1 IH]; intros pre E.
  - cbn [star Spec.find_marker]. rewrite after_marker.
    destruct (strip_prefix Spec.END_MARKER []) eqn:F; [|reflexivity].
    discriminate F.
  - cbn [star Spec.find_marker]. rewrite is_any_true, after_marker.
    unfold orelse.
    destruct (strip_prefix Spec.END_MARKER (x :: s1)) eqn:F.
    + replace (pos0 + List.length pre - pos0) with (List.length pre) by lia.
      rewrite E, firstn_app, firstn_all, Nat.sub_diag, app_nil_r. simpl.
      now rewrite app_nil_r.
    + specialize (IH (pre ++ [x])).
      rewrite length_app in IH. cbn [List.length] in IH.
      replace (pos0 + (List.length pre + 1)) with (S (pos0 + List.length pre)) in IH
        by lia.
      rewrite IH by (rewrite E, <- app_assoc; reflexivity).
      destruct (Spec.find_marker s1) as [[h after]|]; [|reflexivity].
      now rewrite <- app_assoc.
Qed.

(** What [content.match(frontmatter)] returns. *)
Lemma frontmatter_match_spec (s : jsstring) :
  str_match UsableAPI.frontmatter_pattern s
    = match Spec.split_frontmatter s with
      | Some (h, rest) => Some [(2, rest); (1, h)]
      | None => None
      end.
Proof.
  unfold str_match, UsableAPI.frontmatter_pattern. rewrite search_anchored.
  unfold Spec.split_frontmatter.
  rewrite run_Cat, run_Lit.
  destruct (strip_prefix (lit "---" ++ [LF]) s) as [s1|]; [|reflexivity].
  rewrite run_Cat, run_Group.
  pose proof (@lazy_header_scan s1 (0 + List.length (lit "---" ++ [LF])) []
                                s1 [] eq_refl) as H.
  rewrite Nat.add_0_r in H. cbn [app] in H.
  etransitivity; [exact H|].
  destruct (Spec.find_marker s1) as [[h after]|]; reflexivity.
Qed.

(** [parseContent] in terms of the header and the rest. *)
Lemma parseContent_spec (c : N) (s : jsstring) :
  UsableAPI.parseContent (Some (c :: s))
    = match Spec.split_frontmatter (c :: s) with
      | Some (h, rest) =>
          Returns (Parsed.make
                     (Spec.field UsableAPI.status_pattern h CONFIG.STATUSES.TODO)
                     (Spec.field UsableAPI.priority_pattern h (lit "medium"))
                     (trim rest) None)
      | None =>
          Returns (Parsed.make CONFIG.STATUSES.TODO (lit "medium") (c :: s) None)
      end.
Proof.
  unfold UsableAPI.parseContent. rewrite frontmatter_match_spec.
  destruct (Spec.split_frontmatter (c :: s)) as [[h rest]|]; [|reflexivity].
  cbn [capture Nat.eqb deref obind Parsed.status Parsed.priority].
  unfold Spec.field.
  destruct (str_match UsableAPI.status_pattern h) as [ms|] eqn:Es.
  - destruct (key_match_has_value _ _ Es) as [vs ->].
    destruct (str_match UsableAPI.priority_pattern h) as [mp|] eqn:Ep.
    + destruct (key_match_has_value _ _ Ep) as [vp ->]. reflexivity.
    + reflexivity.
  - destruct (str_match UsableAPI.priority_pattern h) as [mp|] eqn:Ep.
    + destruct (key_match_has_value _ _ Ep) as [vp ->]. reflexivity.
    + reflexivity.
Qed.

(** ** Where the end marker is found *)

Lemma strip_prefix_app (l s : jsstring) : strip_prefix l (l ++ s) = Some s.
Proof.
  induction l as [|x l IH]; simpl; [reflexivity|].
  now rewrite N.eqb_refl.
Qed.

Lemma strip_prefix_Some (l s s' : jsstring) :
  strip_prefix l s = Some s' -> s = l ++ s'.
Proof.
  revert s; induction l as [|x l IH]; intros [|y s]; simpl; try discriminate.
  - now intros [= <-].
  - now intros [= <-].
  - destruct (N.eqb x y) eqn:E; [|discriminate].
    apply N.eqb_eq in E. subst y. intros H. now rewrite (IH _ H).
Qed.

Lemma find_marker_sound (s h after : jsstring) :
  Spec.find_marker s = Some (h, after) -> s = h ++ Spec.END_MARKER ++ after.
Proof.
  revert h; induction s as [|x s IH]; intros h; cbn [Spec.find_marker].
  - destruct (strip_prefix Spec.END_MARKER []) eqn:F; discriminate.
  - destruct (strip_prefix Spec.END_MARKER (x :: s)) eqn:F.
    + intros [= <- <-]. now apply strip_prefix_Some in F.
    + destruct (Spec.find_marker s) as [[h' a']|]; [|discriminate].
      intros [= <- <-]. simpl. now rewrite (IH h' eq_refl).
Qed.

Lemma find_marker_complete (h after : jsstring) :
  Spec.find_marker (h ++ Spec.END_MARKER ++ after) <> None.
Proof.
  induction h as [|x h IH].
  - cbn [app]. destruct (Spec.END_MARKER ++ after) eqn:E; [discriminate E|].
    cbn [Spec.find_marker]. rewrite <- E, strip_prefix_app. discriminate.
  - cbn [app Spec.find_marker].
    destruct (strip_prefix Spec.END_MARKER (x :: h ++ Spec.END_MARKER ++ after));
      [discriminate|].
    destruct (Spec.find_marker (h ++ Spec.END_MARKER ++ after)) as [[h' a']|];
      [discriminate|contradiction].
Qed.

(** An end marker that starts inside [t] and runs into a following marker
    would need a dash where the following marker has its line feed. *)
Lemma marker_not_across (t after : jsstring) :
  t <> [] -> strip_prefix Spec.END_MARKER t = None ->
  strip_prefix Spec.END_MARKER (t ++ Spec.END_MARKER ++ after) = None.
Proof.
  intros Ht. unfold Spec.END_MARKER, LF. cbn [lit map list_ascii_of_string N_of_ascii
    N_of_digits N.add N.mul].
  destruct t as [|a [|b [|c [|d t]]]]; [contradiction| | | |]; cbn [strip_prefix app];
    repeat match goal with
           | |- context [N.eqb ?x ?y] => destruct (N.eqb x y) eqn:?
           end; try reflexivity; try discriminate; auto.
Qed.

Lemma find_marker_first (h after : jsstring) :
  Spec.find_marker h = None ->
  Spec.find_marker (h ++ Spec.END_MARKER ++ after) = Some (h, after).
Proof.
  induction h as [|x h IH]; intros H.
  - cbn [app]. destruct (Spec.END_MARKER ++ after) eqn:E; [discriminate E|].
    cbn [Spec.find_marker]. now rewrite <- E, strip_prefix_app.
  - cbn [Spec.find_marker] in H.
    destruct (strip_prefix Spec.END_MARKER (x :: h)) eqn:F; [discriminate|].
    destruct (Spec.find_marker h) as [[h' a']|] eqn:G; [discriminate|].
    cbn [app Spec.find_marker].
    change (x :: h ++ Spec.END_MARKER ++ after)
      with ((x :: h) ++ Spec.END_MARKER ++ after).
    rewrite marker_not_across by (assumption || discriminate).
    cbn [app]. now rewrite IH.
Qed.

Lemma has_frontmatter_iff (s : jsstring) :
  Spec.has_frontmatter s = true <->
  exists h rest, s = lit "---" ++ [LF] ++ h ++ Spec.END_MARKER ++ rest.
Proof.
  unfold Spec.has_frontmatter, Spec.split_frontmatter. split.
  - destruct (strip_prefix (lit "---" ++ [LF]) s) as [s1|] eqn:E; [|discriminate].
    destruct (Spec.find_marker s1) as [[h after]|] eqn:F; [|discriminate].
    intros _. exists h, after.
    apply strip_prefix_Some in E. apply find_marker_sound in F.
    rewrite E, F, <- app_assoc. reflexivity.
  - intros (h & rest & ->).
    rewrite app_assoc, strip_prefix_app.
    pose proof (find_marker_complete h rest) as H.
    destruct (Spec.find_marker (h ++ Spec.END_MARKER ++ rest)) as [[h' a']|];
      [reflexivity|contradiction].
Qed.

(** ** Encoding, then decoding *)

Lemma buildContent_shape title summary (s p : jsstring) k content tags :
  s <> [] -> p <> [] ->
  UsableAPI.buildContent (TodoData.make title summary (Some s) (Some p) k content tags)
    = (lit "---" ++ [LF]) ++ Spec.header s p ++ Spec.END_MARKER
        ++ LF :: LF :: or_default content [].
Proof.
  intros Hs Hp. destruct s as [|a s]; [contradiction|].
  destruct p as [|b p]; [contradiction|].
  unfold UsableAPI.buildContent, Spec.header, Spec.END_MARKER.
  cbn [TodoData.status TodoData.priority TodoData.content or_default join].
  rewrite <- !app_assoc. reflexivity.
Qed.

Lemma trim_after_line_feed (s : jsstring) : trim (LF :: s) = trim s.
Proof. reflexivity. Qed.

Lemma parse_built title summary (s p : jsstring) k content tags :
  s <> [] -> p <> [] -> Spec.find_marker (Spec.header s p) = None ->
  UsableAPI.parseContent
    (Some (UsableAPI.buildContent
             (TodoData.make title summary (Some s) (Some p) k content tags)))
  = Returns (Parsed.make
               (Spec.field UsableAPI.status_pattern (Spec.header s p) CONFIG.STATUSES.TODO)
               (Spec.field UsableAPI.priority_pattern (Spec.header s p) (lit "medium"))
               (trim (or_default content [])) None).
Proof.
  intros Hs Hp Hh. rewrite buildContent_shape by assumption.
  change ((lit "---" ++ [LF]) ++ Spec.header s p ++ Spec.END_MARKER
            ++ LF :: LF :: or_default content [])
    with (45%N :: ([45%N; 45%N; LF] ++ Spec.header s p ++ Spec.END_MARKER
            ++ LF :: LF :: or_default content [])).
  rewrite parseContent_spec.
  change (45%N :: ([45%N; 45%N; LF] ++ Spec.header s p ++ Spec.END_MARKER
            ++ LF :: LF :: or_default content []))
    with ((lit "---" ++ [LF]) ++ Spec.header s p ++ Spec.END_MARKER
            ++ LF :: LF :: or_default content []).
  unfold Spec.split_frontmatter.
  rewrite strip_prefix_app, find_marker_first by assumption.
  cbn [Spec.drop_line_feed]. rewrite N.eqb_refl, trim_after_line_feed.
  reflexivity.
Qed.

Lemma parseContent_returns (content : option jsstring) :
  exists r, UsableAPI.parseContent content = Returns r /\ Parsed.sort r = None.
Proof.
  destruct content as [[|c s]|]; try (eexists; split; reflexivity).
  rewrite parseContent_spec.
  destruct (Spec.split_frontmatter (c :: s)) as [[h rest]|];
    eexists; split; reflexivity.
Qed.

Lemma parseContent_without_frontmatter (content : option jsstring) :
  Spec.has_frontmatter (or_default content []) = false ->
  UsableAPI.parseContent content
    = Returns (Parsed.make CONFIG.STATUSES.TODO (lit "medium")
                           (or_default content []) None).
Proof.
  destruct content as [[|c s]|]; try reflexivity.
  cbn [or_default]. unfold Spec.has_frontmatter. rewrite parseContent_spec.
  destruct (Spec.split_frontmatter (c :: s)) as [[h rest]|];
    [discriminate|reflexivity].
Qed.

(** One goal for each element of a list given in full. *)
Ltac each_member H :=
  cbn [In CONFIG.PRIORITIES Spec.statuses] in H;
  repeat (destruct H as [H|H]; [subst|]); try contradiction.

(** C1, as amended.  For every status of the data model, every priority
    and every body text, with or without a sort key, decoding what
    [buildContent] encodes returns the same status and the same priority,
    and the body without its leading and trailing white space: the body
    comes back exactly when it neither starts nor ends with white space. *)
Theorem roundtrip_up_to_trim
        (s p : jsstring) (title : field) (summary : option jsstring) (k : option Z)
        (content : option jsstring) (tags : tags_arg) :
  In s Spec.statuses -> In p CONFIG.PRIORITIES ->
  exists r,
    UsableAPI.parseContent
      (Some (UsableAPI.buildContent
               (TodoData.make title summary (Some s) (Some p) k content tags)))
      = Returns r
    /\ Parsed.status r = s
    /\ Parsed.priority r = p
    /\ Parsed.body r = trim (or_default content []).
Proof.
  intros Hs Hp.
  assert (Hs' : s <> []) by (each_member Hs; discriminate).
  assert (Hp' : p <> []) by (each_member Hp; discriminate).
  assert (Hh : Spec.find_marker (Spec.header s p) = None)
    by (each_member Hs; each_member Hp; vm_compute; reflexivity).
  eexists. split; [apply parse_built; assumption|].
  cbn [Parsed.status Parsed.priority Parsed.body].
  each_member Hs; each_member Hp;
    (split; [|split]; vm_compute; reflexivity).
Qed.

Lemma roundtrip_up_to_trim_witness :
  exists r,
    UsableAPI.parseContent
      (Some (UsableAPI.buildContent
               (TodoData.make Missing None (Some (lit "done")) (Some (lit "high"))
                              (Some 5%Z) (Some (lit " notes ")) TagOther)))
      = Returns r
    /\ Parsed.status r = lit "done"
    /\ Parsed.priority r = lit "high"
    /\ Parsed.body r = trim (or_default (Some (lit " notes ")) []).
Proof.
  apply roundtrip_up_to_trim.
  - cbn. auto.
  - cbn. auto.
Defined.

(** C1, as stated, fails: the sort key is not part of what the codec
    writes or reads, and white space around the body is lost. *)
Lemma roundtrip_loses_sort_and_padding :
  let todo := TodoData.make Missing None (Some (lit "todo")) (Some (lit "medium"))
                            (Some 5%Z) (Some (lit " a")) TagOther in
  UsableAPI.parseContent (Some (UsableAPI.buildContent todo))
    = Returns (Parsed.make (lit "todo") (lit "medium") (lit "a") None)
  /\ UsableAPI.parseContent (Some (UsableAPI.buildContent todo))
       <> Returns (Parsed.make (lit "todo") (lit "medium") (lit " a") (Some 5%Z)).
Proof.
  split; [vm_compute; reflexivity|vm_compute; discriminate].
Qed.

(** C5, as amended.  [parseContent] returns for every input, [null] and
    the empty string included, and never with a sort key ([sort] is read
    as 0 by [sort || 0]).  For an input that does not open with a dashes
    line followed, anywhere later, by a line feed and three dashes, it
    returns status todo, priority medium and the whole input as body. *)
Theorem parseContent_total_with_defaults (content : option jsstring) :
  (exists r, UsableAPI.parseContent content = Returns r
             /\ Parsed.sort r = None /\ KanbanBoard.sort_key r = 0%Z)
  /\ (Spec.has_frontmatter (or_default content []) = false ->
      UsableAPI.parseContent content
        = Returns (Parsed.make CONFIG.STATUSES.TODO (lit "medium")
                               (or_default content []) None)).
Proof.
  split; [|apply parseContent_without_frontmatter].
  destruct (parseContent_returns content) as (r & E & Hs).
  exists r. repeat split; try assumption.
  unfold KanbanBoard.sort_key. now rewrite Hs.
Qed.

Lemma parseContent_total_with_defaults_witness :
  UsableAPI.parseContent (Some (lit "buy milk"))
    = Returns (Parsed.make CONFIG.STATUSES.TODO (lit "medium") (lit "buy milk") None).
Proof.
  apply (proj2 (parseContent_total_with_defaults (Some (lit "buy milk")))).
  vm_compute. reflexivity.
Defined.

(** C5, as stated, fails: an end marker that shares its line with other
    text is taken for the end of a header, so a text whose dashes are not
    both on lines of their own is still split. *)
Lemma header_read_without_dedicated_end_line :
  let text := lit "---" ++ [LF] ++ lit "foo" ++ [LF] ++ lit "---bar" in
  Spec.on_dedicated_lines text = false
  /\ UsableAPI.parseContent (Some text)
       = Returns (Parsed.make CONFIG.STATUSES.TODO (lit "medium") (lit "bar") None)
  /\ UsableAPI.parseContent (Some text)
       <> Returns (Parsed.make CONFIG.STATUSES.TODO (lit "medium") text (Some 0%Z)).
Proof.
  split; [vm_compute; reflexivity|].
  split; [vm_compute; reflexivity|].
  vm_compute. discriminate.
Qed.

(** ** The decoder on a few texts *)

(** A header without keys gives the defaults and the trimmed rest. *)
Example parse_empty_header :
  UsableAPI.parseContent (Some (lit "---" ++ [LF; LF] ++ lit "---" ++ [LF] ++ lit " x "))
    = Returns (Parsed.make (lit "todo") (lit "medium") (lit "x") None).
Proof. vm_compute. reflexivity. Qed.

(** The opening dashes need their own line, and the closing ones a line
    feed before them. *)
Example parse_dashes_only :
  UsableAPI.parseContent (Some (lit "---" ++ [LF] ++ lit "---" ++ [LF] ++ lit "x"))
    = Returns (Parsed.make (lit "todo") (lit "medium")
                           (lit "---" ++ [LF] ++ lit "---" ++ [LF] ++ lit "x") None).
Proof. vm_compute. reflexivity. Qed.

(** The white space after a key may run over the end of the line: a
    status without a value takes the next line for its value. *)
Example parse_status_without_value :
  UsableAPI.parseContent
    (Some (lit "---" ++ [LF] ++ lit "status:  " ++ [LF] ++ lit "priority: high"
             ++ [LF] ++ lit "---"))
    = Returns (Parsed.make (lit "priority: high") (lit "high") [] None).
Proof. vm_compute. reflexivity. Qed.

(** A status outside the data model is returned as it stands. *)
Example parse_unknown_status :
  UsableAPI.parseContent
    (Some (lit "---" ++ [LF] ++ lit "priority: low" ++ [LF] ++ lit "status: blocked "
             ++ [LF] ++ lit "---" ++ [LF; LF] ++ lit "why"))
    = Returns (Parsed.make (lit "blocked") (lit "low") (lit "why") None).
Proof. vm_compute. reflexivity. Qed.

(** ** The tool bridge *)

Section Bridge.
Context {P : Platform}.
Import KanbanBoard.

Lemma is_tool_unknown (tool : field) (name : string) :
  (forall t, tool = Text t -> ~ In t getChatToolDefinitions) ->
  In (lit name) getChatToolDefinitions ->
  is_tool tool name = false.
Proof.
  intros H Hin. destruct tool as [| |t]; [reflexivity|reflexivity|].
  cbn [is_tool]. apply str_eqb_neq. intros ->. exact (H _ eq_refl Hin).
Qed.

Lemma dispatch_unknown (tool : field) (input : option tool_input) (w : world) :
  (forall t, tool = Text t -> ~ In t getChatToolDefinitions) ->
  dispatch tool input w
    = (Throws (Error (lit "Unknown tool: " ++ interpolate tool)), w).
Proof.
  intros Hu. unfold dispatch.
  rewrite !(is_tool_unknown _ Hu) by (cbn; tauto).
  reflexivity.
Qed.

(** C7.  A TOOL_CALL message from the embed whose tool is none of the six
    registered ones makes the page post exactly one TOOL_RESPONSE, with
    the request id of the call and an error in place of a result; nothing
    else of the state changes, the task cache in particular.  (The
    response goes to the window of the chat iframe, which the message
    came from.) *)
Theorem unknown_tool_one_error_response
        (e : message_event) (call : tool_call) (w : world) :
  origin e = EMBED_ORIGIN ->
  data_type e = Some (lit "TOOL_CALL") ->
  data_payload e = Some call ->
  (forall t, tool call = Text t -> ~ In t getChatToolDefinitions) ->
  embed w = true ->
  onMessage e w
    = (Returns tt,
       set_outbox
         (outbox w ++
            [TOOL_RESPONSE (requestId call)
               (Failure (Error (lit "Unknown tool: " ++ interpolate (tool call))))])
         w)
  /\ todos (exec (onMessage e) w) = todos w.
Proof.
  intros Ho Ht Hp Hu He.
  assert (E : onMessage e w
              = (Returns tt,
                 set_outbox
                   (outbox w ++
                      [TOOL_RESPONSE (requestId call)
                         (Failure (Error (lit "Unknown tool: "
                                            ++ interpolate (tool call))))])
                   w)).
  { unfold onMessage. rewrite Ho, str_eqb_refl. cbn [negb].
    unfold is_type. rewrite Ht, Hp.
    change (str_eqb (lit "TOOL_CALL") (lit "READY")) with false.
    change (str_eqb (lit "TOOL_CALL") (lit "REQUEST_TOKEN_REFRESH")) with false.
    change (str_eqb (lit "TOOL_CALL") (lit "TOOL_CALL")) with true.
    cbn [when]. unfold bind at 1 2. cbn [ret].
    unfold bind at 1. unfold detached, try_catch, handleToolCall.
    unfold bind at 1. cbn [lift deref].
    unfold try_catch, bind at 1. rewrite dispatch_unknown by assumption.
    unfold postToEmbed, bind, get. rewrite He. reflexivity. }
  split; [exact E|]. unfold exec. rewrite E. reflexivity.
Qed.

(** C8.  A message whose origin is not the embed's origin changes
    nothing: the listener returns with the state it found, so no token or
    task is touched, no tool runs and nothing is posted. *)
Theorem foreign_origin_no_effect (e : message_event) (w : world) :
  origin e <> EMBED_ORIGIN -> onMessage e w = (Returns tt, w).
Proof.
  intros H. unfold onMessage. apply str_eqb_neq in H. now rewrite H.
Qed.

End Bridge.

Lemma unknown_tool_one_error_response_witness :
  let e := Demo.tool_call_from "https://chat.usable.dev" "archive_task" "a" in
  @KanbanBoard.onMessage Demo.solo_platform e Demo.solo_board
    = (Returns tt,
       set_outbox
         [TOOL_RESPONSE (Some (lit "r1"))
            (Failure (Error (lit "Unknown tool: archive_task")))]
         Demo.solo_board)
  /\ todos (exec (@KanbanBoard.onMessage Demo.solo_platform e) Demo.solo_board)
       = todos Demo.solo_board.
Proof.
  refine (@unknown_tool_one_error_response Demo.solo_platform
            (Demo.tool_call_from "https://chat.usable.dev" "archive_task" "a")
            _ Demo.solo_board eq_refl eq_refl eq_refl _ eq_refl).
  intros t [= <-]. vm_compute. intuition discriminate.
Defined.

Lemma foreign_origin_no_effect_witness :
  @KanbanBoard.onMessage Demo.solo_platform
     (Demo.tool_call_from "https://chat.usable.dev.evil.example" "delete_task" "a")
     Demo.solo_board
  = (Returns tt, Demo.solo_board).
Proof.
  apply foreign_origin_no_effect. vm_compute. discriminate.
Defined.

(** ** The OAuth callback and the claims of the token *)

Section Auth.
Context {P : Platform}.
Import UsableAuth.

(** C9, as amended.  When [handleCallback] finds a code in the URL and a
    verifier in session storage it returns a boolean, true exactly when
    the token endpoint answers with success and a JSON object; the
    verifier is removed from session storage when it returns true and is
    left there when the exchange fails. *)
Theorem handleCallback_discards_verifier_on_success (w : world) :
  truthy (location_code w) = true ->
  truthy (usable_pkce_verifier w) = true ->
  exists b w',
    handleCallback w = (Returns b, w')
    /\ usable_pkce_verifier w'
         = (if b then None else usable_pkce_verifier w)
    /\ (b = true <->
        exists status text tokens,
          server (http_log w ++ [Spec.exchange_request w])
            = Http.Reply true status text (Some (Http.JObject tokens))).
Proof.
  intros Hc Hv. unfold handleCallback.
  unfold bind at 1. cbn [get]. rewrite Hc, Hv. cbn [negb].
  unfold try_catch. unfold bind at 1. unfold UsableAPI.fetch.
  unfold bind at 1. unfold bind at 1. cbn [get modify ret].
  fold (Spec.exchange_request w).
  assert (no : forall r : Http.response,
             (forall st tx tk, r <> Http.Reply true st tx (Some (Http.JObject tk))) ->
             false = true <->
             exists st tx tk, r = Http.Reply true st tx (Some (Http.JObject tk))).
  { intros r Hr. split; [discriminate|]. intros (st & tx & tk & H).
    now apply Hr in H. }
  destruct (server (http_log w ++ [Spec.exchange_request w]))
    as [|[|] status text [[|tokens]|]];
    try (exists false; eexists; split; [reflexivity|];
         split; [reflexivity|]; apply no; discriminate).
  unfold bind, ret, _setTokens, bind, modify, when, scheduleRefresh, modify. cbn.
  destruct (truthy (Http.refresh_token tokens));
    (exists true; eexists; split; [reflexivity|]; split; [reflexivity|];
     split; [eauto|reflexivity]).
Qed.

Lemma base64_of_url_replaces (segment : jsstring) :
  replace_all 95 47 (replace_all 45 43 segment) = Spec.base64_of_url segment.
Proof.
  unfold replace_all, Spec.base64_of_url. rewrite map_map. apply map_ext. intros c.
  destruct (N.eqb_spec c 45) as [->|H45]; [reflexivity|].
  destruct (N.eqb_spec c 95); reflexivity.
Qed.

Lemma own_property_claim (key : string) (props : list (jsstring * jsvalue)) :
  own_property (lit key) props = Spec.claim key props.
Proof.
  unfold Spec.claim. induction props as [|[k v] props IH]; [reflexivity|].
  cbn [own_property find fst].
  destruct (str_eqb k (lit key)) eqn:E.
  - apply str_eqb_eq in E. subst k. now rewrite str_eqb_refl.
  - apply str_eqb_neq in E.
    destruct (str_eqb (lit key) k) eqn:E'; [|exact IH].
    apply str_eqb_eq in E'. now subst k.
Qed.

Lemma truthy_value_missing (v : jsvalue) : truthy_value v = false <-> Spec.missing v.
Proof.
  unfold Spec.missing. destruct v as [| |b|z|s|l|props|n]; cbn [truthy_value].
  - split; [intros _; now left|reflexivity].
  - split; [intros _; right; now left|reflexivity].
  - split; [intros ->; right; right; now left|].
    intros [H|[H|[H|[H|H]]]]; try discriminate. now injection H.
  - split.
    + intros H. apply negb_false_iff, Z.eqb_eq in H. subst z.
      right; right; right; now left.
    + intros [H|[H|[H|[H|H]]]]; try discriminate. now injection H as ->.
  - destruct s as [|c s]; cbn [UsableAPI.nonempty].
    + split; [intros _; right; right; right; now right|reflexivity].
    + split; [discriminate|]. intros [H|[H|[H|[H|H]]]]; discriminate.
  - split; [discriminate|]. intros [H|[H|[H|[H|H]]]]; discriminate.
  - split; [discriminate|]. intros [H|[H|[H|[H|H]]]]; discriminate.
  - split; [discriminate|]. intros [H|[H|[H|[H|H]]]]; discriminate.
Qed.

(** C10.  [getUserInfo] returns for every state of the token and never
    throws.  It returns [null] when there is no token, when the token
    does not have exactly three segments, when its middle segment, with
    [-] read as [+] and [_] as [/], is not base64 ([atob] throws), when
    the decoded text is not JSON ([JSON.parse] throws), and when it is
    the JSON text [null].  When the decoded text is a JSON object it
    returns a record: its name is the [name] claim when that counts,
    else the [preferred_username] claim when that counts, else ['User'];
    its email is the [email] claim when that counts, else the empty
    string; its [sub] is the [sub] claim. *)
Theorem getUserInfo_total (w : world) :
  (exists r, getUserInfo w = Returns r)
  /\ (truthy (_accessToken w) = false -> getUserInfo w = Returns None)
  /\ (forall token,
        _accessToken w = Some token ->
        List.length (split_on 46 token) <> 3 ->
        getUserInfo w = Returns None)
  /\ (forall token h seg sig,
        _accessToken w = Some token ->
        split_on 46 token = [h; seg; sig] ->
        match atob (Spec.base64_of_url seg) with
        | Throws _ => getUserInfo w = Returns None
        | Returns decoded =>
            match JSON_parse decoded with
            | Throws _ | Returns VNull | Returns VUndefined =>
                getUserInfo w = Returns None
            | Returns (VObject props) =>
                exists u,
                  getUserInfo w = Returns (Some u)
                  /\ (~ Spec.missing (Spec.claim "name" props) ->
                      name u = Spec.claim "name" props)
                  /\ (Spec.missing (Spec.claim "name" props) ->
                      ~ Spec.missing (Spec.claim "preferred_username" props) ->
                      name u = Spec.claim "preferred_username" props)
                  /\ (Spec.missing (Spec.claim "name" props) ->
                      Spec.missing (Spec.claim "preferred_username" props) ->
                      name u = VString (lit "User"))
                  /\ (~ Spec.missing (Spec.claim "email" props) ->
                      email u = Spec.claim "email" props)
                  /\ (Spec.missing (Spec.claim "email" props) -> email u = VString [])
                  /\ sub u = Spec.claim "sub" props
            | Returns _ => exists u, getUserInfo w = Returns (Some u)
            end
        end).
Proof.
  unfold getUserInfo.
  split; [|split; [|split]].
  - destruct (_accessToken w) as [[|c t]|]; try (eexists; reflexivity).
    unfold ocatch. destruct (decode_claims (c :: t)); eexists; reflexivity.
  - destruct (_accessToken w) as [[|c t]|]; try reflexivity. discriminate.
  - intros token -> Hn. destruct token as [|c t]; [reflexivity|].
    unfold decode_claims. apply Nat.eqb_neq in Hn. now rewrite Hn.
  - intros token h seg sig -> Hs.
    destruct token as [|c t]; [discriminate Hs|].
    unfold decode_claims. rewrite Hs.
    cbn [List.length Nat.eqb negb nth_error deref obind].
    rewrite base64_of_url_replaces.
    destruct (atob (Spec.base64_of_url seg)) as [decoded|e]; cbn [obind]; [|reflexivity].
    destruct (JSON_parse decoded) as [[| |b|z|s|l|props|n]|e]; cbn [obind get_property];
      try reflexivity; try (eexists; reflexivity).
    cbn [ocatch]. rewrite !own_property_claim. eexists. split; [reflexivity|].
    cbn [name email sub]. unfold or_else.
    destruct (truthy_value (Spec.claim "name" props)) eqn:En;
      destruct (truthy_value (Spec.claim "preferred_username" props)) eqn:Eu;
      destruct (truthy_value (Spec.claim "email" props)) eqn:Ee;
      rewrite ?En, ?Eu;
      repeat match goal with
             | H : truthy_value _ = false |- _ => apply truthy_value_missing in H
             | H : truthy_value ?v = true |- _ =>
                 assert (~ Spec.missing v)
                   by (intros M; apply truthy_value_missing in M; congruence);
                 clear H
             end;
      repeat split; intros; try reflexivity; contradiction.
Qed.

End Auth.

Lemma handleCallback_discards_verifier_on_success_witness :
  exists b w',
    @UsableAuth.handleCallback (Demo.platform Demo.granting_server) Demo.returning
      = (Returns b, w')
    /\ usable_pkce_verifier w'
         = (if b then None else usable_pkce_verifier Demo.returning)
    /\ (b = true <->
        exists status text tokens,
          Demo.granting_server
            (http_log Demo.returning
               ++ [@Spec.exchange_request (Demo.platform Demo.granting_server)
                     Demo.returning])
            = Http.Reply true status text (Some (Http.JObject tokens))).
Proof.
  apply (@handleCallback_discards_verifier_on_success
           (Demo.platform Demo.granting_server) Demo.returning);
    vm_compute; reflexivity.
Defined.

(** C9, as stated, fails: when the token endpoint turns the exchange
    down, the verifier is still in session storage afterwards. *)
Lemma verifier_survives_failed_exchange :
  truthy (location_code Demo.returning) = true
  /\ usable_pkce_verifier Demo.returning = Some (lit "ver")
  /\ fst (@UsableAuth.handleCallback (Demo.platform Demo.refusing_server)
            Demo.returning) = Returns false
  /\ usable_pkce_verifier
       (exec (@UsableAuth.handleCallback (Demo.platform Demo.refusing_server))
             Demo.returning)
     = Some (lit "ver").
Proof.
  split; [reflexivity|]. split; [reflexivity|].
  split; vm_compute; reflexivity.
Qed.

Lemma getUserInfo_total_witness :
  exists u,
    @UsableAuth.getUserInfo Sample.claims_platform (Sample.holding Sample.bob_segment)
      = Returns (Some u)
    /\ (~ Spec.missing (Spec.claim "name" Sample.bob_props) ->
        UsableAuth.name u = Spec.claim "name" Sample.bob_props)
    /\ (Spec.missing (Spec.claim "name" Sample.bob_props) ->
        ~ Spec.missing (Spec.claim "preferred_username" Sample.bob_props) ->
        UsableAuth.name u = Spec.claim "preferred_username" Sample.bob_props)
    /\ (Spec.missing (Spec.claim "name" Sample.bob_props) ->
        Spec.missing (Spec.claim "preferred_username" Sample.bob_props) ->
        UsableAuth.name u = VString (lit "User"))
    /\ (~ Spec.missing (Spec.claim "email" Sample.bob_props) ->
        UsableAuth.email u = Spec.claim "email" Sample.bob_props)
    /\ (Spec.missing (Spec.claim "email" Sample.bob_props) ->
        UsableAuth.email u = VString [])
    /\ UsableAuth.sub u = Spec.claim "sub" Sample.bob_props.
Proof.
  exact (proj2 (proj2 (proj2
           (@getUserInfo_total Sample.claims_platform
              (Sample.holding Sample.bob_segment))))
           (lit "h." ++ Sample.bob_segment ++ lit ".s")
           (lit "h") Sample.bob_segment (lit "s") eq_refl eq_refl).
Defined.

(** The three ways the name comes about, and the two of the email, run
    on tokens: both claims there; no [name] but a [preferred_username]
    and no [email]; neither name and an empty [email]. *)
Example getUserInfo_takes_the_claims :
  @UsableAuth.getUserInfo (Demo.platform Demo.granting_server)
     (set__accessToken (Some Demo.ada_token) Demo.blank)
  = Returns (Some {| UsableAuth.name := VString (lit "Ada");
                     UsableAuth.email := VString (lit "ada@example.org");
                     UsableAuth.sub := VUndefined |}).
Proof. vm_compute. reflexivity. Qed.

Example getUserInfo_falls_back_to_the_username :
  @UsableAuth.getUserInfo Sample.claims_platform (Sample.holding Sample.bob_segment)
  = Returns (Some {| UsableAuth.name := VString (lit "bob");
                     UsableAuth.email := VString [];
                     UsableAuth.sub := VString (lit "??>>") |}).
Proof. vm_compute. reflexivity. Qed.

Example getUserInfo_falls_back_to_User :
  @UsableAuth.getUserInfo Sample.claims_platform (Sample.holding Sample.anon_segment)
  = Returns (Some {| UsableAuth.name := VString (lit "User");
                     UsableAuth.email := VString [];
                     UsableAuth.sub := VString (lit "?>") |}).
Proof. vm_compute. reflexivity. Qed.

Example getUserInfo_of_a_broken_token :
  @UsableAuth.getUserInfo Sample.claims_platform (Sample.holding (lit "e30"))
    = Returns None
  /\ @UsableAuth.getUserInfo Sample.claims_platform (Sample.holding (lit "!"))
    = Returns None
  /\ @UsableAuth.getUserInfo Sample.claims_platform
       (set__accessToken (Some (lit "only.two")) Demo.blank)
    = Returns None.
Proof. repeat split; vm_compute; reflexivity. Qed.

(** ** Sort keys and drops *)

Section Drop.
Context {P : Platform}.
Import KanbanBoard.

Lemma bind_reads_only {A B} (m : M A) (f : A -> M B) (w : world) :
  snd (m w) = w -> (forall a, snd (f a w) = w) -> snd (bind m f w) = w.
Proof.
  unfold bind. destruct (m w) as [[a|e] w']; cbn [snd]; intros ->; auto.
Qed.

Lemma getCardSort_reads_only (id : jsstring) (w : world) :
  snd (getCardSort id w) = w.
Proof.
  unfold getCardSort. apply bind_reads_only; [reflexivity|]. intros w0.
  destruct (find _ _); [|reflexivity].
  apply bind_reads_only; [reflexivity|]. reflexivity.
Qed.

Lemma dataset_id_reads_only (r : nat) (w : world) : snd (dataset_id r w) = w.
Proof.
  unfold dataset_id. apply bind_reads_only; [reflexivity|]. intros w0.
  apply bind_reads_only; [reflexivity|]. reflexivity.
Qed.

Lemma calculateSortValue_reads_only (zi index : nat) (now : Z) (w : world) :
  snd (calculateSortValue zi index now w) = w.
Proof.
  unfold calculateSortValue. apply bind_reads_only; [reflexivity|]. intros w0.
  apply bind_reads_only; [reflexivity|]. intros z.
  apply bind_reads_only.
  - destruct (match index with O => None | S i => nth_error (still_cards z) i end);
      [|reflexivity].
    apply bind_reads_only; [apply dataset_id_reads_only|].
    intros; apply getCardSort_reads_only.
  - intros prevSort. apply bind_reads_only; [|reflexivity].
    destruct (nth_error (still_cards z) index); [|reflexivity].
    apply bind_reads_only; [apply dataset_id_reads_only|].
    intros; apply getCardSort_reads_only.
Qed.

Lemma calculateSortValue_empty
      (w : world) (zi : nat) (z : zone) (index : nat) (now : Z) :
  nth_error (zones w) zi = Some z -> still_cards z = [] ->
  calculateSortValue zi index now w = (Returns (now / 2)%Z, w).
Proof.
  intros Hz Hc. unfold calculateSortValue, bind, get, lift. rewrite Hz. cbn [deref].
  rewrite Hc. destruct index as [|i]; [|destruct i]; reflexivity.
Qed.

(** What reaches the network. *)

Lemma quiet_bind {A B} (m : M A) (f : A -> M B) :
  Spec.quiet m -> (forall a, Spec.quiet (f a)) -> Spec.quiet (bind m f).
Proof.
  intros Hm Hf w. unfold exec, bind. specialize (Hm w). unfold exec in Hm.
  destruct (m w) as [[a|e] w']; cbn [snd] in *; [|exact Hm].
  rewrite <- Hm. apply Hf.
Qed.

Lemma quiet_ret {A} (a : A) : Spec.quiet (ret a).
Proof. intros w; reflexivity. Qed.

Lemma quiet_append_cards zi cards : Spec.quiet (append_cards zi cards).
Proof.
  induction cards as [|c cards IH]; [apply quiet_ret|].
  cbn [append_cards].
  repeat (apply quiet_bind; [intros w; reflexivity|intros ?]).
  exact IH.
Qed.

Lemma quiet_for_each {A} (f : A -> M unit) (l : list A) :
  (forall a, Spec.quiet (f a)) -> Spec.quiet (for_each f l).
Proof.
  intros Hf. induction l as [|x l IH]; [apply quiet_ret|].
  cbn [for_each]. apply quiet_bind; [apply Hf|intros _; exact IH].
Qed.

Lemma quiet_render_group e : Spec.quiet (render_group e).
Proof.
  destruct e as [status group]. unfold render_group.
  apply quiet_bind; [intros w; reflexivity|intros w0].
  apply quiet_bind.
  - destruct (find_zone _ _); [apply quiet_append_cards|apply quiet_ret].
  - intros _. apply quiet_bind; [intros w; reflexivity|intros w1].
    intros w; reflexivity.
Qed.

Lemma quiet_renderBoard : Spec.quiet renderBoard.
Proof.
  unfold renderBoard.
  apply quiet_bind; [intros w; reflexivity|intros w0].
  apply quiet_bind; [intros w; reflexivity|intros _].
  apply quiet_bind; [intros w; reflexivity|intros g].
  apply quiet_bind; [apply quiet_for_each, quiet_render_group|intros _].
  intros w; reflexivity.
Qed.

Lemma request_log endpoint verb payload (w : world) :
  http_log (exec (UsableAPI.request endpoint verb payload) w)
    = http_log w ++
      [ {| Http.url := CONFIG.API_BASE_URL ++ endpoint; Http.verb := verb;
           Http.bearer := Some (CONFIG.API_TOKEN (config w));
           Http.payload := option_map Http.Json payload |} ].
Proof.
  unfold exec, UsableAPI.request, UsableAPI.fetch, bind, get, modify, ret.
  destruct (server _) as [|[|] status text [[|o]|]]; reflexivity.
Qed.

Lemma updateTodo_log id fields (w : world) :
  exists r,
    http_log (exec (UsableAPI.updateTodo id fields) w) = http_log w ++ [r]
    /\ Http.verb r = Http.PATCH
    /\ Http.url r = CONFIG.API_BASE_URL ++ lit "/memory-fragments/" ++ id.
Proof.
  unfold UsableAPI.updateTodo. eexists. split; [apply request_log|].
  split; reflexivity.
Qed.

(** A reload sends the one GET that lists the fragments. *)
Lemma loadTodos_log (w : world) :
  exists r, http_log (exec loadTodos w) = http_log w ++ [r] /\ Http.verb r = Http.GET.
Proof.
  eexists. split; [|shelve].
  unfold exec, loadTodos, showLoading, hideLoading, finally, try_catch.
  unfold bind at 1. cbn [modify].
  unfold bind at 1. unfold UsableAPI.getTodos. unfold bind at 1. cbn [get].
  unfold bind at 1.
  pose proof (request_log
     (lit "/memory-fragments?workspaceId="
        ++ CONFIG.WORKSPACE_ID (config (set_loading true w))
        ++ lit "&fragmentTypeId="
        ++ CONFIG.FRAGMENT_TYPE_ID (config (set_loading true w))
        ++ lit "&limit=100") Http.GET None (set_loading true w)) as H.
  unfold exec in H.
  destruct (UsableAPI.request _ Http.GET None (set_loading true w)) as [[data|e] w1];
    cbn [snd] in H.
  - destruct data as [|o].
    + cbn. exact H.
    + cbn [ret]. unfold bind at 1. cbn [modify].
      unfold bind at 1.
      pose proof (quiet_renderBoard
                    (set_todos match Http.fragments o with
                               | Some l => l
                               | None => []
                               end w1)) as Hq.
      unfold exec in Hq.
      destruct (renderBoard _) as [[[]|e] w2]; cbn [snd] in Hq; cbn;
        rewrite Hq; exact H.
  - cbn. exact H.
  Unshelve. reflexivity.
Qed.

Lemma drop_unchanged_is_silent
      (w : world) (zi : nat) (z : zone) (dref : nat) (data : card_data)
      (now k : Z) (meanwhile : M unit) :
  nth_error (zones w) zi = Some z ->
  draggedCardData w = Some dref ->
  nth_error (objects w) dref = Some data ->
  fst (calculateSortValue zi (drop_index z) now (exec hideDropIndicator w))
    = Returns k ->
  dropzone z = Parsed.status (parsed data) ->
  Parsed.sort (parsed data) = Some k ->
  handleDrop (Some zi) now meanwhile w = (Returns tt, exec hideDropIndicator w).
Proof.
  intros Hz Hd Ho Hk Hs Hsort.
  unfold handleDrop. unfold bind at 1. cbn [get]. rewrite Hd, Hz.
  unfold bind at 1. rewrite Ho. cbn [lift deref].
  unfold bind at 1.
  change (hideDropIndicator w) with (Returns tt, exec hideDropIndicator w).
  unfold bind at 1.
  pose proof (calculateSortValue_reads_only zi (drop_index z) now
                (exec hideDropIndicator w)) as Hpure.
  destruct (calculateSortValue zi (drop_index z) now (exec hideDropIndicator w))
    as [r w'].
  cbn [fst snd] in Hk, Hpure. subst r w'.
  rewrite Hs, str_eqb_refl, Hsort, Z.eqb_refl. reflexivity.
Qed.

Lemma drop_changed_sends_update
      (w : world) (zi : nat) (z : zone) (dref : nat) (data : card_data)
      (now k : Z) (meanwhile : M unit) :
  nth_error (zones w) zi = Some z ->
  draggedCardData w = Some dref ->
  nth_error (objects w) dref = Some data ->
  fst (calculateSortValue zi (drop_index z) now (exec hideDropIndicator w))
    = Returns k ->
  dropzone z <> Parsed.status (parsed data) \/ Parsed.sort (parsed data) <> Some k ->
  Spec.appends meanwhile ->
  exists r rest,
    http_log (exec (handleDrop (Some zi) now meanwhile) w) = http_log w ++ r :: rest
    /\ Http.verb r = Http.PATCH
    /\ Http.url r
         = CONFIG.API_BASE_URL ++ lit "/memory-fragments/" ++ Fragment.id (todo data).
Proof.
  intros Hz Hd Ho Hk Hchange Hm.
  unfold exec, handleDrop. unfold bind at 1. cbn [get]. rewrite Hd, Hz.
  unfold bind at 1. rewrite Ho. cbn [lift deref].
  unfold bind at 1.
  change (hideDropIndicator w) with (Returns tt, exec hideDropIndicator w).
  unfold bind at 1.
  pose proof (calculateSortValue_reads_only zi (drop_index z) now
                (exec hideDropIndicator w)) as Hpure.
  destruct (calculateSortValue zi (drop_index z) now (exec hideDropIndicator w))
    as [r0 w'].
  cbn [fst snd] in Hk, Hpure. subst r0 w'.
  assert (Hc : negb (negb (str_eqb (dropzone z) (Parsed.status (parsed data))))
               && negb match Parsed.sort (parsed data) with
                       | Some s => negb (Z.eqb k s)
                       | None => true
                       end = false).
  { destruct Hchange as [H|H].
    - apply str_eqb_neq in H. now rewrite H.
    - apply andb_false_iff. right.
      destruct (Parsed.sort (parsed data)) as [s|]; [|reflexivity].
      destruct (Z.eqb k s) eqn:E; [|reflexivity].
      apply Z.eqb_eq in E. subst s. contradiction. }
  rewrite Hc. unfold bind at 1. cbn [get].
  unfold bind at 1.
  set (w1 := exec hideDropIndicator w).
  match goal with
  | |- context [let (o, w') := ?m w1 in _] =>
      assert (H1 : http_log (snd (m w1)) = http_log w)
        by (destruct (draggedCard w1); reflexivity);
      assert (H2 : exists w2, m w1 = (Returns tt, w2))
        by (destruct (draggedCard w1); eexists; reflexivity);
      destruct H2 as [w2 H2]; rewrite H2 in *; cbn [snd] in H1
  end.
  unfold try_catch. unfold bind at 1. unfold await.
  match goal with
  | |- context [UsableAPI.updateTodo ?i ?t w2] =>
      destruct (updateTodo_log i t w2) as (r & Hr & Hv & Hu); unfold exec in Hr;
      destruct (UsableAPI.updateTodo i t w2) as [[j|e] w3]
  end; cbn [snd] in Hr.
  all: destruct (Hm w3) as (more & Hmore); unfold exec in Hmore.
  all: set (w4 := snd (meanwhile w3)) in *.
  all: assert (Hreload :
         exists g,
           http_log (snd ((showToast (lit "Failed to move task") "error" ;;
                           loadTodos) w4))
             = http_log w ++ r :: more ++ [g])
    by (destruct (loadTodos_log
                    (set_toast (Some (lit "Failed to move task", lit "error")) w4))
          as (g & Hg & _);
        exists g; unfold bind at 1; cbn [showToast modify]; unfold exec in Hg;
        rewrite Hg; cbn [http_log set_toast];
        rewrite Hmore, Hr, H1, <- !app_assoc; reflexivity).
  all: destruct Hreload as (g & Hg).
  - unfold bind at 1. cbn [get]. unfold bind at 1.
    destruct (draggedCardData w4) as [dragged|]; cbn [lift deref].
    + exists r, more. split; [|split; assumption].
      change (http_log w4 = http_log w ++ r :: more).
      now rewrite Hmore, Hr, H1, <- app_assoc.
    + exists r, (more ++ [g]). split; [exact Hg|split; assumption].
  - exists r, (more ++ [g]). split; [exact Hg|split; assumption].
Qed.

(** C3, as amended.  For a drop of the dragged card on a column, let [k]
    be the key computed for the drop position, the midpoint of the
    neighbours' keys.  The drop issues no remote update and changes
    neither the cache nor the card's data when the column is the card's
    own status and [k] is the key the card carries; in every other case
    it sends an update of the card to the store.  (A drop at the card's
    own position is not recognised as such: it is silent only when the
    midpoint happens to be the card's key.)  This holds whatever the
    page does while the update is awaited, [meanwhile]; of that the
    second part only needs that it leaves the requests already sent in
    the record. *)
Theorem drop_is_silent_when_nothing_changes
        (w : world) (zi : nat) (z : zone) (dref : nat) (data : card_data)
        (now k : Z) (meanwhile : M unit) :
  nth_error (zones w) zi = Some z ->
  draggedCardData w = Some dref ->
  nth_error (objects w) dref = Some data ->
  fst (calculateSortValue zi (drop_index z) now (exec hideDropIndicator w))
    = Returns k ->
  (dropzone z = Parsed.status (parsed data) /\ Parsed.sort (parsed data) = Some k ->
   handleDrop (Some zi) now meanwhile w = (Returns tt, exec hideDropIndicator w)
   /\ http_log (exec (handleDrop (Some zi) now meanwhile) w) = http_log w
   /\ todos (exec (handleDrop (Some zi) now meanwhile) w) = todos w
   /\ objects (exec (handleDrop (Some zi) now meanwhile) w) = objects w)
  /\ (dropzone z <> Parsed.status (parsed data) \/ Parsed.sort (parsed data) <> Some k ->
      Spec.appends meanwhile ->
      exists r rest,
        http_log (exec (handleDrop (Some zi) now meanwhile) w) = http_log w ++ r :: rest
        /\ Http.verb r = Http.PATCH
        /\ Http.url r
             = CONFIG.API_BASE_URL ++ lit "/memory-fragments/"
                 ++ Fragment.id (todo data)).
Proof.
  intros Hz Hd Ho Hk. split.
  - intros [Hs Hsort].
    pose proof (drop_unchanged_is_silent _ _ _ meanwhile Hz Hd Ho Hk Hs Hsort) as E.
    split; [exact E|]. unfold exec. rewrite E. repeat split.
  - exact (@drop_changed_sends_update w zi z dref data now k meanwhile Hz Hd Ho Hk).
Qed.

(** C6, as amended.  With no neighbour on either side the allocator
    returns half the clock reading, rounded down.  Two successive calls
    return keys in non-decreasing order when the clock does not run
    backwards, and in strictly increasing order when the readings are at
    least two milliseconds apart. *)
Theorem empty_column_keys_follow_the_clock
        (w : world) (zi : nat) (z : zone) (index : nat) (t1 t2 : Z) :
  nth_error (zones w) zi = Some z -> still_cards z = [] -> (t1 <= t2)%Z ->
  exists k1 k2,
    calculateSortValue zi index t1 w = (Returns k1, w)
    /\ calculateSortValue zi index t2 w = (Returns k2, w)
    /\ k1 = (t1 / 2)%Z /\ k2 = (t2 / 2)%Z
    /\ (k1 <= k2)%Z
    /\ ((t1 + 2 <= t2)%Z -> (k1 < k2)%Z).
Proof.
  intros Hz Hc Ht. exists (t1 / 2)%Z, (t2 / 2)%Z.
  rewrite !(fun now => @calculateSortValue_empty w zi z index now Hz Hc).
  repeat split; try reflexivity.
  - apply Z.div_le_mono; lia.
  - intros H. assert (t1 / 2 + 1 <= t2 / 2)%Z; [|lia].
    replace (t1 / 2 + 1)%Z with ((t1 + 1 * 2) / 2)%Z by (rewrite Z.div_add; lia).
    apply Z.div_le_mono; lia.
Qed.

End Drop.

Lemma drop_is_silent_when_nothing_changes_witness :
  @KanbanBoard.handleDrop Demo.solo_platform (Some 0) 1001%Z
     (KanbanBoard.handleDragEnd 0) Demo.solo_held_again
    = (Returns tt, exec KanbanBoard.hideDropIndicator Demo.solo_held_again)
  /\ http_log (exec (@KanbanBoard.handleDrop Demo.solo_platform (Some 0) 1001%Z
                       (KanbanBoard.handleDragEnd 0))
                    Demo.solo_held_again)
       = http_log Demo.solo_held_again
  /\ todos (exec (@KanbanBoard.handleDrop Demo.solo_platform (Some 0) 1001%Z
                    (KanbanBoard.handleDragEnd 0))
                 Demo.solo_held_again)
       = todos Demo.solo_held_again
  /\ objects (exec (@KanbanBoard.handleDrop Demo.solo_platform (Some 0) 1001%Z
                      (KanbanBoard.handleDragEnd 0))
                   Demo.solo_held_again)
       = objects Demo.solo_held_again.
Proof.
  refine (proj1 (@drop_is_silent_when_nothing_changes
                   Demo.solo_platform Demo.solo_held_again 0
                   {| dropzone := CONFIG.STATUSES.TODO;
                      children := [Card 0 true; DropIndicator] |}
                   0
                   {| todo := Demo.solo;
                      parsed := Parsed.make (lit "todo") (lit "medium") []
                                            (Some 500%Z) |}
                   1001%Z 500%Z (KanbanBoard.handleDragEnd 0) _ _ _ _) _);
    try split; vm_compute; reflexivity.
Defined.

(** C3, as stated, fails: a card that is alone in its column, picked up
    and dropped back where it was, is sent to the store again (the drag
    having ended before the answer, the board is then loaded anew); and
    once more when the card, picked up again before that answer, is
    dropped there a second later, now with a key of its own. *)
Lemma drop_in_place_sends_update :
  map children (zones Demo.solo_board) = [[Card 0 false]; []; []]
  /\ map children (zones Demo.solo_held) = [[Card 0 true; DropIndicator]; []; []]
  /\ http_log Demo.solo_board = []
  /\ map Http.verb (http_log Demo.solo_dropped) = [Http.PATCH; Http.GET]
  /\ map Http.url (firstn 1 (http_log Demo.solo_dropped))
       = [lit "/api/memory-fragments/a"]
  /\ map children (zones Demo.solo_dropped) = [[Card 1 false]; []; []]
  /\ map children (zones Demo.solo_held_again) = [[Card 0 true; DropIndicator]; []; []]
  /\ map (fun o => Parsed.sort (parsed o)) (objects Demo.solo_held_again)
       = [Some 500%Z]
  /\ map Http.verb (http_log Demo.solo_held_again) = [Http.PATCH]
  /\ map Http.verb (http_log Demo.solo_dropped_later)
       = [Http.PATCH; Http.PATCH; Http.GET]
  /\ map Http.url (firstn 2 (http_log Demo.solo_dropped_later))
       = [lit "/api/memory-fragments/a"; lit "/api/memory-fragments/a"].
Proof.
  repeat split; vm_compute; reflexivity.
Qed.

Lemma empty_column_keys_follow_the_clock_witness :
  exists k1 k2,
    KanbanBoard.calculateSortValue 0 0 1000%Z Demo.blank = (Returns k1, Demo.blank)
    /\ KanbanBoard.calculateSortValue 0 0 1002%Z Demo.blank = (Returns k2, Demo.blank)
    /\ k1 = (1000 / 2)%Z /\ k2 = (1002 / 2)%Z
    /\ (k1 <= k2)%Z
    /\ ((1000 + 2 <= 1002)%Z -> (k1 < k2)%Z).
Proof.
  apply (@empty_column_keys_follow_the_clock Demo.blank 0
           {| dropzone := CONFIG.STATUSES.TODO; children := [] |} 0 1000%Z 1002%Z).
  - reflexivity.
  - reflexivity.
  - lia.
Defined.

(** C6, as stated, fails: two drops into an empty column one millisecond
    apart get the same key. *)
Lemma empty_column_keys_can_repeat :
  exists k1 k2,
    KanbanBoard.calculateSortValue 0 0 1000%Z Demo.blank = (Returns k1, Demo.blank)
    /\ KanbanBoard.calculateSortValue 0 0 1001%Z Demo.blank = (Returns k2, Demo.blank)
    /\ ~ (k1 < k2)%Z.
Proof.
  exists 500%Z, 500%Z. repeat split; try (vm_compute; reflexivity). lia.
Qed.

(** ** Deleting *)

Lemma deleteTodo_request {P : Platform} (id : jsstring) (fields : TodoData.t) (w : world) :
  http_log (exec (UsableAPI.deleteTodo id fields) w)
    = http_log w ++
      [ {| Http.url := CONFIG.API_BASE_URL ++ lit "/memory-fragments/" ++ id;
           Http.verb := Http.DELETE;
           Http.bearer := Some (CONFIG.API_TOKEN (config w));
           Http.payload := None |} ].
Proof.
  unfold exec, UsableAPI.deleteTodo, UsableAPI.request, UsableAPI.fetch,
    bind, get, modify, ret.
  cbn [option_map].
  destruct (server _) as [|[|] status text [[|o]|]]; reflexivity.
Qed.

(** C2.  What the code does where the claim expects an update that sets
    the status to [deleted]: [deleteTodo] sends one DELETE request for
    the fragment and drops the fields it is called with.  With a store
    that honours the verb, the task the embed deletes is gone from the
    store and from the cache, and asking for it by id fails. *)
Theorem deleteTodo_removes_the_fragment :
  (forall (P : Platform) (id : jsstring) (fields : TodoData.t) (w : world),
     http_log (exec (UsableAPI.deleteTodo id fields) w)
       = http_log w ++
         [ {| Http.url := CONFIG.API_BASE_URL ++ lit "/memory-fragments/" ++ id;
              Http.verb := Http.DELETE;
              Http.bearer := Some (CONFIG.API_TOKEN (config w));
              Http.payload := None |} ])
  /\ map Fragment.id (todos Demo.pair_loaded) = [lit "a"; lit "c"]
  /\ map Http.verb (http_log Demo.pair_after_get) = [Http.GET; Http.DELETE; Http.GET]
  /\ map Fragment.id (todos Demo.pair_after_get) = [lit "a"]
  /\ outbox Demo.pair_after_get
       = [ TOOL_RESPONSE (Some (lit "r1"))
             (Success (lit "Task " ++ [KanbanBoard.QUOTE] ++ lit "C"
                         ++ [KanbanBoard.QUOTE] ++ lit " deleted"));
           TOOL_RESPONSE (Some (lit "r1"))
             (Failure (Error (lit "Task not found: c"))) ]
  /\ map Http.verb (http_log Demo.pair_after_button)
       = [Http.GET; Http.DELETE; Http.GET]
  /\ map Fragment.id (todos Demo.pair_after_button) = [lit "a"].
Proof.
  split; [intros; apply deleteTodo_request|].
  repeat split; vm_compute; reflexivity.
Qed.

(** ** Deleted tasks on the board *)

Section Deleted.
Import KanbanBoard.

Lemma deleted_after_default (st : jsstring) :
  str_eqb (or_default (Some st) CONFIG.STATUSES.TODO) DELETED = str_eqb st DELETED.
Proof. destruct st; reflexivity. Qed.

(** The columns are grouped as if the deleted tasks were not cached. *)
Lemma group_for_board_ignores_deleted (ts : list Fragment.t) :
  forall g, group_for_board (Spec.without_deleted ts) g = group_for_board ts g.
Proof.
  induction ts as [|t ts IH]; intros g; [reflexivity|].
  cbn [Spec.without_deleted filter group_for_board]. unfold Spec.is_deleted.
  destruct (parseContent_returns (Fragment.content t)) as (p & E & _).
  rewrite E. cbn [obind]. rewrite deleted_after_default.
  destruct (str_eqb (Parsed.status p) DELETED) eqn:D; cbn [negb].
  - apply IH.
  - cbn [group_for_board]. rewrite E. cbn [obind]. rewrite deleted_after_default, D.
    destruct (grouped_get _); try reflexivity; apply IH.
Qed.

Lemma live_tasks_ignores_deleted (ts : list Fragment.t) :
  live_tasks (Spec.without_deleted ts) = live_tasks ts.
Proof.
  induction ts as [|t ts IH]; [reflexivity|].
  destruct (parseContent_returns (Fragment.content t)) as (p & E & _).
  assert (D : Spec.is_deleted t = str_eqb (Parsed.status p) DELETED)
    by (unfold Spec.is_deleted; now rewrite E).
  change (Spec.without_deleted (t :: ts))
    with (if negb (Spec.is_deleted t) then t :: Spec.without_deleted ts
          else Spec.without_deleted ts).
  rewrite D. cbn [live_tasks]. rewrite E. cbn [obind].
  destruct (str_eqb (Parsed.status p) DELETED) eqn:F; cbn [negb].
  - rewrite IH. destruct (live_tasks ts); reflexivity.
  - cbn [live_tasks]. rewrite E. cbn [obind]. rewrite IH, F. reflexivity.
Qed.

Lemma live_tasks_not_deleted (ts : list Fragment.t) :
  forall l, live_tasks ts = Returns l ->
  Forall (fun t => str_eqb (Parsed.status (parsed t)) DELETED = false) l.
Proof.
  induction ts as [|t ts IH]; intros l; cbn [live_tasks].
  - intros [= <-]. constructor.
  - destruct (UsableAPI.parseContent (Fragment.content t)) as [p|]; [|discriminate].
    cbn [obind]. destruct (live_tasks ts) as [rest|]; [|discriminate].
    cbn [obind]. destruct (str_eqb (Parsed.status p) DELETED) eqn:D; intros [= <-].
    + now apply IH.
    + constructor; [exact D|now apply IH].
Qed.

(** The digest for the chat is the digest of the cache without its
    deleted tasks. *)
Lemma getBoardContext_ignores_deleted (w : world) :
  getBoardContext (set_todos (Spec.without_deleted (todos w)) w) = getBoardContext w.
Proof.
  unfold getBoardContext. cbn [todos set_todos].
  now rewrite live_tasks_ignores_deleted.
Qed.

(** So is the answer to list_tasks. *)
Lemma list_tasks_ignores_deleted (input : option tool_input) (w : world) :
  list_tasks input (set_todos (Spec.without_deleted (todos w)) w) = list_tasks input w.
Proof.
  unfold list_tasks. cbn [todos set_todos].
  now rewrite live_tasks_ignores_deleted.
Qed.

Lemma append_cards_frame (ts : list Fragment.t) (zi : nat) (cards : list card_data) :
  forall w, append_cards zi cards (set_todos ts w)
            = (fst (append_cards zi cards w), set_todos ts (exec (append_cards zi cards) w)).
Proof.
  induction cards as [|c cards IH]; intros w; [reflexivity|].
  cbn [append_cards]. unfold bind, get, modify, exec in *. cbn [fst snd].
  cbn [objects zones set_todos set_objects set_zones].
  match goal with
  | |- append_cards zi cards ?a = (fst (append_cards zi cards ?b), _) =>
      change a with (set_todos ts b)
  end.
  apply IH.
Qed.

Lemma render_group_frame
      (ts : list Fragment.t) (e : jsstring * list card_data) (w : world) :
  render_group e (set_todos ts w)
    = (fst (render_group e w), set_todos ts (exec (render_group e) w)).
Proof.
  destruct e as [status group]. unfold render_group, exec, bind, get, modify.
  cbn [zones set_todos]. fold (set_todos ts w).
  destruct (find_zone status (zones w)) as [zi|].
  - rewrite append_cards_frame. unfold exec.
    destruct (append_cards zi (sort_cards group) w) as [[[]|e] w']; reflexivity.
  - reflexivity.
Qed.

Lemma for_each_render_frame
      (ts : list Fragment.t) (l : list (jsstring * list card_data)) :
  forall w, for_each render_group l (set_todos ts w)
            = (fst (for_each render_group l w),
               set_todos ts (exec (for_each render_group l) w)).
Proof.
  induction l as [|e l IH]; intros w; [reflexivity|].
  cbn [for_each]. unfold bind, exec in *. rewrite render_group_frame.
  unfold exec. destruct (render_group e w) as [[[]|x] w']; cbn [fst snd]; [|reflexivity].
  apply IH.
Qed.

(** The cards and the counters of the columns are those of the cache
    without its deleted tasks. *)
Lemma renderBoard_ignores_deleted (w : world) :
  let shown := exec renderBoard w in
  let pruned := exec renderBoard (set_todos (Spec.without_deleted (todos w)) w) in
  zones pruned = zones shown
  /\ counts pruned = counts shown
  /\ objects pruned = objects shown.
Proof.
  unfold renderBoard, exec, bind, get, modify, lift.
  cbn [todos set_todos zones]. rewrite group_for_board_ignores_deleted.
  destruct (group_for_board (todos w) no_groups) as [g|e]; [|cbn; auto].
  match goal with
  | |- context [for_each render_group (entries g) ?a] =>
      change a with (set_todos (Spec.without_deleted (todos w))
                               (set_zones (map_children (fun _ => []) (zones w)) w))
  end.
  rewrite for_each_render_frame. unfold exec.
  destruct (for_each render_group (entries g) _) as [[[]|x] w']; cbn; auto.
Qed.

(** The total in the header counts the whole cache. *)
Lemma renderBoard_total_counts_cache (w : world) :
  fst (renderBoard w) = Returns tt ->
  taskCount (exec renderBoard w) = Spec.total_text (List.length (todos w)).
Proof.
  unfold renderBoard, exec, bind, get, modify, lift.
  destruct (group_for_board (todos w) no_groups) as [g|e]; [|discriminate].
  destruct (for_each render_group (entries g) _) as [[[]|x] w']; [|discriminate].
  reflexivity.
Qed.

End Deleted.

(** C4.  What the code does where the claim expects deleted tasks to be
    left out of every count: whenever the board renders, the total in the
    header is the size of the whole cache.  With one task in the cache,
    and that task deleted, the columns are empty, their counters read 0
    and list_tasks answers with no task, but the total reads "1 task"
    where a cache without the task gives "0 tasks". *)
Theorem deleted_task_in_total_count :
  (forall w, fst (KanbanBoard.renderBoard w) = Returns tt ->
             taskCount (exec KanbanBoard.renderBoard w)
               = Spec.total_text (List.length (todos w)))
  /\ Spec.is_deleted Demo.gone = true
  /\ map children (zones Demo.gone_board) = [[]; []; []]
  /\ map snd (counts Demo.gone_board) = [lit "0"; lit "0"; lit "0"]
  /\ KanbanBoard.list_tasks None Demo.gone_board = Returns (TaskList [])
  /\ taskCount Demo.gone_board = lit "1 task"
  /\ taskCount (exec KanbanBoard.renderBoard
                     (set_todos (Spec.without_deleted [Demo.gone]) Demo.blank))
       = lit "0 tasks".
Proof.
  split; [exact renderBoard_total_counts_cache|].
  repeat split; vm_compute; reflexivity.
Qed.

(* ================================================================== *)
(** * Frames: what a computation leaves alone                       *)
(* ================================================================== *)

Section Frames.
Context {P : Platform}.
Import KanbanBoard.

(** The steps of a computation keep what each of them keeps. *)
Lemma keeps_bind {A B C} (f : world -> C) (m : M A) (k : A -> M B) :
  Frame.keeps f m -> (forall a, Frame.keeps f (k a)) -> Frame.keeps f (bind m k).
Proof.
  intros Hm Hk w. unfold exec, bind. specialize (Hm w). unfold exec in Hm.
  destruct (m w) as [[a|e] w']; cbn [snd] in *; [|exact Hm].
  rewrite <- Hm. apply Hk.
Qed.

Lemma keeps_try_catch {A C} (f : world -> C) (m : M A) (h : exn -> M A) :
  Frame.keeps f m -> (forall e, Frame.keeps f (h e)) -> Frame.keeps f (try_catch m h).
Proof.
  intros Hm Hh w. unfold exec, try_catch. specialize (Hm w). unfold exec in Hm.
  destruct (m w) as [[a|e] w']; cbn [snd] in *; [exact Hm|].
  rewrite <- Hm. apply Hh.
Qed.

Lemma keeps_finally {A C} (f : world -> C) (m : M A) (k : M unit) :
  Frame.keeps f m -> Frame.keeps f k -> Frame.keeps f (finally m k).
Proof.
  intros Hm Hk w. unfold exec, finally. specialize (Hm w). unfold exec in Hm.
  destruct (m w) as [r w']. cbn [snd] in Hm. specialize (Hk w'). unfold exec in Hk.
  destruct (k w') as [[u|e] w'']; cbn [snd] in *; congruence.
Qed.

Lemma keeps_when {C} (f : world -> C) (b : bool) (m : M unit) :
  Frame.keeps f m -> Frame.keeps f (when b m).
Proof. intros Hm. destruct b; [exact Hm|intros w; reflexivity]. Qed.

Lemma keeps_for_each {A C} (f : world -> C) (g : A -> M unit) (l : list A) :
  (forall a, Frame.keeps f (g a)) -> Frame.keeps f (for_each g l).
Proof.
  intros Hg. induction l as [|x l IH]; [intros w; reflexivity|].
  cbn [for_each]. apply keeps_bind; [apply Hg|intros _; exact IH].
Qed.

End Frames.

Create HintDb frames.

(** Break a computation into its steps; a step that assigns to another
    field closes by computation, a loop by its lemma. *)
Ltac frame :=
  repeat first
    [ solve [auto 2 with frames]
    | solve [intros ?; reflexivity]
    | apply keeps_bind; [|intros ?]
    | apply keeps_try_catch; [|intros ?]
    | apply keeps_finally
    | apply keeps_when
    | match goal with
      | |- forall _, _ => intros ?
      | |- Frame.keeps _ (match ?x with _ => _ end) => destruct x
      | |- Frame.keeps ?f ?m =>
          let m' := eval hnf in m in progress change (Frame.keeps f m')
      end ].

(** Nothing but [postToEmbed] writes to the embed. *)
Section Channel.
Context {P : Platform}.
Import KanbanBoard.

Lemma channel_append_cards zi cards : Frame.keeps Frame.channel (append_cards zi cards).
Proof.
  induction cards as [|c cards IH]; [intros w; reflexivity|].
  cbn [append_cards]. frame.
Qed.
#[local] Hint Resolve channel_append_cards : frames.

Lemma channel_renderBoard : Frame.keeps Frame.channel renderBoard.
Proof. unfold renderBoard. frame. Qed.
#[local] Hint Resolve channel_renderBoard : frames.

Lemma channel_request e v p : Frame.keeps Frame.channel (UsableAPI.request e v p).
Proof. unfold UsableAPI.request. frame. Qed.
#[local] Hint Resolve channel_request : frames.

Lemma channel_loadTodos : Frame.keeps Frame.channel loadTodos.
Proof. unfold loadTodos. frame. Qed.
#[local] Hint Resolve channel_loadTodos : frames.

Lemma channel_dispatch tool input : Frame.keeps Frame.channel (dispatch tool input).
Proof. unfold dispatch. frame. Qed.

Lemma channel_refreshToken : Frame.keeps Frame.channel UsableAuth.refreshToken.
Proof. unfold UsableAuth.refreshToken. frame. Qed.
End Channel.

(** Settle the comparisons of two literal strings in the goal. *)
Ltac compare_literals :=
  repeat match goal with
         | |- context [str_eqb (lit ?a) (lit ?b)] =>
             let v := eval vm_compute in (str_eqb (lit a) (lit b)) in
             change (str_eqb (lit a) (lit b)) with v
         end; cbv iota.

(* ================================================================== *)
(** * The tool bridge as a whole                                    *)
(* ================================================================== *)

Section ToolBridge.
Context {P : Platform}.
Import KanbanBoard.

(** With an embed in place, [postToEmbed] appends its message. *)
Lemma postToEmbed_posts (m : embed_message) (w : world) :
  embed w = true ->
  postToEmbed m w = (Returns tt, set_outbox (outbox w ++ [m]) w).
Proof. intros H. unfold postToEmbed, bind, get. now rewrite H. Qed.

(** X1. Every tool call that carries a payload is answered: whatever the
    tool, the input, the cache and the server do, [handleToolCall]
    returns and exactly one TOOL_RESPONSE with the call's [requestId] is
    appended to what is posted to the embed. *)
Theorem every_tool_call_gets_one_response (call : tool_call) (w : world) :
  embed w = true ->
  exists r w',
    handleToolCall (Some call) w = (Returns tt, w')
    /\ outbox w' = outbox w ++ [TOOL_RESPONSE (requestId call) r].
Proof.
  intros He. unfold handleToolCall. unfold bind at 1. cbn [lift deref].
  unfold try_catch. unfold bind at 1.
  pose proof (channel_dispatch (tool call) (input call) w) as Hc.
  unfold exec, Frame.channel in Hc.
  destruct (dispatch (tool call) (input call) w) as [[r|e] w1]; cbn [snd] in Hc;
    injection Hc as Ho Hb; rewrite postToEmbed_posts by congruence;
    eexists; eexists; (split; [reflexivity|]); cbn [outbox set_outbox]; now rewrite Ho.
Qed.

Lemma mute_bind {A B} (m : M A) (k : A -> M B) :
  Frame.mute m -> (forall a, Frame.mute (k a)) -> Frame.mute (bind m k).
Proof.
  intros Hm Hk w He. unfold exec, bind. specialize (Hm w He). unfold exec in Hm.
  destruct (m w) as [[a|e] w']; cbn [snd] in *; [|exact Hm].
  rewrite <- Hm. apply Hk. unfold Frame.channel in Hm. congruence.
Qed.

Lemma mute_try_catch {A} (m : M A) (h : exn -> M A) :
  Frame.mute m -> (forall e, Frame.mute (h e)) -> Frame.mute (try_catch m h).
Proof.
  intros Hm Hh w He. unfold exec, try_catch. specialize (Hm w He). unfold exec in Hm.
  destruct (m w) as [[a|e] w']; cbn [snd] in *; [exact Hm|].
  rewrite <- Hm. apply Hh. unfold Frame.channel in Hm. congruence.
Qed.

Lemma mute_of_keeps {A} (m : M A) : Frame.keeps Frame.channel m -> Frame.mute m.
Proof. intros H w _. apply H. Qed.

Lemma mute_postToEmbed m : Frame.mute (postToEmbed m).
Proof. intros w He. unfold exec, postToEmbed, bind, get. now rewrite He. Qed.

Lemma mute_when b (m : M unit) : Frame.mute m -> Frame.mute (when b m).
Proof. intros H. destruct b; [exact H|]. intros w _. reflexivity. Qed.

(** Break a computation into its steps for [Frame.mute]. *)
Ltac mute :=
  repeat first
    [ apply mute_postToEmbed
    | apply mute_of_keeps; solve [frame]
    | apply mute_bind; [|intros ?]
    | apply mute_try_catch; [|intros ?]
    | apply mute_when
    | match goal with
      | |- forall _, _ => intros ?
      | |- Frame.mute (match ?x with _ => _ end) => destruct x
      end ].

Lemma mute_handleToolCall p : Frame.mute (handleToolCall p).
Proof.
  unfold handleToolCall. apply mute_bind; [mute|intros call].
  apply mute_try_catch; [|mute].
  apply mute_bind; [apply mute_of_keeps, channel_dispatch|mute].
Qed.

(** X2. Without a window in the chat iframe the message listener posts
    nothing, whatever the message. *)
Theorem nothing_posted_without_embed (e : message_event) (w : world) :
  embed w = false -> outbox (exec (onMessage e) w) = outbox w.
Proof.
  intros He.
  assert (H : Frame.mute (onMessage e)).
  { unfold onMessage, sendAuthToEmbed, registerChatTools, detached.
    destruct (negb _); [mute|].
    apply mute_bind; [mute|intros _].
    apply mute_bind; [apply mute_when|intros _].
    { apply mute_bind; [apply mute_of_keeps, channel_refreshToken|mute]. }
    apply mute_bind; [apply mute_when|mute].
    apply mute_try_catch; [apply mute_handleToolCall|mute]. }
  specialize (H w He). unfold Frame.channel in H. congruence.
Qed.

(** [parseContent] never throws, so the list of live tasks is always there. *)
Lemma live_tasks_returns (ts : list Fragment.t) : exists l, live_tasks ts = Returns l.
Proof.
  induction ts as [|t ts [l IH]]; [eexists; reflexivity|].
  cbn [live_tasks]. destruct (parseContent_returns (Fragment.content t)) as (p & E & _).
  rewrite E, IH. cbn [obind]. eexists; reflexivity.
Qed.

(** X3. [get_task], [update_task], [move_task] and [delete_task] on an id
    that is not in the cache are refused without any request: the one
    response is the error [Task not found: id] and nothing else of the
    state changes. *)
Theorem unknown_id_is_refused_locally
        (name : jsstring) (call : tool_call) (given : tool_input) (w : world) :
  In name [lit "get_task"; lit "update_task"; lit "move_task"; lit "delete_task"] ->
  tool call = Text name ->
  input call = Some given ->
  find_todo (in_id given) (todos w) = None ->
  embed w = true ->
  handleToolCall (Some call) w
    = (Returns tt,
       set_outbox (outbox w ++ [TOOL_RESPONSE (requestId call)
                                   (Failure (not_found (in_id given)))]) w).
Proof.
  intros Hn Ht Hi Hf He.
  unfold handleToolCall. unfold bind at 1. cbn [lift deref].
  unfold try_catch. unfold bind at 1. unfold dispatch, is_tool. rewrite Ht, Hi.
  cbn [In] in Hn.
  repeat (destruct Hn as [Hn|Hn]; [subst name|]); try contradiction;
    compare_literals; unfold bind at 1; cbn [get]; unfold bind at 1; cbn [lift deref];
    rewrite Hf; cbn [throw]; now rewrite postToEmbed_posts.
Qed.

(** X4. The reading tools [list_tasks] and [get_task] change nothing
    but the outbox, where the one response goes: no request, no toast,
    no change of cache or document. *)
Theorem reading_tools_change_nothing
        (name : jsstring) (call : tool_call) (w : world) :
  In name [lit "list_tasks"; lit "get_task"] ->
  tool call = Text name ->
  embed w = true ->
  exists r,
    handleToolCall (Some call) w
      = (Returns tt, set_outbox (outbox w ++ [TOOL_RESPONSE (requestId call) r]) w).
Proof.
  intros Hn Ht He.
  unfold handleToolCall. unfold bind at 1. cbn [lift deref].
  unfold try_catch. unfold bind at 1. unfold dispatch, is_tool. rewrite Ht.
  cbn [In] in Hn.
  repeat (destruct Hn as [Hn|Hn]; [subst name|]); try contradiction; compare_literals.
  - unfold bind at 1. cbn [get lift]. unfold list_tasks.
    destruct (live_tasks_returns (todos w)) as [l ->]. cbn [obind].
    rewrite postToEmbed_posts by assumption. eexists; reflexivity.
  - unfold bind at 1. cbn [get]. unfold bind at 1.
    destruct (input call) as [given|]; cbn [lift deref].
    + destruct (find_todo (in_id given) (todos w)) as [t|].
      * unfold bind at 1. cbn [lift].
        destruct (parseContent_returns (Fragment.content t)) as (p & -> & _).
        cbn [ret]. rewrite postToEmbed_posts by assumption. eexists; reflexivity.
      * cbn [throw]. rewrite postToEmbed_posts by assumption. eexists; reflexivity.
    + rewrite postToEmbed_posts by assumption. eexists; reflexivity.
Qed.

(** X5. On READY from the embed the page posts, in this order, AUTH
    with the access token (when there is one), REGISTER_TOOLS with the
    tool definitions and ADD_CONTEXT with the workspace and the digest
    of the board, and changes nothing else. *)
Theorem ready_pushes_token_tools_and_context (e : message_event) (w : world) (text : jsstring) :
  origin e = EMBED_ORIGIN ->
  data_type e = Some (lit "READY") ->
  getBoardContext w = Returns text ->
  embed w = true ->
  onMessage e w
    = (Returns tt,
       set_outbox
         (outbox w
            ++ (if truthy (_accessToken w) then [AUTH (or_default (_accessToken w) [])]
                else [])
            ++ [ REGISTER_TOOLS getChatToolDefinitions;
                 ADD_CONTEXT (Some (CONFIG.WORKSPACE_ID (config w))) text ])
         w).
Proof.
  intros Ho Ht Hc He.
  unfold onMessage. rewrite Ho, str_eqb_refl. cbn [negb].
  unfold is_type. rewrite Ht. compare_literals. cbn [when].
  unfold bind at 1. unfold bind at 1.
  unfold sendAuthToEmbed, UsableAuth.getAccessToken. unfold bind at 1. unfold bind at 1.
  cbn [get ret].
  assert (Hreg : forall w1, embed w1 = true -> todos w1 = todos w -> config w1 = config w ->
            registerChatTools w1
              = (Returns tt,
                 set_outbox (outbox w1 ++ [REGISTER_TOOLS getChatToolDefinitions;
                     ADD_CONTEXT (Some (CONFIG.WORKSPACE_ID (config w))) text]) w1)).
  { intros w1 H1 H2 H3. unfold registerChatTools. unfold bind at 1.
    rewrite postToEmbed_posts by assumption. unfold bind at 1. cbn [get].
    unfold bind at 1.
    replace (getBoardContext _) with (Returns (A:=jsstring) text)
      by (symmetry; rewrite <- Hc; unfold getBoardContext; cbn [todos set_outbox];
          now rewrite H2).
    cbn [lift]. rewrite postToEmbed_posts by exact H1.
    cbn [outbox set_outbox config]. rewrite H3, <- app_assoc. reflexivity. }
  destruct (_accessToken w) as [[|c t]|] eqn:Ea; cbn [truthy or_default app ret].
  - rewrite Hreg by auto. reflexivity.
  - rewrite postToEmbed_posts by assumption.
    rewrite Hreg by auto. cbn [outbox set_outbox]. rewrite <- app_assoc. reflexivity.
  - rewrite Hreg by auto. reflexivity.
Qed.
End ToolBridge.

Lemma every_tool_call_gets_one_response_witness :
  exists r w',
    @KanbanBoard.handleToolCall Demo.solo_platform (Some (Sample.call "move_task" "a"))
       Demo.solo_board = (Returns tt, w')
    /\ outbox w' = outbox Demo.solo_board ++ [TOOL_RESPONSE (Some (lit "r7")) r].
Proof.
  apply (@every_tool_call_gets_one_response Demo.solo_platform
           (Sample.call "move_task" "a") Demo.solo_board).
  reflexivity.
Defined.

Lemma nothing_posted_without_embed_witness :
  outbox (exec (@KanbanBoard.onMessage Demo.solo_platform
                  (Demo.tool_call_from "https://chat.usable.dev" "list_tasks" "a"))
               (Sample.without_embed Demo.solo_board))
  = outbox (Sample.without_embed Demo.solo_board).
Proof.
  apply (@nothing_posted_without_embed Demo.solo_platform). reflexivity.
Defined.

Lemma unknown_id_is_refused_locally_witness :
  @KanbanBoard.handleToolCall Demo.solo_platform (Some (Sample.call "delete_task" "zz"))
     Demo.solo_board
  = (Returns tt,
     set_outbox
       (outbox Demo.solo_board
          ++ [TOOL_RESPONSE (Some (lit "r7"))
                (Failure (KanbanBoard.not_found (Text (lit "zz"))))])
       Demo.solo_board).
Proof.
  refine (@unknown_id_is_refused_locally Demo.solo_platform (lit "delete_task")
            (Sample.call "delete_task" "zz") _ Demo.solo_board _ eq_refl eq_refl _ eq_refl).
  - cbn [In]. tauto.
  - vm_compute. reflexivity.
Defined.

Lemma reading_tools_change_nothing_witness :
  exists r,
    @KanbanBoard.handleToolCall Demo.solo_platform (Some (Sample.call "get_task" "a"))
       Demo.solo_board
    = (Returns tt,
       set_outbox (outbox Demo.solo_board ++ [TOOL_RESPONSE (Some (lit "r7")) r])
                  Demo.solo_board).
Proof.
  refine (@reading_tools_change_nothing Demo.solo_platform (lit "get_task")
            (Sample.call "get_task" "a") Demo.solo_board _ eq_refl eq_refl).
  cbn [In]. tauto.
Defined.

Lemma ready_pushes_token_tools_and_context_witness :
  @KanbanBoard.onMessage Demo.solo_platform (Sample.notice "READY") Sample.signed_in
  = (Returns tt,
     set_outbox
       [ AUTH (lit "jwt");
         REGISTER_TOOLS KanbanBoard.getChatToolDefinitions;
         ADD_CONTEXT (Some (lit "ws")) Sample.solo_digest ]
       Sample.signed_in).
Proof.
  refine (@ready_pushes_token_tools_and_context Demo.solo_platform
            (Sample.notice "READY") Sample.signed_in Sample.solo_digest
            eq_refl eq_refl _ eq_refl).
  vm_compute. reflexivity.
Defined.

(** [null] is not [undefined] for the bridge: the message about an
    unknown tool or task prints either by its name, and [update_task]
    keeps the body when [content] is absent but writes an empty one
    when it is [null]. *)
Example null_is_not_undefined_for_the_bridge :
  let said (call : KanbanBoard.tool_call) (w : world) :=
    outbox (exec (@KanbanBoard.handleToolCall Demo.solo_platform (Some call)) w) in
  let header := lit "---" ++ [LF] ++ lit "status: todo" ++ [LF]
                  ++ lit "priority: medium" ++ [LF] ++ lit "---" ++ [LF; LF] in
  said (Sample.bare_call Null) Demo.blank
  = [TOOL_RESPONSE (Some (lit "r9")) (Failure (Error (lit "Unknown tool: null")))]
  /\ said (Sample.bare_call Missing) Demo.blank
     = [TOOL_RESPONSE (Some (lit "r9")) (Failure (Error (lit "Unknown tool: undefined")))]
  /\ said (Sample.asking Null) Sample.noted_cache
     = [TOOL_RESPONSE (Some (lit "r9")) (Failure (Error (lit "Task not found: null")))]
  /\ Sample.first_content
       (exec (@KanbanBoard.handleToolCall Demo.solo_platform (Some (Sample.edit Missing)))
             Sample.noted_cache)
     = Some (header ++ lit "notes")
  /\ Sample.first_content
       (exec (@KanbanBoard.handleToolCall Demo.solo_platform (Some (Sample.edit Null)))
             Sample.noted_cache)
     = Some header
  /\ Sample.first_content
       (exec (@KanbanBoard.handleToolCall Demo.solo_platform
                (Some (Sample.edit (Text (lit "new")))))
             Sample.noted_cache)
     = Some (header ++ lit "new").
Proof.
  repeat split; vm_compute; reflexivity.
Qed.

(* ================================================================== *)
(** * Token refresh, session restore, logout and login              *)
(* ================================================================== *)

Section Refresh.
Context {P : Platform}.
Import UsableAuth.

(** Without a refresh token in memory or in storage [refreshToken] does
    nothing. *)
Lemma refreshToken_without_token_is_idle (w : world) :
  truthy (Frame.held_refresh_token w) = false ->
  refreshToken w = (Returns None, w).
Proof.
  unfold Frame.held_refresh_token. intros H. unfold refreshToken, bind. cbn [get].
  now rewrite H.
Qed.

(** What [refreshToken] does with each answer of the token endpoint. *)
Lemma refreshToken_cases (w : world) (rt : jsstring) :
  Frame.held_refresh_token w = Some rt -> rt <> [] ->
  let sent := set_http_log (http_log w ++ [Frame.refresh_request rt]) w in
  refreshToken w
    = match server (http_log w ++ [Frame.refresh_request rt]) with
      | Http.Reply false _ _ _ =>
          (Returns None,
           set_usable_refresh_token None (set__refreshToken None (set__accessToken None sent)))
      | Http.Reply true _ _ (Some (Http.JObject t)) =>
          (Returns (Http.access_token t),
           set__refreshTimer (Some (Frame.refresh_delay t))
             ((if truthy (Http.refresh_token t)
               then set_usable_refresh_token (Http.refresh_token t)
               else fun x => x)
                (set__refreshToken (Http.refresh_token t)
                   (set__accessToken (Http.access_token t) sent))))
      | _ => (Returns None, sent)
      end.
Proof.
  intros Hh Hne sent. unfold Frame.held_refresh_token in Hh.
  assert (Ht : truthy (Some rt) = true) by (destruct rt; [contradiction|reflexivity]).
  unfold refreshToken. unfold bind at 1. cbn [get]. rewrite Hh, Ht. cbn [negb].
  unfold try_catch. unfold bind at 1. unfold UsableAPI.fetch.
  unfold bind at 1. unfold bind at 1. cbn [get modify ret].
  replace (or_default (Some rt) []) with rt by (destruct rt; [contradiction|reflexivity]).
  fold (Frame.refresh_request rt). fold sent.
  destruct (server (http_log w ++ [Frame.refresh_request rt]))
    as [|[|] status text [[|t]|]]; try reflexivity.
  unfold bind, ret, _setTokens, bind, modify, when, scheduleRefresh, modify,
    Frame.refresh_delay. cbn.
  destruct (truthy (Http.refresh_token t)); reflexivity.
Qed.

(** X6. When the token endpoint turns a refresh down (a reply that is
    not ok), [refreshToken] returns null and the session is over: access
    token, refresh token and the stored refresh token are cleared and
    [isAuthenticated] is false.  The armed timer is left as it is. *)
Theorem refreshToken_rejected_logs_out (w : world) (rt : jsstring) status text parsed :
  Frame.held_refresh_token w = Some rt -> rt <> [] ->
  server (http_log w ++ [Frame.refresh_request rt]) = Http.Reply false status text parsed ->
  exists w',
    refreshToken w = (Returns None, w')
    /\ _accessToken w' = None /\ _refreshToken w' = None
    /\ usable_refresh_token w' = None
    /\ fst (isAuthenticated w') = Returns false
    /\ _refreshTimer w' = _refreshTimer w
    /\ http_log w' = http_log w ++ [Frame.refresh_request rt].
Proof.
  intros Hh Hne Hs. rewrite (refreshToken_cases _ Hh Hne), Hs.
  eexists. split; [reflexivity|]. repeat split.
Qed.

(** X7. When the refresh request gets no usable answer (the endpoint is
    unreachable, or an ok reply whose body is not JSON or is JSON null),
    [refreshToken] returns null and keeps every token as it was; only
    the request is on the log. *)
Theorem refreshToken_unanswered_keeps_tokens (w : world) (rt : jsstring) :
  Frame.held_refresh_token w = Some rt -> rt <> [] ->
  (server (http_log w ++ [Frame.refresh_request rt]) = Http.Unreachable
   \/ exists status text,
        server (http_log w ++ [Frame.refresh_request rt])
          = Http.Reply true status text None
        \/ server (http_log w ++ [Frame.refresh_request rt])
             = Http.Reply true status text (Some Http.JNull)) ->
  refreshToken w
    = (Returns None, set_http_log (http_log w ++ [Frame.refresh_request rt]) w).
Proof.
  intros Hh Hne Hs. rewrite (refreshToken_cases _ Hh Hne).
  destruct Hs as [->|(status & text & [->| ->])]; reflexivity.
Qed.

Lemma ToInt32_in_range (z : Z) :
  (-2147483648 <= z < 2147483648)%Z -> ToInt32 z = z.
Proof.
  intros H. unfold ToInt32. rewrite Z.mod_small by lia. lia.
Qed.

Lemma ToInt32_wraps (z : Z) :
  (2147483648 <= z < 4294967296)%Z -> ToInt32 z = (z - 4294967296)%Z.
Proof.
  intros H. unfold ToInt32.
  replace (z + 2147483648)%Z with ((z - 2147483648) + 1 * 4294967296)%Z by lia.
  rewrite Z.mod_add by lia. rewrite Z.mod_small by lia. lia.
Qed.

Lemma timer_delay_bounds (z : Z) : (0 <= timer_delay z <= 2147483647)%Z.
Proof.
  unfold timer_delay, ToInt32.
  pose proof (Z.mod_pos_bound (z + 2147483648) 4294967296 eq_refl). lia.
Qed.

(** X8. When the refresh is granted, [refreshToken] returns the new
    access token, which [_setTokens] has put in memory together with the
    new refresh token; the stored refresh token is overwritten only by a
    non-empty new one; and [scheduleRefresh] arms the timer.  The delay
    the timer goes by is 30 s before expiry for a lifetime from 40 s to
    2147513 s, 10 s for a shorter lifetime, and 270 s when the reply
    names no lifetime (or 0).  From 2147514 s on the delay no longer
    fits the 32 bits of [setTimeout]: up to 4294997 s it wraps to a
    negative number and the timer fires at once. *)
Theorem refreshToken_granted_rearms (w : world) (rt : jsstring) status text t :
  Frame.held_refresh_token w = Some rt -> rt <> [] ->
  server (http_log w ++ [Frame.refresh_request rt])
    = Http.Reply true status text (Some (Http.JObject t)) ->
  exists w' delay,
    refreshToken w = (Returns (Http.access_token t), w')
    /\ _accessToken w' = Http.access_token t
    /\ _refreshToken w' = Http.refresh_token t
    /\ usable_refresh_token w'
         = (if truthy (Http.refresh_token t) then Http.refresh_token t
            else usable_refresh_token w)
    /\ _refreshTimer w' = Some delay
    /\ (0 <= delay <= 2147483647)%Z
    /\ (forall e, Http.expires_in t = Some e -> (40 <= e <= 2147513)%Z ->
                  delay = ((e - 30) * 1000)%Z)
    /\ (forall e, Http.expires_in t = Some e -> e <> 0%Z -> (e < 40)%Z ->
                  delay = 10000%Z)
    /\ (Http.expires_in t = None \/ Http.expires_in t = Some 0%Z -> delay = 270000%Z)
    /\ (forall e, Http.expires_in t = Some e -> (2147514 <= e <= 4294997)%Z ->
                  delay = 0%Z).
Proof.
  intros Hh Hne Hs. rewrite (refreshToken_cases _ Hh Hne), Hs.
  eexists. exists (Frame.refresh_delay t). split; [reflexivity|].
  assert (Hd : (0 <= Frame.refresh_delay t <= 2147483647)%Z
               /\ (forall e, Http.expires_in t = Some e -> (40 <= e <= 2147513)%Z ->
                             Frame.refresh_delay t = ((e - 30) * 1000)%Z)
               /\ (forall e, Http.expires_in t = Some e -> e <> 0%Z -> (e < 40)%Z ->
                             Frame.refresh_delay t = 10000%Z)
               /\ (Http.expires_in t = None \/ Http.expires_in t = Some 0%Z ->
                   Frame.refresh_delay t = 270000%Z)
               /\ (forall e, Http.expires_in t = Some e -> (2147514 <= e <= 4294997)%Z ->
                             Frame.refresh_delay t = 0%Z)).
  { unfold Frame.refresh_delay. split; [apply timer_delay_bounds|].
    split; [|split; [|split]].
    - intros e -> He. destruct (Z.eqb_spec e 0); [lia|].
      unfold timer_delay. rewrite ToInt32_in_range by lia. lia.
    - intros e -> He0 He. destruct (Z.eqb_spec e 0); [contradiction|].
      unfold timer_delay. rewrite ToInt32_in_range by lia. lia.
    - intros [-> | ->]; reflexivity.
    - intros e -> He. destruct (Z.eqb_spec e 0); [lia|].
      unfold timer_delay. rewrite ToInt32_wraps by lia. lia. }
  destruct (truthy (Http.refresh_token t));
    cbn [_accessToken _refreshToken usable_refresh_token _refreshTimer
         set__refreshTimer set_usable_refresh_token set__refreshToken set__accessToken
         set_http_log];
    repeat (split; [reflexivity|]); exact Hd.
Qed.


(** A token that [refreshToken] returns is the access token in memory. *)
Lemma refreshToken_token_is_stored (w w' : world) (tok : option jsstring) :
  refreshToken w = (Returns tok, w') -> truthy tok = true -> _accessToken w' = tok.
Proof.
  intros E Ht.
  destruct (Frame.held_refresh_token w) as [rt|] eqn:Eh.
  - destruct rt as [|c rt].
    + rewrite refreshToken_without_token_is_idle in E
        by (unfold Frame.held_refresh_token in *; now rewrite Eh).
      injection E as <- _. discriminate.
    + rewrite (refreshToken_cases _ Eh) in E by discriminate.
      destruct (server _) as [|[|] status text [[|t]|]];
        injection E as <- <-; try discriminate.
      destruct (truthy (Http.refresh_token t)); reflexivity.
  - rewrite refreshToken_without_token_is_idle in E
      by (unfold Frame.held_refresh_token in *; now rewrite Eh).
    injection E as <- _. discriminate.
Qed.

(** X9. When [tryRestore] returns true the user is authenticated
    afterwards, a refresh token was stored before, and exactly one
    request was sent: the refresh with that stored token. *)
Theorem restored_session_is_authenticated (w w' : world) :
  AuthFlow.tryRestore w = (Returns true, w') ->
  fst (isAuthenticated w') = Returns true
  /\ truthy (usable_refresh_token w) = true
  /\ exists rt, usable_refresh_token w = Some rt
       /\ http_log w' = http_log w ++ [Frame.refresh_request rt].
Proof.
  unfold AuthFlow.tryRestore. unfold bind at 1. cbn [get].
  destruct (truthy (usable_refresh_token w)) eqn:Et; cbn [negb]; [|discriminate].
  unfold bind at 1. cbn [modify]. unfold bind at 1.
  destruct (usable_refresh_token w) as [[|c rt]|] eqn:Eu; try discriminate.
  match goal with |- context [refreshToken ?x] => set (w1 := x) end.
  assert (Eh : Frame.held_refresh_token w1 = Some (c :: rt)) by reflexivity.
  destruct (refreshToken w1) as [[tok|e] w2] eqn:Er; cbn [ret]; [|discriminate].
  intros [= Htok <-].
  assert (Ha : _accessToken w2 = tok)
    by (eapply refreshToken_token_is_stored; eassumption).
  split; [unfold isAuthenticated, bind; cbn; now rewrite Ha, Htok|].
  split; [reflexivity|]. exists (c :: rt). split; [reflexivity|].
  rewrite (refreshToken_cases _ Eh) in Er by discriminate. cbv zeta in Er.
  change (http_log w1) with (http_log w) in Er.
  destruct (server _) as [|[|] status text [[|t]|]];
    injection Er as <- <-; try discriminate.
  destruct (truthy (Http.refresh_token t)); reflexivity.
Qed.

(** Without a stored refresh token [tryRestore] does nothing. *)
Lemma tryRestore_without_stored_token (w : world) :
  truthy (usable_refresh_token w) = false ->
  AuthFlow.tryRestore w = (Returns false, w).
Proof.
  intros H. unfold AuthFlow.tryRestore, bind. cbn [get]. now rewrite H.
Qed.

(** X10. [logout] always returns; afterwards no token is left in memory
    or storage and no timer is armed, [isAuthenticated] is false, a
    later [refreshToken] or [tryRestore] finds nothing to go by and
    sends nothing, and the page goes to the logout endpoint with the
    page's origin as the post-logout redirect.  [logout] itself sends no
    request. *)
Theorem logout_ends_the_session (w : world) :
  exists nav w',
    AuthFlow.logout w = (Returns nav, w')
    /\ Frame.tokens w' = (None, None, None, None)
    /\ fst (isAuthenticated w') = Returns false
    /\ refreshToken w' = (Returns None, w')
    /\ AuthFlow.tryRestore w' = (Returns false, w')
    /\ http_log w' = http_log w
    /\ AuthFlow.address nav = AuthFlow.KEYCLOAK_BASE ++ lit "/logout"
    /\ In (lit "post_logout_redirect_uri", location_origin) (AuthFlow.query nav).
Proof.
  destruct w as [? ? ? timer ? ? ? ? ? ? ? ? ? ? ? ? ? ? ?].
  destruct timer; (eexists; eexists; split; [reflexivity|]);
    repeat split; cbn [In AuthFlow.query]; auto.
Qed.

(** On a page load without a code, or without a stored verifier,
    [handleCallback] does nothing. *)
Lemma handleCallback_idle_without_code_or_verifier (w : world) :
  truthy (location_code w) = false \/ truthy (usable_pkce_verifier w) = false ->
  handleCallback w = (Returns false, w).
Proof.
  intros H. unfold handleCallback. unfold bind at 1. cbn [get].
  destruct (truthy (location_code w)); cbn [negb]; [|reflexivity].
  destruct H as [H|H]; [discriminate|]. now rewrite H.
Qed.

End Refresh.

Lemma refreshToken_rejected_logs_out_witness :
  exists w',
    @UsableAuth.refreshToken (Demo.platform Demo.refusing_server) Sample.remembered
      = (Returns None, w')
    /\ _accessToken w' = None /\ _refreshToken w' = None
    /\ usable_refresh_token w' = None
    /\ fst (UsableAuth.isAuthenticated w') = Returns false
    /\ _refreshTimer w' = _refreshTimer Sample.remembered
    /\ http_log w' = http_log Sample.remembered
                       ++ [Frame.refresh_request (lit "old-refresh")].
Proof.
  refine (@refreshToken_rejected_logs_out (Demo.platform Demo.refusing_server)
            Sample.remembered (lit "old-refresh") 400 (lit "invalid_grant") None
            eq_refl _ eq_refl).
  discriminate.
Defined.

Lemma refreshToken_unanswered_keeps_tokens_witness :
  @UsableAuth.refreshToken (Demo.platform Sample.offline_server) Sample.remembered
  = (Returns None,
     set_http_log (http_log Sample.remembered
                     ++ [Frame.refresh_request (lit "old-refresh")])
                  Sample.remembered).
Proof.
  refine (@refreshToken_unanswered_keeps_tokens (Demo.platform Sample.offline_server)
            Sample.remembered (lit "old-refresh") eq_refl _ (or_introl eq_refl)).
  discriminate.
Defined.

Lemma refreshToken_granted_rearms_witness :
  exists w' delay,
    @UsableAuth.refreshToken (Demo.platform Demo.granting_server) Sample.remembered
      = (Returns (Some (lit "access")), w')
    /\ _accessToken w' = Some (lit "access")
    /\ _refreshToken w' = Some (lit "refresh")
    /\ usable_refresh_token w' = Some (lit "refresh")
    /\ _refreshTimer w' = Some delay
    /\ (0 <= delay <= 2147483647)%Z
    /\ (forall e, Some 300%Z = Some e -> (40 <= e <= 2147513)%Z ->
                  delay = ((e - 30) * 1000)%Z)
    /\ (forall e, Some 300%Z = Some e -> e <> 0%Z -> (e < 40)%Z -> delay = 10000%Z)
    /\ (Some 300%Z = None \/ Some 300%Z = Some 0%Z -> delay = 270000%Z)
    /\ (forall e, Some 300%Z = Some e -> (2147514 <= e <= 4294997)%Z -> delay = 0%Z).
Proof.
  refine (@refreshToken_granted_rearms (Demo.platform Demo.granting_server)
            Sample.remembered (lit "old-refresh") 200 [] _ eq_refl _ eq_refl).
  discriminate.
Defined.

(** A lifetime of 2147514 s: the timer is armed with the delay 0. *)
Example refresh_timer_wraps :
  let long_lived (log : list Http.request) :=
    Demo.ok_reply {| Http.fragments := None; Http.message := None;
                     Http.access_token := Some (lit "access");
                     Http.refresh_token := Some (lit "refresh");
                     Http.expires_in := Some 2147514%Z |} in
  _refreshTimer (exec (@UsableAuth.refreshToken (Demo.platform long_lived))
                      Sample.remembered)
  = Some 0%Z.
Proof. vm_compute. reflexivity. Qed.

Lemma restored_session_is_authenticated_witness :
  let w' := exec (@AuthFlow.tryRestore (Demo.platform Demo.granting_server))
                 Sample.remembered in
  fst (@UsableAuth.isAuthenticated w') = Returns true
  /\ truthy (usable_refresh_token Sample.remembered) = true
  /\ exists rt, usable_refresh_token Sample.remembered = Some rt
       /\ http_log w' = http_log Sample.remembered ++ [Frame.refresh_request rt].
Proof.
  refine (@restored_session_is_authenticated (Demo.platform Demo.granting_server)
            Sample.remembered _ _).
  vm_compute. reflexivity.
Defined.

(** ** The login flow *)

Lemma In_replace_all (a b x : N) (s : jsstring) :
  In x (replace_all a b s) -> x <> b -> In x s /\ x <> a.
Proof.
  unfold replace_all. intros H Hb. apply in_map_iff in H as (c & E & Hc).
  destruct (N.eqb_spec c a); subst; [contradiction|]. now split.
Qed.

Lemma drop_while_suffix (p : N -> bool) (s : jsstring) :
  exists pre, s = pre ++ drop_while p s.
Proof.
  induction s as [|c s [pre IH]]; [now exists []|].
  cbn [drop_while]. destruct (p c); [|now exists []].
  exists (c :: pre). cbn. now rewrite <- IH.
Qed.

Lemma drop_while_head (p : N -> bool) (s : jsstring) (c : N) (r : jsstring) :
  drop_while p s = c :: r -> p c = false.
Proof.
  induction s as [|d s IH]; [discriminate|].
  cbn [drop_while]. destruct (p d) eqn:E; [exact IH|]. now intros [= <- <-].
Qed.

Lemma In_strip_trailing (c x : N) (s : jsstring) :
  In x (AuthFlow.strip_trailing c s) -> In x s.
Proof.
  unfold AuthFlow.strip_trailing. intros H. apply in_rev in H.
  destruct (drop_while_suffix (N.eqb c) (rev s)) as [pre E].
  apply in_rev. rewrite E. apply in_or_app. now right.
Qed.

Lemma strip_trailing_last (c : N) (s p : jsstring) :
  AuthFlow.strip_trailing c s <> p ++ [c].
Proof.
  unfold AuthFlow.strip_trailing. intros E.
  apply (f_equal (@rev N)) in E. rewrite rev_involutive, rev_app_distr in E.
  cbn [rev app] in E. apply drop_while_head in E. now rewrite N.eqb_refl in E.
Qed.

Section Pkce.
Context {P : Platform} {C : Crypto}.
Import UsableAuth.

(** X11. Whatever [btoa] returns, the result of [_base64UrlEncode]
    contains neither [+] nor [/] and does not end in [=]: code verifier
    and code challenge are safe in a URL. *)
Theorem base64url_alphabet (bytes : list N) (s : jsstring) :
  AuthFlow._base64UrlEncode bytes = Returns s ->
  ~ In 43%N s /\ ~ In 47%N s /\ forall p, s <> p ++ [61%N].
Proof.
  unfold AuthFlow._base64UrlEncode. destruct (btoa bytes) as [encoded|e]; [|discriminate].
  cbn [obind]. intros [= <-]. split; [|split].
  - intros H. apply In_strip_trailing in H.
    apply In_replace_all in H as [H _]; [|discriminate].
    apply In_replace_all in H as [_ H]; [|discriminate]. now apply H.
  - intros H. apply In_strip_trailing in H.
    apply In_replace_all in H as [_ H]; [|discriminate]. now apply H.
  - intros p. apply strip_trailing_last.
Qed.


End Pkce.

Lemma base64url_alphabet_witness :
  ~ In 43%N (lit "-_--Aw") /\ ~ In 47%N (lit "-_--Aw")
  /\ forall p, lit "-_--Aw" <> p ++ [61%N].
Proof.
  refine (@base64url_alphabet Sample.crypto [251; 255; 190; 3]%N (lit "-_--Aw") _).
  vm_compute. reflexivity.
Defined.



(* ================================================================== *)
(** * A token refresh on request                                    *)
(* ================================================================== *)

Section RefreshOnRequest.
Context {P : Platform}.
Import KanbanBoard.

(** [refreshToken] never throws. *)
Lemma refreshToken_returns (w : world) :
  exists tok w1, UsableAuth.refreshToken w = (Returns tok, w1).
Proof.
  destruct (Frame.held_refresh_token w) as [[|c rt]|] eqn:Eh.
  - rewrite refreshToken_without_token_is_idle by (now rewrite Eh). eauto.
  - rewrite (refreshToken_cases _ Eh) by discriminate.
    destruct (server _) as [|[|] status text [[|t]|]]; eauto.
  - rewrite refreshToken_without_token_is_idle by (now rewrite Eh). eauto.
Qed.

(** X13. On REQUEST_TOKEN_REFRESH from the embed the page refreshes the
    token (which never throws) and then posts AUTH with whatever access
    token is in memory after the attempt: the new one when the refresh
    was granted, none when it was turned down, and the old one again
    when the request failed.  Nothing else is posted. *)
Theorem token_refresh_request_resends_what_is_held (e : message_event) (w : world) :
  origin e = EMBED_ORIGIN ->
  data_type e = Some (lit "REQUEST_TOKEN_REFRESH") ->
  embed w = true ->
  exists tok w1,
    UsableAuth.refreshToken w = (Returns tok, w1)
    /\ onMessage e w
       = (Returns tt,
          match _accessToken w1 with
          | Some (c :: t) => set_outbox (outbox w ++ [AUTH (c :: t)]) w1
          | _ => w1
          end).
Proof.
  intros Ho Ht He.
  destruct (refreshToken_returns w) as (tok & w1 & Er). exists tok, w1.
  split; [exact Er|].
  pose proof (channel_refreshToken w) as Hc. unfold exec, Frame.channel in Hc.
  rewrite Er in Hc. cbn [snd] in Hc. injection Hc as Hout Hemb.
  unfold onMessage. rewrite Ho, str_eqb_refl. cbn [negb].
  unfold is_type. rewrite Ht. compare_literals. cbn [when].
  unfold bind at 1. cbn [ret]. unfold bind at 1. unfold bind at 1. rewrite Er.
  unfold sendAuthToEmbed, UsableAuth.getAccessToken. unfold bind at 1. unfold bind at 1.
  cbn [get ret].
  destruct (_accessToken w1) as [[|c t]|]; try reflexivity.
  rewrite postToEmbed_posts by congruence. rewrite Hout. reflexivity.
Qed.
End RefreshOnRequest.

Lemma token_refresh_request_resends_what_is_held_witness :
  exists tok w1,
    @UsableAuth.refreshToken (Demo.platform Sample.offline_server) Sample.signed_in
      = (Returns tok, w1)
    /\ @KanbanBoard.onMessage (Demo.platform Sample.offline_server)
         (Sample.notice "REQUEST_TOKEN_REFRESH") Sample.signed_in
       = (Returns tt,
          match _accessToken w1 with
          | Some (c :: t) => set_outbox (outbox Sample.signed_in ++ [AUTH (c :: t)]) w1
          | _ => w1
          end).
Proof.
  apply (@token_refresh_request_resends_what_is_held (Demo.platform Sample.offline_server)
           (Sample.notice "REQUEST_TOKEN_REFRESH") Sample.signed_in);
    reflexivity.
Defined.

(* ================================================================== *)
(** * buildTags                                                     *)
(* ================================================================== *)

Section Tags.
Context {P : Platform}.
Import UsableAPI.

Lemma existsb_str_eqb (x : jsstring) (l : list jsstring) :
  existsb (str_eqb x) l = true <-> In x l.
Proof.
  rewrite existsb_exists. split.
  - intros (y & Hy & E). apply str_eqb_eq in E. now subst.
  - intros H. exists x. split; [exact H|apply str_eqb_refl].
Qed.

(** [Array.from(new Set(l))] on top of what is already there: a list
    without repetitions that starts with [acc] and has the members of
    both. *)
Lemma distinct_from (l acc : list jsstring) :
  NoDup acc ->
  let r := fold_left (fun acc x => if existsb (str_eqb x) acc then acc else acc ++ [x])
                     l acc in
  NoDup r /\ (exists rest, r = acc ++ rest) /\ (forall x, In x r <-> In x acc \/ In x l).
Proof.
  revert acc. induction l as [|y l IH]; intros acc Hacc; cbn [fold_left].
  - split; [exact Hacc|]. split; [exists []; now rewrite app_nil_r|].
    intros x. cbn [In]. tauto.
  - destruct (existsb (str_eqb y) acc) eqn:E.
    + apply existsb_str_eqb in E.
      destruct (IH acc Hacc) as (H1 & H2 & H3). split; [exact H1|]. split; [exact H2|].
      intros x. rewrite H3. cbn [In]. intuition (subst; auto).
    + assert (Hy : ~ In y acc).
      { intros H. apply existsb_str_eqb in H. congruence. }
      assert (Hn : NoDup (acc ++ [y])).
      { apply NoDup_app; [exact Hacc|repeat constructor; intros []|].
        intros x Hx [<-|[]]. contradiction. }
      destruct (IH (acc ++ [y]) Hn) as (H1 & (rest & H2) & H3).
      split; [exact H1|]. split; [exists (y :: rest); rewrite H2, <- app_assoc; reflexivity|].
      intros x. rewrite H3, in_app_iff. cbn [In]. tauto.
Qed.

Lemma nonempty_true (s : jsstring) : nonempty s = true <-> s <> [].
Proof. destruct s; cbn; split; congruence. Qed.

(** The defaults are distinct, so they open the result as they are. *)
Lemma buildTags_starts_with_defaults (tags : tags_arg) :
  exists rest, buildTags tags = CONFIG.DEFAULT_TAGS ++ rest.
Proof.
  assert (Hd : NoDup CONFIG.DEFAULT_TAGS).
  { repeat constructor; cbn [In]; intros H; repeat destruct H as [H|H];
      try discriminate; contradiction. }
  unfold buildTags, distinct. rewrite fold_left_app.
  change (fold_left _ CONFIG.DEFAULT_TAGS []) with CONFIG.DEFAULT_TAGS.
  match goal with |- context [fold_left _ ?l CONFIG.DEFAULT_TAGS] =>
    now destruct (@distinct_from l CONFIG.DEFAULT_TAGS Hd) as (_ & H & _) end.
Qed.

(** X14. The tags [buildTags] returns have no repetitions, start with
    the default tags in their order, contain no empty tag, and are
    exactly the defaults together with the given tags trimmed and
    lower-cased, the empty ones left out. *)
Theorem buildTags_defaults_first_no_repeats (tags : tags_arg) :
  NoDup (buildTags tags)
  /\ (exists rest, buildTags tags = CONFIG.DEFAULT_TAGS ++ rest)
  /\ ~ In [] (buildTags tags)
  /\ forall x, In x (buildTags tags)
       <-> In x CONFIG.DEFAULT_TAGS
           \/ (x <> [] /\ exists t, In t (Frame.given_tags tags)
                                    /\ x = toLowerCase (trim t)).
Proof.
  assert (Hd : NoDup CONFIG.DEFAULT_TAGS).
  { repeat constructor; cbn [In]; intros H; repeat destruct H as [H|H];
      try discriminate; contradiction. }
  assert (Hc : forall l x,
             In x (filter nonempty (map (fun t => toLowerCase (trim t)) l))
             <-> x <> [] /\ exists t, In t l /\ x = toLowerCase (trim t)).
  { intros l x. rewrite filter_In, in_map_iff, nonempty_true. split.
    - intros [(t & E & Ht) Hx]. split; [exact Hx|]. now exists t.
    - intros [Hx (t & Ht & E)]. split; [|exact Hx]. now exists t. }
  unfold buildTags, distinct.
  set (tagArray := match tags with
                   | TagString s => _ | TagArray l => _ | TagOther => _ end).
  assert (Ht : forall x, In x tagArray
                 <-> x <> [] /\ exists t, In t (Frame.given_tags tags)
                                          /\ x = toLowerCase (trim t)).
  { subst tagArray. destruct tags as [s|l|]; cbn [Frame.given_tags]; try apply Hc.
    intros x. cbn [In]. split; [tauto|]. now intros [_ (t & [] & _)]. }
  pose proof (@distinct_from (CONFIG.DEFAULT_TAGS ++ tagArray) [] (NoDup_nil _))
    as (H1 & _ & H3).
  (* the defaults come first: they are distinct, so the fold keeps them *)
  assert (H2 : exists rest,
             fold_left (fun acc x => if existsb (str_eqb x) acc then acc else acc ++ [x])
                       (CONFIG.DEFAULT_TAGS ++ tagArray) [] = CONFIG.DEFAULT_TAGS ++ rest).
  { rewrite fold_left_app.
    change (fold_left _ CONFIG.DEFAULT_TAGS []) with CONFIG.DEFAULT_TAGS.
    now destruct (@distinct_from tagArray CONFIG.DEFAULT_TAGS Hd) as (_ & H & _). }
  split; [exact H1|]. split; [exact H2|].
  assert (H4 : forall x, In x (fold_left
                 (fun acc x => if existsb (str_eqb x) acc then acc else acc ++ [x])
                 (CONFIG.DEFAULT_TAGS ++ tagArray) [])
               <-> In x CONFIG.DEFAULT_TAGS
                   \/ (x <> [] /\ exists t, In t (Frame.given_tags tags)
                                            /\ x = toLowerCase (trim t))).
  { intros x. rewrite H3, in_app_iff, Ht. cbn [In]. tauto. }
  split; [|exact H4].
  intros H. apply H4 in H as [H|[H _]]; [|now apply H].
  cbn [In CONFIG.DEFAULT_TAGS] in H. repeat destruct H as [H|H]; try discriminate.
  contradiction.
Qed.

End Tags.

(* ================================================================== *)
(** * renderBoard                                                   *)
(* ================================================================== *)

Section Render.
Context {P : Platform}.
Import KanbanBoard.

(** ** Sorting *)

Lemma insert_sorted_perm (x : card_data) (l : list card_data) :
  Permutation (x :: l) (insert_sorted x l).
Proof.
  induction l as [|y l IH]; [reflexivity|].
  cbn [insert_sorted]. destruct (_ <=? _)%Z; [reflexivity|].
  rewrite perm_swap. now constructor.
Qed.

Lemma insert_sorted_sorted (x : card_data) (l : list card_data) :
  Sorted (fun a b => (sort_key (parsed a) <= sort_key (parsed b))%Z) l ->
  Sorted (fun a b => (sort_key (parsed a) <= sort_key (parsed b))%Z) (insert_sorted x l).
Proof.
  induction 1 as [|y l Hs IH Hh]; [repeat constructor|].
  cbn [insert_sorted]. destruct (Z.leb_spec (sort_key (parsed x)) (sort_key (parsed y))).
  - constructor; [now constructor|now constructor].
  - constructor; [exact IH|].
    destruct l as [|z l]; cbn [insert_sorted]; [constructor; lia|].
    destruct (Z.leb_spec (sort_key (parsed x)) (sort_key (parsed z)));
      constructor; [lia|now inversion Hh].
Qed.

Lemma insert_sorted_stable (k : Z) (x : card_data) (l : list card_data) :
  filter (fun c => Z.eqb (sort_key (parsed c)) k) (insert_sorted x l)
  = filter (fun c => Z.eqb (sort_key (parsed c)) k) (x :: l).
Proof.
  induction l as [|y l IH]; [reflexivity|].
  cbn [insert_sorted]. destruct (Z.leb_spec (sort_key (parsed x)) (sort_key (parsed y)));
    [reflexivity|].
  cbn [filter] in *. rewrite IH.
  destruct (Z.eqb_spec (sort_key (parsed x)) k), (Z.eqb_spec (sort_key (parsed y)) k);
    try reflexivity; lia.
Qed.

(** X15. The order [renderBoard] gives the cards of a column: the same
    cards, ascending in their sort key, and cards with equal keys in the
    order they had (the sort is stable). *)
Theorem sort_cards_sorts_stably (l : list card_data) :
  Permutation l (sort_cards l)
  /\ Sorted (fun a b => (sort_key (parsed a) <= sort_key (parsed b))%Z) (sort_cards l)
  /\ forall k, filter (fun c => Z.eqb (sort_key (parsed c)) k) (sort_cards l)
               = filter (fun c => Z.eqb (sort_key (parsed c)) k) l.
Proof.
  induction l as [|x l (Hp & Hs & Hk)]; [repeat constructor|].
  cbn [sort_cards fold_right]. fold (sort_cards l). split; [|split].
  - rewrite <- insert_sorted_perm. now constructor.
  - now apply insert_sorted_sorted.
  - intros k. rewrite insert_sorted_stable. cbn [filter]. now rewrite Hk.
Qed.

Lemma sort_cards_length (l : list card_data) : List.length (sort_cards l) = List.length l.
Proof.
  induction l as [|x l IH]; [reflexivity|].
  cbn [sort_cards fold_right]. fold (sort_cards l).
  rewrite <- (Permutation_length (insert_sorted_perm x (sort_cards l))).
  cbn [List.length]. now rewrite IH.
Qed.

(** ** Grouping *)

Lemma group_for_board_columns (ts : list Fragment.t) :
  existsb Frame.breaks_render ts = false ->
  forall g,
    group_for_board ts g
    = Returns {| g_todo := g_todo g ++ map Frame.card_of (filter (Frame.shown_in ColTodo) ts);
                 g_in_progress :=
                   g_in_progress g
                     ++ map Frame.card_of (filter (Frame.shown_in ColInProgress) ts);
                 g_done := g_done g ++ map Frame.card_of (filter (Frame.shown_in ColDone) ts) |}.
Proof.
  induction ts as [|t ts IH]; intros Hb g.
  - cbn. rewrite !app_nil_r. now destruct g.
  - cbn [existsb] in Hb. apply orb_false_iff in Hb as [Ht Hts].
    destruct (parseContent_returns (Fragment.content t)) as (p & E & _).
    assert (Hc : Frame.card_of t = {| todo := t; parsed := p |})
      by (unfold Frame.card_of; now rewrite E).
    assert (Hs : forall c, Frame.shown_in c t
                   = let status := or_default (Some (Parsed.status p)) CONFIG.STATUSES.TODO in
                     negb (str_eqb status DELETED)
                     && match grouped_get status, c with
                        | Own ColTodo, ColTodo => true
                        | Own ColInProgress, ColInProgress => true
                        | Own ColDone, ColDone => true
                        | Absent, ColTodo => true
                        | _, _ => false
                        end)
      by (intros c; unfold Frame.shown_in; now rewrite E).
    cbn [group_for_board filter]. rewrite !Hs. cbv zeta.
    unfold Frame.breaks_render in Ht.
    rewrite E in *. cbn [obind].
    destruct (str_eqb _ DELETED); cbn [negb andb] in *; [now apply IH|].
    destruct (grouped_get _) as [[| |]| |]; try discriminate;
      rewrite (IH Hts); cbn [push g_todo g_in_progress g_done map];
      rewrite Hc, <- ?app_assoc; reflexivity.
Qed.

Lemma group_for_board_breaks (ts : list Fragment.t) :
  existsb Frame.breaks_render ts = true ->
  forall g, group_for_board ts g = Throws TypeError.
Proof.
  induction ts as [|t ts IH]; intros Hb g; [discriminate|].
  cbn [existsb] in Hb. cbn [group_for_board].
  unfold Frame.breaks_render in Hb.
  destruct (parseContent_returns (Fragment.content t)) as (p & E & _).
  rewrite E in *. cbn [obind].
  destruct (str_eqb _ DELETED); cbn [negb andb orb] in *; [now apply IH|].
  destruct (grouped_get _) as [[| |]| |]; cbn [orb] in Hb; try reflexivity; now apply IH.
Qed.


Lemma update_zone_twice (i : nat) (f g : list child -> list child) (zs : list zone) :
  update_zone i f (update_zone i g zs) = update_zone i (fun l => f (g l)) zs.
Proof.
  revert i. induction zs as [|z zs IH]; intros [|i]; cbn [update_zone children dropzone];
    try reflexivity. now rewrite IH.
Qed.

Lemma update_zone_ext (i : nat) (f g : list child -> list child) (zs : list zone) :
  (forall l, f l = g l) -> update_zone i f zs = update_zone i g zs.
Proof.
  intros H. revert i. induction zs as [|z zs IH]; intros [|i]; cbn [update_zone];
    try reflexivity; [now rewrite H|now rewrite IH].
Qed.

Lemma update_zone_id (i : nat) (zs : list zone) : update_zone i (fun l => l) zs = zs.
Proof.
  revert i. induction zs as [|[d c] zs IH]; intros [|i]; cbn [update_zone children dropzone];
    try reflexivity. now rewrite IH.
Qed.

Lemma fresh_cards_cons (first n : nat) :
  Frame.fresh_cards first (S n) = Card first false :: Frame.fresh_cards (S first) n.
Proof. reflexivity. Qed.

(** [createCard] and [appendChild] for a list of cards: the objects join
    the heap and the zone gets one card for each, in order. *)
Lemma append_cards_spec (zi : nat) (cards : list card_data) :
  forall w,
    append_cards zi cards w
    = (Returns tt,
       set_zones (update_zone zi (fun l => l ++ Frame.fresh_cards (List.length (objects w))
                                                     (List.length cards)) (zones w))
                 (set_objects (objects w ++ cards) w)).
Proof.
  induction cards as [|c cards IH]; intros w.
  - cbn [append_cards List.length Frame.fresh_cards seq map ret].
    rewrite (update_zone_ext _ (fun l => l ++ []) (fun l => l)) by apply app_nil_r.
    rewrite update_zone_id, app_nil_r. now destruct w.
  - cbn [append_cards]. unfold bind at 1. cbn [get]. unfold bind at 1. cbn [modify].
    unfold bind at 1. cbn [get]. unfold bind at 1. cbn [modify]. rewrite IH.
    cbn [objects zones set_objects set_zones List.length]. rewrite update_zone_twice.
    rewrite fresh_cards_cons, length_app. cbn [List.length].
    replace (List.length (objects w) + 1) with (S (List.length (objects w))) by lia.
    unfold set_zones, set_objects. cbn. f_equal. f_equal.
    + now rewrite <- app_assoc.
    + apply update_zone_ext. intros l. now rewrite <- app_assoc.
Qed.

Lemma render_group_spec (status : jsstring) (group : list card_data) (w : world) :
  render_group (status, group) w
  = (Returns tt,
     set_counts (set_count status (decimal (List.length group)) (counts w))
       match find_zone status (zones w) with
       | Some zi =>
           set_zones (update_zone zi
                        (fun l => l ++ Frame.fresh_cards (List.length (objects w))
                                                         (List.length group)) (zones w))
                     (set_objects (objects w ++ sort_cards group) w)
       | None => w
       end).
Proof.
  unfold render_group. unfold bind at 1. cbn [get]. unfold bind at 1.
  destruct (find_zone status (zones w)) as [zi|].
  - rewrite append_cards_spec, sort_cards_length. unfold bind, get, modify.
    reflexivity.
  - unfold bind, get, modify, ret. now rewrite sort_cards_length.
Qed.

End Render.

(** Settle the comparisons of two closed strings in the goal. *)
Ltac settle_names :=
  repeat match goal with
         | |- context [str_eqb ?a ?b] =>
             let v := eval vm_compute in (str_eqb a b) in
             match v with
             | true => change (str_eqb a b) with true
             | false => change (str_eqb a b) with false
             end
         end; cbv iota.

Section Columns.
Context {P : Platform}.
Import KanbanBoard.

End Columns.


(* ================================================================== *)
(** * loadTodos and getTodos                                        *)
(* ================================================================== *)

Section Load.
Context {P : Platform}.
Import KanbanBoard.

Lemma beyond_append_cards zi cards :
  Frame.keeps Frame.beyond_document (append_cards zi cards).
Proof.
  induction cards as [|c cards IH]; [intros w; reflexivity|].
  cbn [append_cards]. frame.
Qed.
#[local] Hint Resolve beyond_append_cards : frames.

Lemma beyond_renderBoard : Frame.keeps Frame.beyond_document renderBoard.
Proof. unfold renderBoard. frame. Qed.

Lemma for_each_render_returns (l : list (jsstring * list card_data)) (w : world) :
  exists w', for_each render_group l w = (Returns tt, w').
Proof.
  revert w. induction l as [|[status group] l IH]; intros w; [now exists w|].
  cbn [for_each]. unfold bind. rewrite render_group_spec. apply IH.
Qed.

Lemma renderBoard_throws (w : world) :
  existsb Frame.breaks_render (todos w) = true ->
  renderBoard w
  = (Throws TypeError, set_zones (map_children (fun _ => []) (zones w)) w).
Proof.
  intros Hb. unfold renderBoard. unfold bind at 1. cbn [get]. unfold bind at 1.
  cbn [modify]. unfold bind at 1. now rewrite (group_for_board_breaks _ Hb).
Qed.

(** X17. A cached task whose status names a member of
    [Object.prototype] (say [constructor]) and is not [deleted] makes
    [renderBoard] throw a TypeError after it has emptied the columns:
    every column is left without cards while counters, total, objects
    and everything outside the document stay as they were. *)
Theorem inherited_status_breaks_render (w : world) :
  existsb Frame.breaks_render (todos w) = true ->
  exists w',
    renderBoard w = (Throws TypeError, w')
    /\ (forall z, In z (zones w') -> children z = [])
    /\ map dropzone (zones w') = map dropzone (zones w)
    /\ (objects w', counts w', taskCount w') = (objects w, counts w, taskCount w)
    /\ Frame.beyond_document w' = Frame.beyond_document w.
Proof.
  intros Hb. rewrite (renderBoard_throws _ Hb). eexists. split; [reflexivity|].
  cbn [zones set_zones]. split; [|split; [|split; reflexivity]].
  - intros z Hz. unfold map_children in Hz. apply in_map_iff in Hz as (z0 & <- & _).
    reflexivity.
  - unfold map_children. rewrite map_map. reflexivity.
Qed.

Lemma renderBoard_returns (w : world) :
  existsb Frame.breaks_render (todos w) = false ->
  exists w', renderBoard w = (Returns tt, w').
Proof.
  intros Hb. unfold renderBoard. unfold bind at 1. cbn [get]. unfold bind at 1.
  cbn [modify]. unfold bind at 1. rewrite (group_for_board_columns _ Hb). cbn [lift].
  unfold bind at 1.
  match goal with |- context [for_each render_group ?l ?x] =>
    destruct (for_each_render_returns l x) as [w1 ->] end.
  eexists. reflexivity.
Qed.

(** What [getTodos] does with each answer of the server. *)
Lemma getTodos_cases (w : world) :
  let log := http_log w ++ [Frame.list_request (config w)] in
  UsableAPI.getTodos w
  = (match server log with
     | Http.Unreachable => Throws NetworkError
     | Http.Reply false status _ (Some Http.JNull) => Throws TypeError
     | Http.Reply false status _ (Some (Http.JObject o)) =>
         Throws (Error (or_default (Http.message o) (lit "API Error: " ++ decimal status)))
     | Http.Reply false status _ None =>
         Throws (Error (lit "API Error: " ++ decimal status))
     | Http.Reply true _ _ None => Throws SyntaxError
     | Http.Reply true _ _ (Some Http.JNull) => Throws TypeError
     | Http.Reply true _ _ (Some (Http.JObject o)) =>
         Returns (match Http.fragments o with Some l => l | None => [] end)
     end,
     set_http_log log w).
Proof.
  intros log. unfold UsableAPI.getTodos. unfold bind at 1. cbn [get].
  unfold bind at 1. unfold UsableAPI.request. unfold bind at 1. cbn [get].
  unfold bind at 1. unfold UsableAPI.fetch. unfold bind at 1. cbn [get].
  unfold bind at 1. cbn [modify ret option_map].
  change {| Http.url := _; Http.verb := Http.GET; Http.bearer := _; Http.payload := None |}
    with (Frame.list_request (config w)).
  fold log.
  destruct (server log) as [|[|] status text [[|o]|]]; reflexivity.
Qed.

(** X18. [getTodos] sends one GET with the bearer token and changes
    nothing else; it returns a list exactly when the server answers ok
    with a JSON object, namely its [fragments] or the empty list when
    there are none, and throws otherwise: with [API Error: status] for a
    reply that is not ok and has no readable body. *)
Theorem getTodos_lists_only_from_ok_json (w : world) :
  let log := http_log w ++ [Frame.list_request (config w)] in
  exists r,
    UsableAPI.getTodos w = (r, set_http_log log w)
    /\ (forall l, r = Returns l
          <-> exists status text o,
                server log = Http.Reply true status text (Some (Http.JObject o))
                /\ l = match Http.fragments o with Some l => l | None => [] end)
    /\ (forall status text,
          server log = Http.Reply false status text None ->
          r = Throws (Error (lit "API Error: " ++ decimal status))).
Proof.
  intros log. rewrite getTodos_cases. fold log. eexists. split; [reflexivity|].
  destruct (server log) as [|[|] status text [[|o]|]]; split;
    try (intros l; split; [discriminate|intros (s' & t' & o' & [=] & _)]);
    try (intros s' t' [=]); try congruence.
  - intros l. split.
    + intros [= <-]. now exists status, text, o.
    + intros (s' & t' & o' & [= _ _ <-] & ->). reflexivity.
Qed.

(** [loadTodos] step by step. *)
Lemma loadTodos_run (w : world) :
  let sent := set_http_log (http_log w ++ [Frame.list_request (config w)])
                           (set_loading true w) in
  loadTodos w
  = (Returns tt,
     set_loading false
       match fst (UsableAPI.getTodos w) with
       | Throws _ => set_toast (Some (lit "Failed to load tasks", lit "error")) sent
       | Returns l =>
           match renderBoard (set_todos l sent) with
           | (Returns _, w3) => set_toast (Some (lit "Tasks loaded", lit "success")) w3
           | (Throws _, w3) =>
               set_toast (Some (lit "Failed to load tasks", lit "error")) w3
           end
       end).
Proof.
  intros sent. unfold loadTodos. unfold bind at 1. unfold showLoading. cbn [modify].
  unfold finally, try_catch. unfold bind at 1.
  pose proof (getTodos_cases (set_loading true w)) as E1. cbv zeta in E1.
  pose proof (getTodos_cases w) as E0. cbv zeta in E0.
  cbn [http_log config set_loading] in E1. rewrite E0, E1. cbn [fst].
  fold sent.
  set (r := match server _ with Http.Unreachable => _ | _ => _ end).
  destruct r as [l|e]; [|reflexivity].
  unfold bind at 1. cbn [modify]. unfold bind at 1.
  destruct (renderBoard (set_todos l sent)) as [[[]|e] w3]; reflexivity.
Qed.

(** The state [loadTodos] leaves, as far as its callers care. *)
Lemma loadTodos_after (w : world) :
  exists w',
    loadTodos w = (Returns tt, w')
    /\ loading w' = false
    /\ http_log w' = http_log w ++ [Frame.list_request (config w)].
Proof.
  rewrite loadTodos_run. cbv zeta. eexists. split; [reflexivity|].
  split; [reflexivity|]. cbn [http_log set_loading].
  destruct (fst (UsableAPI.getTodos w)) as [l|e]; [|reflexivity].
  match goal with |- context [renderBoard ?x] =>
    pose proof (beyond_renderBoard x) as Hk; unfold exec, Frame.beyond_document in Hk;
    destruct (renderBoard x) as [[[]|e] w3] end;
    cbn [snd] in Hk; injection Hk; intros; cbn [http_log set_toast]; assumption.
Qed.

(** X19. [loadTodos] always returns, with the loading overlay off, one
    GET sent and nothing posted to the embed.  When the listing fails
    the board and the cache are as before and the toast reports the
    failure; when it succeeds the cache is the listing, and the toast
    reports success unless a task of the listing breaks the render. *)
Theorem loadTodos_settles (w : world) :
  exists w',
    loadTodos w = (Returns tt, w')
    /\ loading w' = false
    /\ http_log w' = http_log w ++ [Frame.list_request (config w)]
    /\ outbox w' = outbox w
    /\ match fst (UsableAPI.getTodos w) with
       | Throws _ =>
           Frame.board w' = Frame.board w
           /\ toast w' = Some (lit "Failed to load tasks", lit "error")
       | Returns l =>
           todos w' = l
           /\ toast w' = Some (if existsb Frame.breaks_render l
                               then (lit "Failed to load tasks", lit "error")
                               else (lit "Tasks loaded", lit "success"))
       end.
Proof.
  rewrite loadTodos_run. cbv zeta. eexists. split; [reflexivity|].
  split; [reflexivity|].
  destruct (fst (UsableAPI.getTodos w)) as [l|e]; [|repeat split].
  match goal with |- context [renderBoard ?x] => set (w2 := x) end.
  pose proof (beyond_renderBoard w2) as Hk. unfold exec, Frame.beyond_document in Hk.
  destruct (existsb Frame.breaks_render l) eqn:Hb.
  - rewrite renderBoard_throws in * by exact Hb. repeat split.
  - destruct (@renderBoard_returns w2 Hb) as [w3 E3]. rewrite E3 in *.
    cbn [snd] in Hk. injection Hk; intros. subst w2.
    cbn [loading http_log outbox todos toast set_loading set_toast set_todos
         set_http_log] in *.
    repeat split; congruence.
Qed.
End Load.

Lemma inherited_status_breaks_render_witness :
  exists w',
    KanbanBoard.renderBoard Sample.odd_cache = (Throws TypeError, w')
    /\ (forall z, In z (zones w') -> children z = [])
    /\ map dropzone (zones w') = map dropzone (zones Sample.odd_cache)
    /\ (objects w', counts w', taskCount w')
       = (objects Sample.odd_cache, counts Sample.odd_cache, taskCount Sample.odd_cache)
    /\ Frame.beyond_document w' = Frame.beyond_document Sample.odd_cache.
Proof.
  apply (@inherited_status_breaks_render Sample.odd_cache).
  vm_compute. reflexivity.
Defined.

(* ================================================================== *)
(** * Sort keys of a drop                                           *)
(* ================================================================== *)

Section DropKeys.
Context {P : Platform}.
Import KanbanBoard.

(** [parseContent] reads no sort line, so every card's key reads as 0. *)
Lemma getCardSort_zero (id : jsstring) (w : world) : getCardSort id w = (Returns 0%Z, w).
Proof.
  unfold getCardSort, bind. cbn [get].
  destruct (find _ (todos w)) as [t|]; [|reflexivity].
  destruct (parseContent_returns (Fragment.content t)) as (p & -> & Hs).
  cbn [lift ret]. unfold sort_key. now rewrite Hs.
Qed.

Lemma neighbour_key (c : option nat) (d : Z) (w w1 : world) (p : Z) :
  match c with
  | Some r => id <- dataset_id r ;; getCardSort id
  | None => ret d
  end w = (Returns p, w1) ->
  p = match c with Some _ => 0%Z | None => d end.
Proof.
  destruct c as [r|]; [|now intros [= <- _]].
  unfold bind at 1. destruct (dataset_id r w) as [[i|e] w2]; [|discriminate].
  rewrite getCardSort_zero. now intros [= <- _].
Qed.

(** X20. [parseContent] reads no sort line, so [getCardSort] is 0 for
    every card and the key [calculateSortValue] computes for a drop is 0
    when a card follows the drop position and half the clock reading
    when the drop is at the end of the column. *)
Theorem drop_keys_are_zero_or_half_the_clock
        (zi index : nat) (now k : Z) (w : world) :
  fst (calculateSortValue zi index now w) = Returns k ->
  exists z,
    nth_error (zones w) zi = Some z
    /\ k = match nth_error (still_cards z) index with
           | Some _ => 0%Z
           | None => (now / 2)%Z
           end.
Proof.
  unfold calculateSortValue. unfold bind at 1. cbn [get]. unfold bind at 1.
  destruct (nth_error (zones w) zi) as [z|]; cbn [lift deref]; [|discriminate].
  intros H. exists z. split; [reflexivity|].
  unfold bind at 1 in H.
  match type of H with context [let (_, _) := ?m in _] =>
    destruct m as [[p|e] w1] eqn:Ep; [|discriminate] end.
  apply neighbour_key in Ep. unfold bind at 1 in H.
  match type of H with context [let (_, _) := ?m in _] =>
    destruct m as [[n|e] w2] eqn:En; [|discriminate] end.
  apply neighbour_key in En. cbn [ret fst] in H. injection H as <-. subst p n.
  destruct (nth_error (still_cards z) index);
    [destruct (match index with O => None | S i => nth_error (still_cards z) i end)|
     destruct (match index with O => None | S i => nth_error (still_cards z) i end)].
  all: try reflexivity.
Qed.
End DropKeys.

Lemma drop_keys_are_zero_or_half_the_clock_witness :
  exists z,
    nth_error (zones Demo.pair_loaded) 0 = Some z
    /\ 0%Z = match nth_error (KanbanBoard.still_cards z) 0 with
             | Some _ => 0%Z
             | None => (1000 / 2)%Z
             end.
Proof.
  apply (@drop_keys_are_zero_or_half_the_clock 0 0 1000%Z 0%Z
           Demo.pair_loaded).
  vm_compute. reflexivity.
Defined.

(* ================================================================== *)
(** * The drop indicator                                            *)
(* ================================================================== *)

Section Indicator.
Import KanbanBoard.

(** The still cards of a list of children, by reference. *)
Local Abbreviation stills l :=
  (flat_map (fun c => match c with Card r false => [r] | _ => [] end) l).
Local Abbreviation refs l :=
  (flat_map (fun c => match c with Card r _ => [r] | DropIndicator => [] end) l).
Local Abbreviation no_indicator := (fun c => negb (is_indicator c)).

Lemma stills_without_indicator (l : list child) : stills (filter no_indicator l) = stills l.
Proof.
  induction l as [|[r [|]|] l IH]; cbn [filter is_indicator negb flat_map app];
    now rewrite ?IH.
Qed.

Lemma refs_without_indicator (l : list child) : refs (filter no_indicator l) = refs l.
Proof.
  induction l as [|[r d|] l IH]; cbn [filter is_indicator negb flat_map app];
    now rewrite ?IH.
Qed.

Lemma stills_in_refs (l : list child) (r : nat) : In r (stills l) -> In r (refs l).
Proof.
  induction l as [|[r' [|]|] l IH]; cbn [flat_map app In]; intuition.
Qed.

Lemma filter_still_length (l : list child) :
  List.length (filter is_still_card l) = List.length (stills l).
Proof.
  induction l as [|[r [|]|] l IH]; cbn [filter is_still_card negb flat_map app List.length];
    now rewrite ?IH.
Qed.

(** Where [insertBefore] puts the indicator: right before the [i]-th
    still card, with [i] still cards before it. *)
Lemma insert_before_splits (l : list child) :
  forallb no_indicator l = true -> NoDup (refs l) ->
  forall i r, nth_error (stills l) i = Some r ->
  exists l1 l2,
    l = l1 ++ l2
    /\ insert_before r DropIndicator l = l1 ++ DropIndicator :: l2
    /\ List.length (stills l1) = i.
Proof.
  induction l as [|c l IH]; intros Hn Hd i r Hi.
  - now destruct i.
  - cbn [forallb] in Hn. apply andb_true_iff in Hn as [Hc Hn].
    destruct c as [r' d|]; [|discriminate]. cbn [flat_map app] in Hd.
    apply NoDup_cons_iff in Hd as [Hr' Hd]. cbn [insert_before is_card_ref].
    destruct (Nat.eqb_spec r r') as [<-|Hne].
    + exists [], (Card r d :: l). split; [reflexivity|]. split; [reflexivity|].
      destruct d; cbn [flat_map app] in Hi.
      * exfalso. apply Hr', stills_in_refs. eapply nth_error_In, Hi.
      * destruct i as [|i]; [reflexivity|]. exfalso. cbn in Hi.
        apply Hr', stills_in_refs. eapply nth_error_In, Hi.
    + destruct d; cbn [flat_map app] in Hi.
      * destruct (IH Hn Hd i r Hi) as (l1 & l2 & -> & E & Hl).
        exists (Card r' true :: l1), l2. rewrite E. repeat split. exact Hl.
      * destruct i as [|i]; cbn in Hi; [congruence|].
        destruct (IH Hn Hd i r Hi) as (l1 & l2 & -> & E & Hl).
        exists (Card r' false :: l1), l2. rewrite E. repeat split.
        cbn [flat_map app List.length]. now rewrite Hl.
Qed.

Lemma index_where_first (l1 l2 : list child) :
  forallb no_indicator l1 = true ->
  index_where is_indicator (l1 ++ DropIndicator :: l2) = Some (List.length l1).
Proof.
  induction l1 as [|c l1 IH]; intros H; [reflexivity|].
  cbn [forallb] in H. apply andb_true_iff in H as [Hc H].
  cbn [app index_where List.length]. destruct (is_indicator c); [discriminate|].
  now rewrite IH.
Qed.

Lemma forallb_no_indicator_filter (l : list child) :
  forallb no_indicator (filter no_indicator l) = true.
Proof.
  apply forallb_forall. intros c Hc. now apply filter_In in Hc.
Qed.

Lemma drop_index_of_split (d : jsstring) (l1 l2 : list child) :
  forallb no_indicator l1 = true ->
  drop_index {| dropzone := d; children := l1 ++ DropIndicator :: l2 |}
  = List.length (stills l1).
Proof.
  intros H. unfold drop_index. cbn [children]. rewrite index_where_first by exact H.
  rewrite firstn_app, firstn_all, Nat.sub_diag. cbn [firstn]. rewrite app_nil_r.
  apply filter_still_length.
Qed.

Lemma nth_error_update_zone (i : nat) (f : list child -> list child) (zs : list zone)
      (z : zone) :
  nth_error zs i = Some z ->
  nth_error (update_zone i f zs) i
  = Some {| dropzone := dropzone z; children := f (children z) |}.
Proof.
  revert i. induction zs as [|z0 zs IH]; intros [|i] H; try discriminate.
  - now injection H as ->.
  - cbn [update_zone nth_error]. now apply IH.
Qed.

Lemma indicators_update_zone (i : nat) (f : list child -> list child) (zs : list zone)
      (z : zone) :
  nth_error zs i = Some z ->
  List.length (filter is_indicator (flat_map children (update_zone i f zs)))
    + List.length (filter is_indicator (children z))
  = List.length (filter is_indicator (flat_map children zs))
    + List.length (filter is_indicator (f (children z))).
Proof.
  revert i. induction zs as [|z0 zs IH]; intros [|i] H; try discriminate.
  - injection H as ->. cbn [update_zone flat_map children].
    rewrite !filter_app, !length_app. lia.
  - cbn [update_zone flat_map nth_error] in *. rewrite !filter_app, !length_app.
    specialize (IH i H). lia.
Qed.

Lemma no_indicators_after_hide (zs : list zone) :
  filter is_indicator (flat_map children (map_children (filter no_indicator) zs)) = [].
Proof.
  induction zs as [|z zs IH]; [reflexivity|].
  cbn [map_children map flat_map children]. rewrite filter_app.
  fold (map_children (filter no_indicator) zs). rewrite IH, app_nil_r.
  induction (children z) as [|[r d|] l IHl]; cbn [filter is_indicator negb]; auto.
Qed.

Lemma nth_error_map_children (f : list child -> list child) (zs : list zone) (i : nat)
      (z : zone) :
  nth_error zs i = Some z ->
  nth_error (map_children f zs) i
  = Some {| dropzone := dropzone z; children := f (children z) |}.
Proof.
  intros H. unfold map_children. now rewrite nth_error_map, H.
Qed.

Lemma filter_is_indicator_split (l1 l2 : list child) :
  forallb no_indicator (l1 ++ l2) = true ->
  filter is_indicator (l1 ++ DropIndicator :: l2) = [DropIndicator].
Proof.
  intros H. rewrite filter_app. cbn [filter is_indicator].
  assert (E : forall l, forallb no_indicator l = true -> filter is_indicator l = []).
  { induction l as [|[r d|] l IH]; cbn [forallb filter is_indicator negb andb];
      [reflexivity|exact IH|discriminate]. }
  rewrite forallb_app in H. apply andb_true_iff in H as [H1 H2].
  now rewrite (E _ H1), (E _ H2).
Qed.

Lemma update_zone_at (i : nat) (f : list child -> list child) (zs : list zone) (z : zone) :
  nth_error zs i = Some z ->
  update_zone i f zs = update_zone i (fun _ => f (children z)) zs.
Proof.
  revert i. induction zs as [|z0 zs IH]; intros [|i] H; try discriminate.
  - now injection H as ->.
  - cbn [update_zone nth_error] in *. now rewrite (IH i H).
Qed.

(** X21. After [positionDropIndicator] on a zone there is exactly one
    indicator in the document, the still cards of the zone are the same,
    and the position [handleDrop] reads off the indicator is the index
    of the card the pointer was above, or the number of still cards when
    it was below all of them. *)
Theorem indicator_marks_the_hit_position
        (w : world) (zi : nat) (z : zone) (hit : option nat) :
  nth_error (zones w) zi = Some z ->
  NoDup (Frame.card_refs z) ->
  exists w' z',
    positionDropIndicator zi hit w = (Returns tt, w')
    /\ nth_error (zones w') zi = Some z'
    /\ Frame.indicators w' = 1
    /\ still_cards z' = still_cards z
    /\ drop_index z'
       = match hit with
         | Some i => Nat.min i (List.length (still_cards z))
         | None => List.length (still_cards z)
         end.
Proof.
  intros Hz Hd. unfold positionDropIndicator. unfold bind at 1. cbn [get]. rewrite Hz.
  unfold bind at 1. unfold hideDropIndicator at 1. unfold bind at 1. cbn [get modify].
  unfold bind at 1. cbn [get zones set_zones].
  set (clean := filter no_indicator (children z)).
  assert (Hclean : nth_error (map_children (filter no_indicator) (zones w)) zi
                   = Some {| dropzone := dropzone z; children := clean |})
    by now apply nth_error_map_children.
  assert (Hn : forallb no_indicator clean = true) by apply forallb_no_indicator_filter.
  assert (Hs : stills clean = still_cards z) by apply stills_without_indicator.
  assert (Hplaced : forall f l1 l2,
             clean = l1 ++ l2 -> f clean = l1 ++ DropIndicator :: l2 ->
             exists z',
               nth_error (update_zone zi f (map_children (filter no_indicator) (zones w))) zi
                 = Some z'
               /\ Frame.indicators
                    (set_zones (update_zone zi f
                                  (map_children (filter no_indicator) (zones w))) w) = 1
               /\ still_cards z' = still_cards z
               /\ drop_index z' = List.length (stills l1)).
  { intros f l1 l2 E Ef. eexists. split; [apply nth_error_update_zone, Hclean|].
    cbn [children dropzone]. rewrite Ef.
    assert (Hn1 : forallb no_indicator l1 = true).
    { rewrite E, forallb_app in Hn. now apply andb_true_iff in Hn. }
    split; [|split].
    - unfold Frame.indicators. cbn [zones set_zones].
      pose proof (@indicators_update_zone zi f _ _ Hclean) as Hi.
      rewrite no_indicators_after_hide in Hi. cbn [children] in Hi.
      rewrite Ef, filter_is_indicator_split in Hi by (now rewrite <- E).
      assert (E0 : filter is_indicator clean = []).
      { clear - Hn. induction clean as [|[r d|] l IH];
          cbn [forallb filter is_indicator negb andb] in *;
          [reflexivity|now apply IH|discriminate]. }
      rewrite E0 in Hi. cbn [List.length] in Hi. lia.
    - unfold still_cards at 1. cbn [children]. rewrite flat_map_app. cbn [flat_map app].
      rewrite <- flat_map_app, <- E. exact Hs.
    - now apply drop_index_of_split. }
  assert (Hend : exists z',
             nth_error (update_zone zi (fun l => l ++ [DropIndicator])
                          (map_children (filter no_indicator) (zones w))) zi = Some z'
             /\ Frame.indicators
                  (set_zones (update_zone zi (fun l => l ++ [DropIndicator])
                                (map_children (filter no_indicator) (zones w))) w) = 1
             /\ still_cards z' = still_cards z
             /\ drop_index z' = List.length (still_cards z)).
  { destruct (Hplaced (fun l => l ++ [DropIndicator]) clean [])
      as (z' & H1 & H2 & H3 & H4); [now rewrite app_nil_r|reflexivity|].
    exists z'. rewrite H4, Hs. auto. }
  destruct hit as [i|].
  - destruct (nth_error (still_cards z) i) as [r|] eqn:Ei.
    + assert (Hd' : NoDup (refs clean)).
      { unfold clean. rewrite refs_without_indicator. exact Hd. }
      rewrite <- Hs in Ei.
      destruct (insert_before_splits clean Hn Hd' _ Ei) as (l1 & l2 & E & Ei' & Hl).
      destruct (Hplaced (insert_before r DropIndicator) l1 l2 E Ei')
        as (z' & H1 & H2 & H3 & H4).
      eexists. exists z'. split; [reflexivity|]. cbn [zones set_zones].
      repeat (split; [assumption|]). rewrite H4, Hl.
      assert (i < List.length (stills clean)) by (apply nth_error_Some; congruence).
      rewrite Hs in *. lia.
    + destruct Hend as (z' & H1 & H2 & H3 & H4).
      eexists. exists z'. split; [reflexivity|]. cbn [zones set_zones].
      repeat (split; [assumption|]). rewrite H4.
      apply nth_error_None in Ei. lia.
  - destruct Hend as (z' & H1 & H2 & H3 & H4).
    eexists. exists z'. split; [reflexivity|]. cbn [zones set_zones].
    repeat (split; [assumption|]). exact H4.
Qed.
End Indicator.

Lemma indicator_marks_the_hit_position_witness :
  exists w' z',
    KanbanBoard.positionDropIndicator 0 (Some 0) Demo.pair_loaded = (Returns tt, w')
    /\ nth_error (zones w') 0 = Some z'
    /\ Frame.indicators w' = 1
    /\ KanbanBoard.still_cards z'
       = KanbanBoard.still_cards (Sample.first_zone Demo.pair_loaded)
    /\ KanbanBoard.drop_index z'
       = Nat.min 0 (List.length (KanbanBoard.still_cards
                                   (Sample.first_zone Demo.pair_loaded))).
Proof.
  apply (@indicator_marks_the_hit_position Demo.pair_loaded 0
           (Sample.first_zone Demo.pair_loaded) (Some 0)).
  - vm_compute. reflexivity.
  - vm_compute. repeat constructor. intros [].
Defined.

(* ================================================================== *)
(** * A drag without a drop                                         *)
(* ================================================================== *)

Section AbandonedDrag.
Import KanbanBoard.

Local Abbreviation no_indicator := (fun c => negb (is_indicator c)).

Lemma map_children_compose (f g : list child -> list child) (zs : list zone) :
  map_children f (map_children g zs) = map_children (fun l => f (g l)) zs.
Proof. unfold map_children. rewrite map_map. reflexivity. Qed.

Lemma map_children_ext_in (f g : list child -> list child) (zs : list zone) :
  (forall z, In z zs -> f (children z) = g (children z)) ->
  map_children f zs = map_children g zs.
Proof.
  intros H. unfold map_children. apply map_ext_in. intros z Hz. now rewrite H.
Qed.

Lemma map_children_id (zs : list zone) : map_children (fun l => l) zs = zs.
Proof.
  unfold map_children. induction zs as [|[d c] zs IH]; [reflexivity|].
  cbn [map dropzone children]. now rewrite IH.
Qed.

Lemma map_children_update_zone (f g : list child -> list child) (i : nat)
      (zs : list zone) :
  (forall l, f (g l) = f l) ->
  map_children f (update_zone i g zs) = map_children f zs.
Proof.
  intros H. revert i. induction zs as [|z zs IH]; intros [|i];
    cbn [update_zone map_children map dropzone children]; try reflexivity.
  - now rewrite H.
  - fold (map_children f (update_zone i g zs)) (map_children f zs). now rewrite IH.
Qed.

Lemma filter_insert_indicator (r : nat) (l : list child) :
  filter no_indicator (insert_before r DropIndicator l) = filter no_indicator l.
Proof.
  induction l as [|c l IH]; [reflexivity|].
  cbn [insert_before]. destruct (is_card_ref r c); [reflexivity|].
  cbn [filter]. now rewrite IH.
Qed.

Lemma filter_append_indicator (l : list child) :
  filter no_indicator (l ++ [DropIndicator]) = filter no_indicator l.
Proof. rewrite filter_app. cbn. apply app_nil_r. Qed.

Lemma filter_no_indicator_twice (l : list child) :
  filter no_indicator (filter no_indicator l) = filter no_indicator l.
Proof.
  induction l as [|[r d|] l IH]; cbn [filter is_indicator negb]; now rewrite ?IH.
Qed.

Lemma set_dragging_filter (r : nat) (flag : bool) (l : list child) :
  filter no_indicator (set_dragging r flag l) = set_dragging r flag (filter no_indicator l).
Proof.
  unfold set_dragging. induction l as [|[r' d|] l IH]; [reflexivity| |exact IH].
  cbn [map filter is_indicator negb is_card_ref].
  destruct (Nat.eqb r r'); cbn [filter is_indicator negb]; now rewrite IH.
Qed.

Lemma set_dragging_back (r : nat) (l : list child) :
  forallb is_still_card l = true ->
  set_dragging r false (set_dragging r true l) = l.
Proof.
  unfold set_dragging. induction l as [|[r' d|] l IH]; intros H; [reflexivity| |discriminate].
  cbn [forallb is_still_card] in H. apply andb_true_iff in H as [Hd H].
  destruct d; [discriminate|]. cbn [map is_card_ref].
  destruct (Nat.eqb_spec r r') as [<-|Hn]; cbn [is_card_ref].
  - rewrite Nat.eqb_refl. now rewrite IH.
  - destruct (Nat.eqb_spec r r'); [contradiction|]. now rewrite IH.
Qed.

Lemma filter_still (l : list child) :
  forallb is_still_card l = true -> filter no_indicator l = l.
Proof.
  induction l as [|[r d|] l IH]; cbn [forallb is_still_card filter is_indicator negb];
    intros H; [reflexivity| |discriminate].
  apply andb_true_iff in H as [_ H]. now rewrite IH.
Qed.

Lemma hover_keeps_the_cards (target hit : option nat) (w1 : world) :
  map_children (filter no_indicator) (zones (exec (handleDragOver target hit) w1))
    = map_children (filter no_indicator) (zones w1)
  /\ Frame.apart_from_drag (exec (handleDragOver target hit) w1) = Frame.apart_from_drag w1
  /\ draggedCard (exec (handleDragOver target hit) w1) = draggedCard w1
  /\ draggedCardData (exec (handleDragOver target hit) w1) = draggedCardData w1.
Proof.
  unfold exec, handleDragOver, bind. cbn [get].
  destruct target as [zi|]; [|now repeat split].
  destruct (draggedCard w1) eqn:Ed; [|now repeat split].
  unfold positionDropIndicator, bind. cbn [get].
  destruct (nth_error (zones w1) zi) as [z|]; [|now repeat split].
  unfold hideDropIndicator, bind. cbn [get modify zones set_zones].
  destruct (match hit with Some i => nth_error (still_cards z) i | None => None end);
    cbn [modify snd zones set_zones]; (split; [|now repeat split]).
  - rewrite map_children_update_zone by apply filter_insert_indicator.
    rewrite map_children_compose. apply map_children_ext_in. intros; apply filter_no_indicator_twice.
  - rewrite map_children_update_zone by apply filter_append_indicator.
    rewrite map_children_compose. apply map_children_ext_in. intros; apply filter_no_indicator_twice.
Qed.

Lemma hovers_keep_the_cards (hovers : list (option nat * option nat)) (w1 : world) :
  let w2 := exec (for_each (fun h => handleDragOver (fst h) (snd h)) hovers) w1 in
  map_children (filter no_indicator) (zones w2)
    = map_children (filter no_indicator) (zones w1)
  /\ Frame.apart_from_drag w2 = Frame.apart_from_drag w1.
Proof.
  revert w1. induction hovers as [|[target hit] hovers IH]; intros w1; [now split|].
  cbn [for_each fst snd]. unfold exec, bind.
  destruct (hover_keeps_the_cards target hit w1) as (H1 & H2 & _). unfold exec in H1, H2.
  destruct (handleDragOver target hit w1) as [[[]|e] w2]; cbn [snd] in *; [|now split].
  destruct (IH w2) as [H3 H4]. unfold exec in H3, H4. cbv zeta. split; congruence.
Qed.

(** X22. A drag that ends without a drop leaves no trace: from a page
    at rest, [handleDragStart], any number of [handleDragOver] anywhere
    and [handleDragEnd] give back the zones as they were, no card being
    dragged, and everything else, the log of requests included,
    unchanged. *)
Theorem abandoned_drag_restores_the_document
        (r : nat) (hovers : list (option nat * option nat)) (w : world) :
  Frame.at_rest w = true ->
  let w' := exec (handleDragEnd r)
              (exec (for_each (fun h => handleDragOver (fst h) (snd h)) hovers)
                    (exec (handleDragStart r) w)) in
  zones w' = zones w
  /\ draggedCard w' = None /\ draggedCardData w' = None
  /\ Frame.apart_from_drag w' = Frame.apart_from_drag w.
Proof.
  intros Hrest w'.
  set (w1 := exec (handleDragStart r) w) in *.
  destruct (hovers_keep_the_cards hovers w1) as [Hz Ha]. cbv zeta in Hz, Ha.
  set (w2 := exec (for_each _ hovers) w1) in *.
  assert (Hw' : w' = set_draggedCardData None
                       (set_draggedCard None
                          (set_zones (map_children (filter no_indicator)
                                        (map_children (set_dragging r false) (zones w2)))
                                     w2))) by reflexivity.
  rewrite Hw'. cbn [zones draggedCard draggedCardData set_zones set_draggedCard
                    set_draggedCardData].
  split; [|split; [reflexivity|split; [reflexivity|]]].
  - rewrite map_children_compose.
    rewrite (@map_children_ext_in _ (fun l => set_dragging r false (filter no_indicator l)))
      by (intros; apply set_dragging_filter).
    rewrite <- (map_children_compose (set_dragging r false)), Hz.
    change (zones w1) with (map_children (set_dragging r true) (zones w)).
    rewrite !map_children_compose. rewrite <- (map_children_id (zones w)) at 2.
    apply map_children_ext_in. intros z Hin.
    assert (Hs : forallb is_still_card (children z) = true).
    { unfold Frame.at_rest in Hrest. rewrite forallb_forall in *.
      intros c Hc. apply Hrest. apply in_flat_map. now exists z. }
    rewrite set_dragging_filter, (filter_still _ Hs). now apply set_dragging_back.
  - etransitivity; [|exact Ha]. reflexivity.
Qed.
End AbandonedDrag.

Lemma abandoned_drag_restores_the_document_witness :
  let w' := exec (KanbanBoard.handleDragEnd 0)
              (exec (KanbanBoard.for_each
                       (fun h => KanbanBoard.handleDragOver (fst h) (snd h))
                       [(Some 0, None); (Some 2, Some 0)])
                    (exec (KanbanBoard.handleDragStart 0) Demo.solo_board)) in
  zones w' = zones Demo.solo_board
  /\ draggedCard w' = None /\ draggedCardData w' = None
  /\ Frame.apart_from_drag w' = Frame.apart_from_drag Demo.solo_board.
Proof.
  apply (@abandoned_drag_restores_the_document 0 [(Some 0, None); (Some 2, Some 0)]
           Demo.solo_board).
  vm_compute. reflexivity.
Defined.

(* ================================================================== *)
(** * A drop the server accepts                                     *)
(* ================================================================== *)

Section Moved.
Context {P : Platform}.
Import KanbanBoard.

Lemma nth_error_assign_parsed (r : nat) (status : jsstring) (sort : Z)
      (os : list card_data) (o : card_data) :
  nth_error os r = Some o ->
  nth_error (assign_parsed r status sort os) r
  = Some {| todo := todo o;
            parsed := Parsed.make status (Parsed.priority (parsed o))
                                  (Parsed.body (parsed o)) (Some sort) |}.
Proof.
  revert r. induction os as [|o0 os IH]; intros [|r] H; try discriminate.
  - now injection H as ->.
  - cbn [assign_parsed nth_error] in *. now apply IH.
Qed.

Lemma handleDragEnd_run (card : nat) (w : world) :
  handleDragEnd card w
  = (Returns tt,
     set_draggedCardData None
       (set_draggedCard None
          (exec hideDropIndicator
                (set_zones (map_children (set_dragging card false) (zones w)) w)))).
Proof. reflexivity. Qed.

(** What the heap held stays where it was when the board is rendered
    or loaded anew: the new cards get objects of their own. *)
Lemma for_each_render_extends (l : list (jsstring * list card_data)) (w : world) :
  exists more, objects (exec (for_each render_group l) w) = objects w ++ more.
Proof.
  revert w. induction l as [|[status group] l IH]; intros w.
  - exists []. now rewrite app_nil_r.
  - cbn [for_each]. unfold exec, bind. rewrite render_group_spec.
    match goal with |- context [for_each render_group l ?x] =>
      destruct (IH x) as [more Hm]; unfold exec in Hm; rewrite Hm end.
    cbn [objects set_counts].
    destruct (find_zone status (zones w)); cbn [objects set_zones set_objects].
    + eexists. now rewrite <- app_assoc.
    + now exists more.
Qed.

Lemma renderBoard_extends (w : world) :
  exists more, objects (exec renderBoard w) = objects w ++ more.
Proof.
  unfold exec, renderBoard. unfold bind at 1. cbn [get]. unfold bind at 1.
  cbn [modify]. unfold bind at 1.
  destruct (group_for_board (todos w) no_groups) as [g|e]; cbn [lift].
  - unfold bind at 1.
    match goal with |- context [for_each render_group ?l ?x] =>
      destruct (for_each_render_extends l x) as [more Hm];
      destruct (for_each_render_returns l x) as [w' E];
      unfold exec in Hm; rewrite E in *; cbn [snd] in Hm end.
    exists more. cbn [modify snd objects set_taskCount]. exact Hm.
  - exists []. cbn [snd objects set_zones]. now rewrite app_nil_r.
Qed.

Lemma loadTodos_extends (w : world) :
  exists more, objects (exec loadTodos w) = objects w ++ more.
Proof.
  unfold exec. rewrite loadTodos_run. cbv zeta. cbn [snd objects set_loading].
  destruct (fst (UsableAPI.getTodos w)) as [l|e].
  - match goal with |- context [renderBoard ?x] =>
      destruct (renderBoard_extends x) as [more Hm]; unfold exec in Hm;
      destruct (renderBoard x) as [[[]|e] w3] end;
      exists more; cbn [snd objects set_toast] in *; exact Hm.
  - exists []. cbn [objects set_toast set_http_log set_loading].
    now rewrite app_nil_r.
Qed.

Lemma loadTodos_toast (w : world) :
  toast (exec loadTodos w) = Some (lit "Tasks loaded", lit "success")
  \/ toast (exec loadTodos w) = Some (lit "Failed to load tasks", lit "error").
Proof.
  unfold exec. rewrite loadTodos_run. cbv zeta. cbn [snd toast set_loading].
  destruct (fst (UsableAPI.getTodos w)) as [l|e]; [|now right].
  destruct (renderBoard _) as [[[]|e] w3]; [left|right]; reflexivity.
Qed.

Lemma loadTodos_beyond (w : world) :
  draggedCard (exec loadTodos w) = draggedCard w
  /\ draggedCardData (exec loadTodos w) = draggedCardData w.
Proof.
  unfold exec. rewrite loadTodos_run. cbv zeta.
  cbn [snd draggedCard draggedCardData set_loading].
  destruct (fst (UsableAPI.getTodos w)) as [l|e]; [|split; reflexivity].
  match goal with |- context [renderBoard ?x] =>
    pose proof (beyond_renderBoard x) as Hk; unfold exec, Frame.beyond_document in Hk;
    destruct (renderBoard x) as [[[]|e] w3] end;
    cbn [snd] in Hk; injection Hk; intros; split;
    cbn [draggedCard draggedCardData set_toast]; assumption.
Qed.

(** X23. In the page [dragend] follows [drop] at once, before the store
    can have answered.  So when a drop changes status or key and the
    server accepts the update, what follows the [await] finds
    [this.draggedCardData] null and throws: the run goes on in the
    [catch].  [handleDrop] returns having sent the PATCH for the card
    and then the GET of a reload, which starts from a page [shown] that
    shows [Failed to move task] with cache and card data as they were.
    The card's data never get the new status and key, and the toast
    left is the reload's, not [Task moved]. *)
Theorem accepted_move_ends_in_a_reload
        (w : world) (zi : nat) (z : zone) (dref card : nat) (data : card_data)
        (now k : Z) :
  nth_error (zones w) zi = Some z ->
  draggedCardData w = Some dref ->
  nth_error (objects w) dref = Some data ->
  fst (calculateSortValue zi (drop_index z) now (exec hideDropIndicator w))
    = Returns k ->
  dropzone z <> Parsed.status (parsed data) \/ Parsed.sort (parsed data) <> Some k ->
  (forall r, exists status text j,
      server (http_log w ++ [r]) = Http.Reply true status text (Some j)) ->
  exists shown patch w',
    handleDrop (Some zi) now (handleDragEnd card) w = (Returns tt, w')
    /\ w' = exec loadTodos shown
    /\ toast shown = Some (lit "Failed to move task", lit "error")
    /\ http_log shown = http_log w ++ [patch]
    /\ Http.verb patch = Http.PATCH
    /\ Http.url patch
       = CONFIG.API_BASE_URL ++ lit "/memory-fragments/" ++ Fragment.id (todo data)
    /\ todos shown = todos w
    /\ objects shown = objects w
    /\ http_log w' = http_log w ++ [patch; Frame.list_request (config w)]
    /\ loading w' = false
    /\ draggedCard w' = None
    /\ draggedCardData w' = None
    /\ nth_error (objects w') dref = Some data
    /\ (toast w' = Some (lit "Tasks loaded", lit "success")
        \/ toast w' = Some (lit "Failed to load tasks", lit "error")).
Proof.
  intros Hz Hd Ho Hk Hchange Hok.
  unfold handleDrop. unfold bind at 1. cbn [get]. rewrite Hd, Hz.
  unfold bind at 1. rewrite Ho. cbn [lift deref].
  unfold bind at 1.
  change (hideDropIndicator w) with (Returns tt, exec hideDropIndicator w).
  unfold bind at 1.
  pose proof (calculateSortValue_reads_only zi (drop_index z) now
                (exec hideDropIndicator w)) as Hpure.
  destruct (calculateSortValue zi (drop_index z) now (exec hideDropIndicator w))
    as [r0 w'].
  cbn [fst snd] in Hk, Hpure. subst r0 w'.
  assert (Hc : negb (negb (str_eqb (dropzone z) (Parsed.status (parsed data))))
               && negb match Parsed.sort (parsed data) with
                       | Some s => negb (Z.eqb k s)
                       | None => true
                       end = false).
  { destruct Hchange as [H|H].
    - apply str_eqb_neq in H. now rewrite H.
    - apply andb_false_iff. right.
      destruct (Parsed.sort (parsed data)) as [s|]; [|reflexivity].
      destruct (Z.eqb k s) eqn:E; [|reflexivity].
      apply Z.eqb_eq in E. subst s. contradiction. }
  rewrite Hc. unfold bind at 1. cbn [get].
  unfold bind at 1.
  set (w1 := exec hideDropIndicator w).
  match goal with
  | |- context [let (o, w') := ?m w1 in _] =>
      assert (H2 : exists zs, m w1 = (Returns tt, set_zones zs w1))
        by (destruct (draggedCard w1); [eexists; reflexivity|];
            exists (zones w1); now destruct w);
      destruct H2 as [zs H2]; rewrite H2
  end.
  unfold try_catch. unfold bind at 1. unfold await, UsableAPI.updateTodo.
  unfold UsableAPI.request. unfold bind at 1. cbn [get]. unfold bind at 1.
  unfold UsableAPI.fetch. unfold bind at 1. cbn [get]. unfold bind at 1.
  cbn [modify ret]. cbn [http_log set_zones config].
  change (http_log w1) with (http_log w). change (config w1) with (config w).
  match goal with |- context [server (http_log w ++ [?r])] =>
    destruct (Hok r) as (status & text & j & ->); set (req := r) end.
  cbn [negb UsableAPI.json_of ret].
  rewrite handleDragEnd_run. cbn [snd].
  unfold bind at 1. cbn [get]. unfold bind at 1.
  cbn [draggedCardData set_draggedCardData lift deref].
  unfold bind at 1. cbn [showToast modify].
  match goal with |- context [loadTodos ?x] => set (shown := x) end.
  destruct (loadTodos_after shown) as (w' & E & Hl & Hlog).
  destruct (loadTodos_extends shown) as (more & Hmore).
  destruct (loadTodos_beyond shown) as (Hb1 & Hb2).
  pose proof (loadTodos_toast shown) as Ht.
  unfold exec in *. rewrite E in *. cbn [snd] in *.
  exists shown, req, w'.
  assert (Hs : http_log shown = http_log w ++ [req]) by reflexivity.
  assert (Hobj : objects shown = objects w) by reflexivity.
  repeat match goal with |- _ /\ _ => split end;
    try reflexivity; try assumption.
  - now rewrite E.
  - rewrite Hlog, Hs, <- app_assoc. reflexivity.
  - rewrite Hmore, Hobj, nth_error_app1; [exact Ho|].
    apply nth_error_Some. now rewrite Ho.
Qed.
End Moved.

Lemma accepted_move_ends_in_a_reload_witness :
  exists shown patch w',
    @KanbanBoard.handleDrop Demo.solo_platform (Some 2) 1000%Z
       (KanbanBoard.handleDragEnd 0) Demo.solo_held
      = (Returns tt, w')
    /\ w' = exec (@KanbanBoard.loadTodos Demo.solo_platform) shown
    /\ toast shown = Some (lit "Failed to move task", lit "error")
    /\ http_log shown = http_log Demo.solo_held ++ [patch]
    /\ Http.verb patch = Http.PATCH
    /\ Http.url patch
       = CONFIG.API_BASE_URL ++ lit "/memory-fragments/"
           ++ Fragment.id (todo Sample.solo_card)
    /\ todos shown = todos Demo.solo_held
    /\ objects shown = objects Demo.solo_held
    /\ http_log w'
       = http_log Demo.solo_held
           ++ [patch; Frame.list_request (config Demo.solo_held)]
    /\ loading w' = false
    /\ draggedCard w' = None
    /\ draggedCardData w' = None
    /\ nth_error (objects w') 0 = Some Sample.solo_card
    /\ (toast w' = Some (lit "Tasks loaded", lit "success")
        \/ toast w' = Some (lit "Failed to load tasks", lit "error")).
Proof.
  refine (@accepted_move_ends_in_a_reload Demo.solo_platform
            Demo.solo_held 2
            (nth 2 (zones Demo.solo_held) (Sample.first_zone Demo.solo_held))
            0 0 Sample.solo_card 1000%Z 500%Z _ _ _ _ _ _).
  - vm_compute. reflexivity.
  - vm_compute. reflexivity.
  - vm_compute. reflexivity.
  - vm_compute. reflexivity.
  - left. vm_compute. discriminate.
  - intros r. change (http_log Demo.solo_held) with (@nil Http.request).
    cbn [app server Demo.solo_platform Demo.platform Demo.store_server rev].
    destruct (Http.verb r); do 3 eexists; reflexivity.
Defined.

(** The same drop in the page, on a store that keeps what it is sent:
    the card is in the third column because the reload drew it there
    anew; the data the first card was made of still say [todo]. *)
Example accepted_move_in_the_page :
  let w' := exec (@KanbanBoard.handleDrop Demo.solo_platform (Some 2) 1000%Z
                    (KanbanBoard.handleDragEnd 0))
                 Demo.solo_held in
  map Http.verb (http_log w') = [Http.PATCH; Http.GET]
  /\ toast w' = Some (lit "Tasks loaded", lit "success")
  /\ map children (zones w') = [[]; []; [Card 1 false]]
  /\ map (fun o => Parsed.status (parsed o)) (objects w')
     = [lit "todo"; lit "done"].
Proof.
  repeat split; vm_compute; reflexivity.
Qed.

(* ================================================================== *)
(** * The task form and the silent refresh                          *)
(* ================================================================== *)

Section Forms.
Context {P : Platform}.
Import KanbanBoard.

(** A request changes nothing but the log, where it adds itself. *)
Lemma request_sends_one endpoint verb payload (w : world) :
  exists r,
    UsableAPI.request endpoint verb payload w
    = (r, set_http_log
            (http_log w ++
             [ {| Http.url := CONFIG.API_BASE_URL ++ endpoint; Http.verb := verb;
                  Http.bearer := Some (CONFIG.API_TOKEN (config w));
                  Http.payload := option_map Http.Json payload |} ]) w).
Proof.
  unfold UsableAPI.request, UsableAPI.fetch, bind, get, modify, ret.
  destruct (server _) as [|[|] status text [[|o]|]]; eexists; reflexivity.
Qed.

(** It returns on the answers that are accepted and throws on the
    others. *)
Lemma request_outcome endpoint verb payload (w : world) :
  let r := {| Http.url := CONFIG.API_BASE_URL ++ endpoint; Http.verb := verb;
              Http.bearer := Some (CONFIG.API_TOKEN (config w));
              Http.payload := option_map Http.Json payload |} in
  exists out,
    UsableAPI.request endpoint verb payload w
    = (out, set_http_log (http_log w ++ [r]) w)
    /\ if Spec.accepted (server (http_log w ++ [r]))
       then exists j, out = Returns j
       else exists e, out = Throws e.
Proof.
  unfold UsableAPI.request, UsableAPI.fetch, bind, get, modify, ret.
  cbv zeta. cbn [http_log set_http_log].
  destruct (server _) as [|[|] status text [[|o]|]];
    eexists; (split; [reflexivity|]); cbn; eexists; reflexivity.
Qed.

Lemma or_default_self (s : jsstring) : or_default (Some s) [] = s.
Proof. now destruct s. Qed.

(** X24. [handleSubmit] always returns with the loading overlay off.
    Its first request is a PATCH of the task when the form carries an
    id and a POST otherwise; the body carries the form's title and
    summary, the frontmatter built from the form's status and priority
    followed by the form's content, and the tags of [buildTags].  When
    the server's answer to that request is accepted (a status in the
    200s with a JSON body), exactly the GET of one reload follows; on
    every other answer, and when the server is not reached, nothing
    follows, the toast reads [Failed to save task] and board and cache
    are as before. *)
Theorem handleSubmit_settles (form : BoardForms.task_form) (w : world) :
  let id := BoardForms.task_id form in
  exists w' first body rest,
    BoardForms.handleSubmit form w = (Returns tt, w')
    /\ loading w' = false
    /\ http_log w' = http_log w ++ first :: rest
    /\ Http.verb first = (if UsableAPI.nonempty id then Http.PATCH else Http.POST)
    /\ Http.url first
       = CONFIG.API_BASE_URL ++ lit "/memory-fragments"
           ++ (if UsableAPI.nonempty id then lit "/" ++ id else [])
    /\ Http.payload first = Some (Http.Json body)
    /\ Http.title body = Text (BoardForms.task_title form)
    /\ Http.summary body = BoardForms.task_summary form
    /\ Http.content body
       = lit "---" ++ [LF] ++ lit "status: "
           ++ or_default (Some (BoardForms.task_status form)) CONFIG.STATUSES.TODO
           ++ [LF] ++ lit "priority: "
           ++ or_default (Some (BoardForms.task_priority form)) (lit "medium")
           ++ [LF] ++ lit "---" ++ [LF; LF] ++ BoardForms.task_content form
    /\ Http.tags body = UsableAPI.buildTags (TagString (BoardForms.task_tags form))
    /\ if Spec.accepted (server (http_log w ++ [first]))
       then rest = [Frame.list_request (config w)]
       else rest = []
            /\ toast w' = Some (lit "Failed to save task", lit "error")
            /\ Frame.board w' = Frame.board w.
Proof.
  intros id. unfold BoardForms.handleSubmit. fold id. unfold bind at 1. cbn [get].
  unfold bind at 1.
  set (existing := if UsableAPI.nonempty id then _ else None).
  assert (Hsort : exists sort,
             match existing with
             | Some t =>
                 parsed <- lift (UsableAPI.parseContent (Fragment.content t)) ;;
                 ret (Parsed.sort parsed)
             | None => ret None
             end w = (Returns sort, w)).
  { destruct existing as [t|]; [|now exists None].
    unfold bind. destruct (parseContent_returns (Fragment.content t)) as (p & -> & _).
    now eexists. }
  destruct Hsort as [sort ->].
  unfold bind at 1. unfold showLoading. cbn [modify].
  unfold finally, try_catch. unfold bind at 1.
  assert (Hcontent : forall k,
             UsableAPI.buildContent
               (TodoData.make (Text (BoardForms.task_title form))
                  (Some (BoardForms.task_summary form))
                  (Some (BoardForms.task_status form))
                  (Some (BoardForms.task_priority form)) k
                  (Some (BoardForms.task_content form))
                  (TagString (BoardForms.task_tags form)))
             = lit "---" ++ [LF] ++ lit "status: "
                 ++ or_default (Some (BoardForms.task_status form)) CONFIG.STATUSES.TODO
                 ++ [LF] ++ lit "priority: "
                 ++ or_default (Some (BoardForms.task_priority form)) (lit "medium")
                 ++ [LF] ++ lit "---" ++ [LF; LF] ++ BoardForms.task_content form).
  { intros k. unfold UsableAPI.buildContent.
    cbn [TodoData.status TodoData.priority TodoData.content join].
    rewrite or_default_self. rewrite <- !app_assoc. reflexivity. }
  destruct (UsableAPI.nonempty id) eqn:En.
  - unfold bind at 1. unfold UsableAPI.updateTodo.
    match goal with |- context [UsableAPI.request ?e ?v ?p ?x] =>
      destruct (request_outcome e v p x) as (r & -> & Hr) end.
    cbn [option_map config set_loading http_log] in *.
    match type of Hr with (if ?a then _ else _) =>
      destruct a eqn:Ea; destruct Hr as [? ->] end.
    + unfold showToast at 1. cbn [modify].
      match goal with |- context [loadTodos ?x] =>
        destruct (loadTodos_after x) as (w3 & -> & Hl & Hh) end.
      unfold hideLoading. cbn [modify].
      do 4 eexists. split; [reflexivity|].
      cbn [loading http_log config set_loading set_toast set_http_log] in *. split; [reflexivity|].
      split; [rewrite Hh, <- app_assoc; reflexivity|].
      repeat match goal with |- _ = _ /\ _ => split end;
        try (cbn [Http.verb Http.url Http.payload Http.title Http.summary
                  Http.content Http.tags TodoData.title TodoData.summary
                  TodoData.tags];
             rewrite ?Hcontent, ?or_default_self, <- ?app_assoc, ?app_nil_r;
             reflexivity).
      match goal with |- if ?c then _ else _ =>
        replace c with true by (symmetry; exact Ea) end.
      reflexivity.
    + unfold showToast, hideLoading. cbn [modify].
      do 4 eexists. split; [reflexivity|].
      cbn [loading http_log set_loading set_toast toast]. split; [reflexivity|].
      split; [reflexivity|].
      repeat match goal with |- _ = _ /\ _ => split end;
        try (cbn [Http.verb Http.url Http.payload Http.title Http.summary
                  Http.content Http.tags TodoData.title TodoData.summary
                  TodoData.tags];
             rewrite ?Hcontent, ?or_default_self, <- ?app_assoc, ?app_nil_r;
             reflexivity).
      match goal with |- if ?c then _ else _ =>
        replace c with false by (symmetry; exact Ea) end.
      repeat split.
  - unfold bind at 1. unfold UsableAPI.createTodo. unfold bind at 1. cbn [get].
    match goal with |- context [UsableAPI.request ?e ?v ?p ?x] =>
      destruct (request_outcome e v p x) as (r & -> & Hr) end.
    cbn [option_map config set_loading http_log] in *.
    match type of Hr with (if ?a then _ else _) =>
      destruct a eqn:Ea; destruct Hr as [? ->] end.
    + unfold showToast at 1. cbn [modify].
      match goal with |- context [loadTodos ?x] =>
        destruct (loadTodos_after x) as (w3 & -> & Hl & Hh) end.
      unfold hideLoading. cbn [modify].
      do 4 eexists. split; [reflexivity|].
      cbn [loading http_log config set_loading set_toast set_http_log] in *. split; [reflexivity|].
      split; [rewrite Hh, <- app_assoc; reflexivity|].
      repeat match goal with |- _ = _ /\ _ => split end;
        try (cbn [Http.verb Http.url Http.payload Http.title Http.summary
                  Http.content Http.tags TodoData.title TodoData.summary
                  TodoData.tags];
             rewrite ?Hcontent, ?or_default_self, <- ?app_assoc, ?app_nil_r;
             reflexivity).
      match goal with |- if ?c then _ else _ =>
        replace c with true by (symmetry; exact Ea) end.
      reflexivity.
    + unfold showToast, hideLoading. cbn [modify].
      do 4 eexists. split; [reflexivity|].
      cbn [loading http_log set_loading set_toast toast]. split; [reflexivity|].
      split; [reflexivity|].
      repeat match goal with |- _ = _ /\ _ => split end;
        try (cbn [Http.verb Http.url Http.payload Http.title Http.summary
                  Http.content Http.tags TodoData.title TodoData.summary
                  TodoData.tags];
             rewrite ?Hcontent, ?or_default_self, <- ?app_assoc, ?app_nil_r;
             reflexivity).
      match goal with |- if ?c then _ else _ =>
        replace c with false by (symmetry; exact Ea) end.
      repeat split.
Qed.


(** X25. [handleDelete] does nothing at all unless the form carries an
    id, the id is in the cache and the user confirms.  When it goes
    ahead it always returns with the loading overlay off; its first
    request is the DELETE of that fragment, without a body.  When the
    server's answer to it is accepted (a status in the 200s with a JSON
    body), exactly the GET of one reload follows; on every other
    answer, and when the server is not reached, nothing follows, the
    toast reads [Failed to delete task] and board and cache are as
    before. *)
Theorem handleDelete_settles (id : jsstring) (confirmed : bool) (w : world) :
  let goes_ahead :=
    UsableAPI.nonempty id
    && match find (fun t => str_eqb (Fragment.id t) id) (todos w) with
       | Some _ => true
       | None => false
       end
    && confirmed in
  let first :=
    {| Http.url := CONFIG.API_BASE_URL ++ lit "/memory-fragments/" ++ id;
       Http.verb := Http.DELETE;
       Http.bearer := Some (CONFIG.API_TOKEN (config w));
       Http.payload := None |} in
  exists w',
    handleDelete id confirmed w = (Returns tt, w')
    /\ if goes_ahead then
         loading w' = false
         /\ exists rest,
              http_log w' = http_log w ++ first :: rest
              /\ if Spec.accepted (server (http_log w ++ [first]))
                 then rest = [Frame.list_request (config w)]
                 else rest = []
                      /\ toast w' = Some (lit "Failed to delete task", lit "error")
                      /\ Frame.board w' = Frame.board w
       else w' = w.
Proof.
  intros goes_ahead first. subst goes_ahead first.
  unfold handleDelete. unfold bind at 1. cbn [get].
  destruct (UsableAPI.nonempty id); cbn [negb andb]; [|now exists w].
  destruct (find _ (todos w)) as [t|]; cbn [andb]; [|now exists w].
  destruct confirmed; cbn [negb]; [|now exists w].
  unfold bind at 1. unfold showLoading. cbn [modify].
  unfold finally, try_catch. unfold bind at 1. unfold UsableAPI.deleteTodo.
  unfold bind at 1.
  match goal with |- context [UsableAPI.request ?e ?v ?p ?x] =>
    destruct (request_outcome e v p x) as (r & -> & Hr) end.
  cbn [option_map config set_loading http_log] in *.
  match type of Hr with (if ?a then _ else _) =>
    destruct a eqn:Ea; destruct Hr as [? ->] end.
  - cbn [ret]. unfold bind at 1. unfold showToast at 1. cbn [modify].
    match goal with |- context [loadTodos ?x] =>
      destruct (loadTodos_after x) as (w3 & -> & Hl & Hh) end.
    unfold hideLoading. cbn [modify]. eexists. split; [reflexivity|].
    cbn [loading http_log config set_loading set_toast set_http_log] in *.
    split; [reflexivity|]. eexists. split; [rewrite Hh, <- app_assoc; reflexivity|].
    reflexivity.
  - unfold showToast, hideLoading. cbn [modify]. eexists. split; [reflexivity|].
    cbn [loading http_log config set_loading set_toast set_http_log toast].
    split; [reflexivity|]. exists []. split; [reflexivity|]. repeat split.
Qed.

(** X26. [refreshSilently] always returns, sends one GET, and never
    touches the toast or the loading overlay.  When the listing fails,
    or reads the same as the cache, the board and what was posted to the
    embed are as before; otherwise the cache becomes the listing. *)
Theorem refreshSilently_is_silent (stringify : list Fragment.t -> jsstring) (w : world) :
  exists w',
    BoardForms.refreshSilently stringify w = (Returns tt, w')
    /\ toast w' = toast w /\ loading w' = loading w
    /\ http_log w' = http_log w ++ [Frame.list_request (config w)]
    /\ match fst (UsableAPI.getTodos w) with
       | Throws _ => Frame.board w' = Frame.board w /\ outbox w' = outbox w
       | Returns l =>
           if str_eqb (stringify l) (stringify (todos w))
           then Frame.board w' = Frame.board w /\ outbox w' = outbox w
           else todos w' = l
       end.
Proof.
  unfold BoardForms.refreshSilently, try_catch. unfold bind at 1.
  pose proof (getTodos_cases w) as E0. cbv zeta in E0. rewrite E0. cbn [fst].
  set (r := match server _ with Http.Unreachable => _ | _ => _ end).
  destruct r as [l|e]; [|eexists; split; [reflexivity|]; repeat split].
  unfold bind at 1. cbn [get todos set_http_log].
  destruct (str_eqb (stringify l) (stringify (todos w))); cbn [negb];
    [eexists; split; [reflexivity|]; repeat split|].
  unfold bind at 1. cbn [modify]. unfold bind at 1.
  set (w2 := set_todos l _).
  pose proof (beyond_renderBoard w2) as Hk. unfold exec, Frame.beyond_document in Hk.
  destruct (renderBoard w2) as [[[]|e] w3]; cbn [snd] in Hk; injection Hk; intros;
    subst w2; cbn [todos toast loading http_log outbox embed set_todos set_http_log] in *.
  - unfold sendBoardContext, bind. cbn [get].
    destruct (getBoardContext w3) as [text|e]; cbn [lift ret].
    + unfold postToEmbed, bind. cbn [get]. destruct (embed w3); cbn [when modify ret];
        eexists; (split; [reflexivity|]);
        cbn [todos toast loading http_log set_outbox]; repeat split; congruence.
    + eexists. split; [reflexivity|]. repeat split; congruence.
  - eexists. split; [reflexivity|]. repeat split; congruence.
Qed.
End Forms.

(** Both cases of X24 and X25 on the board of one task: a store that
    answers, and a server that cannot be reached. *)
Example forms_with_and_without_the_store :
  let form := {| BoardForms.task_id := lit "a"; BoardForms.task_title := lit "A";
                 BoardForms.task_summary := []; BoardForms.task_status := lit "done";
                 BoardForms.task_priority := lit "high";
                 BoardForms.task_content := lit "text"; BoardForms.task_tags := [] |} in
  let saved := exec (@BoardForms.handleSubmit Demo.solo_platform form) Demo.solo_board in
  let unsaved := exec (@BoardForms.handleSubmit (Demo.platform Sample.offline_server) form)
                      Demo.solo_board in
  let deleted := exec (@KanbanBoard.handleDelete Demo.solo_platform (lit "a") true)
                      Demo.solo_board in
  let kept := exec (@KanbanBoard.handleDelete (Demo.platform Sample.offline_server)
                      (lit "a") true)
                   Demo.solo_board in
  map Http.verb (http_log saved) = [Http.PATCH; Http.GET]
  /\ map children (zones saved) = [[]; []; [Card 1 false]]
  /\ map Http.verb (http_log unsaved) = [Http.PATCH]
  /\ toast unsaved = Some (lit "Failed to save task", lit "error")
  /\ Frame.board unsaved = Frame.board Demo.solo_board
  /\ map Http.verb (http_log deleted) = [Http.DELETE; Http.GET]
  /\ map Http.verb (http_log kept) = [Http.DELETE]
  /\ toast kept = Some (lit "Failed to delete task", lit "error")
  /\ Frame.board kept = Frame.board Demo.solo_board.
Proof.
  repeat split; vm_compute; reflexivity.
Qed.

(* ================================================================== *)
(** * Settings                                                      *)
(* ================================================================== *)

(** X27. Settings saved with [saveSettings] survive a reload: when the
    three values are not empty, [init] on the storage [saveSettings]
    left gives CONFIG the very values [saveSettings] gave it, whatever
    the server answers to [/config] (defaults, nothing, or [null]) and
    whatever CONFIG held. *)
Theorem saved_settings_survive_reload
        (token workspaceId fragmentTypeId : jsstring)
        (reply : outcome (option Settings.defaults)) (c : CONFIG.settings) :
  token <> [] -> workspaceId <> [] -> fragmentTypeId <> [] ->
  Settings.init (fst (Settings.saveSettings token workspaceId fragmentTypeId)) reply c
  = (Returns tt, snd (Settings.saveSettings token workspaceId fragmentTypeId)).
Proof.
  intros Ht Hw Hf.
  destruct token as [|t0 token]; [contradiction|].
  destruct workspaceId as [|w0 workspaceId]; [contradiction|].
  destruct fragmentTypeId as [|f0 fragmentTypeId]; [contradiction|].
  reflexivity.
Qed.

Lemma saved_settings_survive_reload_witness :
  Settings.init (fst (Settings.saveSettings (lit "tok") (lit "ws-1") (lit "ft-1")))
                (Returns None) (config Demo.blank)
  = (Returns tt, snd (Settings.saveSettings (lit "tok") (lit "ws-1") (lit "ft-1"))).
Proof.
  apply saved_settings_survive_reload; discriminate.
Defined.

(** With an answer other than [null], [init] does not throw: each value
    is the stored one when there is one, else the server's, else empty. *)
Lemma init_falls_back_to_server_defaults
        (storage : Settings.stored) (reply : outcome (option Settings.defaults))
        (c : CONFIG.settings) :
  reply <> Returns None ->
  let d := match reply with
           | Returns (Some d) => d
           | _ => Settings.no_defaults
           end in
  let pick stored field := if truthy stored then or_default stored []
                           else or_default (field d) [] in
  Settings.init storage reply c
  = (Returns tt,
     {| CONFIG.API_TOKEN := pick (Settings.kanban_api_token storage) Settings.API_TOKEN;
        CONFIG.WORKSPACE_ID :=
          pick (Settings.kanban_workspace_id storage) Settings.WORKSPACE_ID;
        CONFIG.FRAGMENT_TYPE_ID :=
          pick (Settings.kanban_fragment_type_id storage) Settings.FRAGMENT_TYPE_ID |}).
Proof.
  intros Hr d pick. unfold Settings.init, Settings.first_of. subst pick d.
  destruct reply as [[d|]|e]; [|contradiction|];
    destruct (truthy (Settings.kanban_api_token storage)),
             (truthy (Settings.kanban_workspace_id storage)),
             (truthy (Settings.kanban_fragment_type_id storage)); reflexivity.
Qed.

(** On the answer [null], [init] throws at the first value that is not
    stored, with the earlier ones assigned. *)
Lemma init_on_null_stops_at_the_first_gap
        (storage : Settings.stored) (c : CONFIG.settings) :
  truthy (Settings.kanban_api_token storage) = true ->
  truthy (Settings.kanban_workspace_id storage) = false ->
  Settings.init storage (Returns None) c
  = (Throws TypeError,
     {| CONFIG.API_TOKEN := or_default (Settings.kanban_api_token storage) [];
        CONFIG.WORKSPACE_ID := CONFIG.WORKSPACE_ID c;
        CONFIG.FRAGMENT_TYPE_ID := CONFIG.FRAGMENT_TYPE_ID c |}).
Proof.
  intros Ht Hw. unfold Settings.init, Settings.first_of. now rewrite Ht, Hw.
Qed.

(* ================================================================== *)
(** * A task created by the chat                                    *)
(* ================================================================== *)

Section Create.
Context {P : Platform}.
Import KanbanBoard.

Lemma postToEmbed_log (m : embed_message) (w : world) :
  exists w', postToEmbed m w = (Returns tt, w') /\ http_log w' = http_log w.
Proof.
  unfold postToEmbed, bind. cbn [get]. destruct (embed w); eexists; split; reflexivity.
Qed.

(** X28. [create_task] without status and priority: the first request
    is the POST of a fragment for the configured workspace and type,
    with the given title, tags that start with the defaults, and a
    content that [parseContent] reads back as status [todo], priority
    [medium] and the given content trimmed; at most one reload
    follows. *)
Theorem chat_created_task_lands_in_todo
        (call : tool_call) (given : tool_input) (w : world) :
  tool call = Text (lit "create_task") ->
  input call = Some given ->
  truthy (text_of (in_status given)) = false ->
  truthy (text_of (in_priority given)) = false ->
  exists body rest,
    http_log (exec (handleToolCall (Some call)) w)
    = http_log w
        ++ {| Http.url := CONFIG.API_BASE_URL ++ lit "/memory-fragments";
              Http.verb := Http.POST;
              Http.bearer := Some (CONFIG.API_TOKEN (config w));
              Http.payload := Some (Http.Json body) |} :: rest
    /\ (rest = [] \/ rest = [Frame.list_request (config w)])
    /\ Http.title body = in_title given
    /\ Http.workspaceId body = Some (CONFIG.WORKSPACE_ID (config w))
    /\ Http.fragmentTypeId body = Some (CONFIG.FRAGMENT_TYPE_ID (config w))
    /\ UsableAPI.parseContent (Some (Http.content body))
       = Returns (Parsed.make CONFIG.STATUSES.TODO (lit "medium")
                              (trim (or_default (text_of (in_content given)) [])) None)
    /\ exists more, Http.tags body = CONFIG.DEFAULT_TAGS ++ more.
Proof.
  intros Ht Hi Hs Hp.
  unfold exec, handleToolCall. unfold bind at 1. cbn [lift deref].
  unfold try_catch. unfold bind at 1. unfold dispatch, is_tool. rewrite Ht, Hi.
  compare_literals. unfold bind at 1. cbn [lift deref]. unfold bind at 1.
  unfold UsableAPI.createTodo. unfold bind at 1. cbn [get].
  match goal with |- context [UsableAPI.request ?e ?v ?p ?x] =>
    destruct (request_sends_one e v p x) as [r ->] end.
  cbn [option_map].
  match goal with |- context [Some (Http.Json ?b)] => set (body := b) end.
  assert (Hdefault : forall x d, truthy x = false -> or_default x d = d).
  { intros [[|c s]|] d; cbn; congruence. }
  assert (Hparse : UsableAPI.parseContent (Some (Http.content body))
                   = Returns (Parsed.make CONFIG.STATUSES.TODO (lit "medium")
                                (trim (or_default (text_of (in_content given)) [])) None)).
  { subst body. cbn [Http.content]. rewrite (Hdefault _ _ Hs), (Hdefault _ _ Hp).
    rewrite parse_built; [|discriminate|discriminate|vm_compute; reflexivity].
    f_equal. f_equal; try (vm_compute; reflexivity).
    f_equal. now destruct (in_content given) as [| |[|c s]]. }
  assert (Htags : exists more, Http.tags body = CONFIG.DEFAULT_TAGS ++ more).
  { subst body. cbn [Http.tags]. apply buildTags_starts_with_defaults. }
  exists body.
  destruct r as [j|e].
  - unfold bind at 1.
    match goal with |- context [loadTodos ?x] =>
      destruct (loadTodos_after x) as (w3 & -> & Hl & Hh) end.
    unfold bind at 1. unfold showToast. cbn [modify ret].
    match goal with |- context [postToEmbed ?m ?x] =>
      destruct (postToEmbed_log m x) as (w4 & -> & H4) end.
    exists [Frame.list_request (config w)]. cbn [snd]. rewrite H4.
    cbn [http_log set_toast]. rewrite Hh. cbn [http_log set_http_log config].
    rewrite <- app_assoc. repeat split; auto.
  - match goal with |- context [postToEmbed ?m ?x] =>
      destruct (postToEmbed_log m x) as (w4 & -> & H4) end.
    exists []. cbn [snd]. rewrite H4. cbn [http_log set_http_log].
    repeat split; auto.
Qed.
End Create.

Lemma chat_created_task_lands_in_todo_witness :
  exists body rest,
    http_log (exec (@KanbanBoard.handleToolCall Demo.solo_platform (Some Sample.creation))
                   Demo.solo_board)
    = http_log Demo.solo_board
        ++ {| Http.url := CONFIG.API_BASE_URL ++ lit "/memory-fragments";
              Http.verb := Http.POST;
              Http.bearer := Some (CONFIG.API_TOKEN (config Demo.solo_board));
              Http.payload := Some (Http.Json body) |} :: rest
    /\ (rest = [] \/ rest = [Frame.list_request (config Demo.solo_board)])
    /\ Http.title body = Text (lit "Buy milk")
    /\ Http.workspaceId body = Some (CONFIG.WORKSPACE_ID (config Demo.solo_board))
    /\ Http.fragmentTypeId body = Some (CONFIG.FRAGMENT_TYPE_ID (config Demo.solo_board))
    /\ UsableAPI.parseContent (Some (Http.content body))
       = Returns (Parsed.make CONFIG.STATUSES.TODO (lit "medium")
                              (trim (or_default (Some (lit " two litres ")) [])) None)
    /\ exists more, Http.tags body = CONFIG.DEFAULT_TAGS ++ more.
Proof.
  apply (@chat_created_task_lands_in_todo Demo.solo_platform Sample.creation _
           Demo.solo_board eq_refl eq_refl eq_refl eq_refl).
Defined.

(* ================================================================== *)
(** * The writing tools without a network                           *)
(* ================================================================== *)

Section Offline.
Context {P : Platform}.
Import KanbanBoard.

(** A request the network does not carry throws and leaves its trace on
    the log. *)
Lemma request_unreachable endpoint verb payload (w : world) :
  (forall r, server (http_log w ++ [r]) = Http.Unreachable) ->
  UsableAPI.request endpoint verb payload w
  = (Throws NetworkError,
     set_http_log
       (http_log w ++
        [ {| Http.url := CONFIG.API_BASE_URL ++ endpoint; Http.verb := verb;
             Http.bearer := Some (CONFIG.API_TOKEN (config w));
             Http.payload := option_map Http.Json payload |} ]) w).
Proof.
  intros H. unfold UsableAPI.request, UsableAPI.fetch, bind, get, modify, ret.
  now rewrite H.
Qed.

(** X29. When the network is down, [create_task] and, for a task that is
    in the cache, [update_task], [move_task] and [delete_task] send
    their one request (POST, PATCH, PATCH, DELETE), answer the call with
    the error, and change nothing else: no reload, no toast, cache and
    board as before. *)
Theorem offline_writes_are_reported_not_applied
        (name : jsstring) (call : tool_call) (given : tool_input) (w : world) :
  In name [lit "create_task"; lit "update_task"; lit "move_task"; lit "delete_task"] ->
  tool call = Text name ->
  input call = Some given ->
  name = lit "create_task" \/ find_todo (in_id given) (todos w) <> None ->
  (forall r, server (http_log w ++ [r]) = Http.Unreachable) ->
  embed w = true ->
  exists r,
    handleToolCall (Some call) w
    = (Returns tt,
       set_outbox (outbox w ++ [TOOL_RESPONSE (requestId call) (Failure NetworkError)])
                  (set_http_log (http_log w ++ [r]) w))
    /\ Http.verb r
       = (if str_eqb name (lit "create_task") then Http.POST
          else if str_eqb name (lit "delete_task") then Http.DELETE
          else Http.PATCH).
Proof.
  intros Hn Ht Hi Hfound Hoff He.
  unfold handleToolCall. unfold bind at 1. cbn [lift deref].
  unfold try_catch. unfold bind at 1. unfold dispatch, is_tool. rewrite Ht, Hi.
  cbn [In] in Hn.
  repeat (destruct Hn as [Hn|Hn]; [subst name|]); try contradiction; compare_literals.
  - unfold bind at 1. cbn [lift deref]. unfold bind at 1.
    unfold UsableAPI.createTodo. unfold bind at 1. cbn [get].
    rewrite request_unreachable by exact Hoff.
    rewrite postToEmbed_posts by exact He. eexists. split; reflexivity.
  - destruct Hfound as [Hf|Hf]; [discriminate|].
    destruct (find_todo (in_id given) (todos w)) as [t|] eqn:Ef; [|contradiction].
    unfold bind at 1. cbn [get]. unfold bind at 1. cbn [lift deref]. rewrite Ef.
    unfold bind at 1.
    destruct (parseContent_returns (Fragment.content t)) as (p & -> & _). cbn [lift].
    unfold bind at 1. unfold UsableAPI.updateTodo.
    rewrite request_unreachable by exact Hoff.
    rewrite postToEmbed_posts by exact He. eexists. split; reflexivity.
  - destruct Hfound as [Hf|Hf]; [discriminate|].
    destruct (find_todo (in_id given) (todos w)) as [t|] eqn:Ef; [|contradiction].
    unfold bind at 1. cbn [get]. unfold bind at 1. cbn [lift deref]. rewrite Ef.
    unfold bind at 1.
    destruct (parseContent_returns (Fragment.content t)) as (p & -> & _). cbn [lift].
    unfold bind at 1. unfold UsableAPI.updateTodo.
    rewrite request_unreachable by exact Hoff.
    rewrite postToEmbed_posts by exact He. eexists. split; reflexivity.
  - destruct Hfound as [Hf|Hf]; [discriminate|].
    destruct (find_todo (in_id given) (todos w)) as [t|] eqn:Ef; [|contradiction].
    unfold bind at 1. cbn [get]. unfold bind at 1. cbn [lift deref]. rewrite Ef.
    unfold bind at 1.
    destruct (parseContent_returns (Fragment.content t)) as (p & -> & _). cbn [lift].
    unfold bind at 1. unfold UsableAPI.deleteTodo. unfold bind at 1.
    rewrite request_unreachable by exact Hoff.
    rewrite postToEmbed_posts by exact He. eexists. split; reflexivity.
Qed.
End Offline.

Lemma offline_writes_are_reported_not_applied_witness :
  exists r,
    @KanbanBoard.handleToolCall (Demo.platform Sample.offline_server)
       (Some (Sample.call "move_task" "a")) Demo.solo_board
    = (Returns tt,
       set_outbox (outbox Demo.solo_board
                     ++ [TOOL_RESPONSE (Some (lit "r7")) (Failure NetworkError)])
                  (set_http_log (http_log Demo.solo_board ++ [r]) Demo.solo_board))
    /\ Http.verb r
       = (if str_eqb (lit "move_task") (lit "create_task") then Http.POST
          else if str_eqb (lit "move_task") (lit "delete_task") then Http.DELETE
          else Http.PATCH).
Proof.
  refine (@offline_writes_are_reported_not_applied (Demo.platform Sample.offline_server)
            (lit "move_task") (Sample.call "move_task" "a") _ Demo.solo_board
            _ eq_refl eq_refl _ _ eq_refl).
  - cbn [In]. tauto.
  - right. vm_compute. discriminate.
  - intros r. reflexivity.
Defined.

(* ================================================================== *)
(** * updateCounts                                                  *)
(* ================================================================== *)

Section Counts.
Import KanbanBoard.

(** X30. On a page with the three columns and their counters,
    [updateCounts] sets each counter to the number of cards in its zone
    of the document (the card being dragged counts, the drop indicator
    does not) and changes nothing else; the cache plays no part. *)
Theorem updateCounts_counts_the_cards (w : world) :
  Frame.standard_layout w ->
  updateCounts w
  = (Returns tt,
     set_counts
       (map (fun z => (dropzone z, decimal (List.length (filter is_card (children z)))))
            (zones w))
       w).
Proof.
  intros [Hz Hc].
  destruct (zones w) as [|[d0 k0] [|[d1 k1] [|[d2 k2] [|? ?]]]] eqn:Ez; try discriminate.
  cbn [map dropzone] in Hz. injection Hz as -> -> ->.
  destruct (counts w) as [|[a0 t0] [|[a1 t1] [|[a2 t2] [|? ?]]]] eqn:Ec; try discriminate.
  cbn [map fst] in Hc. injection Hc as -> -> ->.
  unfold updateCounts. unfold bind at 1. cbn [get]. rewrite Ez, Ec. unfold modify.
  repeat progress
    (cbn [fold_left assign set_count dropzone children fst snd map]; settle_names).
  reflexivity.
Qed.
End Counts.

Lemma updateCounts_counts_the_cards_witness :
  KanbanBoard.updateCounts Demo.solo_held
  = (Returns tt,
     set_counts
       (map (fun z => (dropzone z,
                       decimal (List.length (filter KanbanBoard.is_card (children z)))))
            (zones Demo.solo_held))
       Demo.solo_held).
Proof.
  apply (@updateCounts_counts_the_cards Demo.solo_held). split; reflexivity.
Defined.
